(** * obsidian-movie-db: the crawl-and-format pipeline of [src/main.ts]

    A shallow embedding of the [MoviePlugin] class: the query builder
    [getUrl], the metadata fetcher [crawlMovie], the trailer fetcher
    [getTrailerOnYoutube], the template [formatter] and the orchestrator
    [crawlAndAdd], followed by the properties of the specification that
    concern them.

    Conventions of the embedding.
    - A JavaScript string is a list of characters ([jsstring]); a character
      is a code unit below 256, so [\s] and [\d] are the Latin-1 part of the
      JavaScript classes.  String literals are Rocq strings coerced to lists.
    - The object parsed from a JSON response is a [record]: its own
      enumerable properties in [for ... in] order, all string valued.
    - A JavaScript number is [NaN] or an integer ([number]); this is exact
      for integers of absolute value below 2^53.
    - [async] methods are computations in a monad [M] over a log of the
      host calls performed (notices, requests, vault writes), which end in
      [Return] or in an uncaught exception [Throw]. *)

From Stdlib Require Import Ascii String ZArith Lia Bool Arith List.
From Stdlib Require Import DecimalString.
Import ListNotations.

Definition jsstring := list ascii.

Coercion list_ascii_of_string : string >-> list.

Open Scope string_scope.
Open Scope list_scope.
Open Scope nat_scope.

(** ** Characters and character classes *)

Module Char.

Definition code (c : ascii) : nat := nat_of_ascii c.

(** [\d] *)
Definition is_digit (c : ascii) : bool :=
  (48 <=? code c) && (code c <=? 57).

(** [\s]: WhiteSpace and LineTerminator code units below 256
    (TAB, LF, VT, FF, CR, SP, NBSP). *)
Definition is_space (c : ascii) : bool :=
  existsb (Nat.eqb (code c)) [9; 10; 11; 12; 13; 32; 160].

Definition dquote : ascii := "034"%char.
Definition backslash : ascii := "092"%char.

(** The character class of the regex in [crawlMovie]: slash, backslash,
    question mark, percent, star, colon, bar, double quote, angle
    brackets. *)
Definition illegal : list ascii :=
  ["/"; backslash; "?"; "%"; "*"; ":"; "|"; dquote; "<"; ">"]%char.

Definition is_illegal (c : ascii) : bool := existsb (Ascii.eqb c) illegal.

Definition is_brace (c : ascii) : bool :=
  Ascii.eqb c "{" || Ascii.eqb c "}".

End Char.

(** ** Strings: the part of [String.prototype] the plugin uses *)

Module Str.

Fixpoint eqb (a b : jsstring) : bool :=
  match a, b with
  | [], [] => true
  | c :: a', d :: b' => Ascii.eqb c d && eqb a' b'
  | _, _ => false
  end.

(** Truthiness of a string: the empty string is the only falsy one. *)
Definition truthy (s : jsstring) : bool :=
  match s with [] => false | _ :: _ => true end.

Fixpoint starts_with (p s : jsstring) : bool :=
  match p, s with
  | [], _ => true
  | _ :: _, [] => false
  | c :: p', d :: s' => Ascii.eqb c d && starts_with p' s'
  end.

(** [s.indexOf(p)], returned as the text before the first occurrence of
    [p] and the text after it. *)
Fixpoint find_first (p s : jsstring) : option (jsstring * jsstring) :=
  if starts_with p s then Some ([], skipn (length p) s)
  else match s with
       | [] => None
       | c :: s' =>
           match find_first p s' with
           | Some (before, after) => Some (c :: before, after)
           | None => None
           end
       end.

(** GetSubstitution (ECMA-262, 22.1.3.19.1) for a match without capture
    groups: [$$] is a dollar sign, [$&] the matched text, [$`] the text
    before the match, [$'] the text after it; any other [$] stands for
    itself. *)
Fixpoint GetSubstitution (matched before after template : jsstring)
  : jsstring :=
  match template with
  | [] => []
  | c :: rest =>
      if Ascii.eqb c "$" then
        match rest with
        | [] => [c]
        | d :: rest' =>
            if Ascii.eqb d "$" then
              "$"%char :: GetSubstitution matched before after rest'
            else if Ascii.eqb d "&" then
              matched ++ GetSubstitution matched before after rest'
            else if Ascii.eqb d "`" then
              before ++ GetSubstitution matched before after rest'
            else if Ascii.eqb d "'" then
              after ++ GetSubstitution matched before after rest'
            else c :: GetSubstitution matched before after rest
        end
      else c :: GetSubstitution matched before after rest
  end.

(** [s.replace(p, v)] for a string pattern [p]: the first occurrence
    only, the replacement text expanded by [GetSubstitution]. *)
Definition replace (p v s : jsstring) : jsstring :=
  match find_first p s with
  | Some (before, after) =>
      before ++ GetSubstitution p before after v ++ after
  | None => s
  end.

(** [s.split(" ")[0]] *)
Fixpoint first_word (s : jsstring) : jsstring :=
  match s with
  | [] => []
  | c :: s' => if Ascii.eqb c " " then [] else c :: first_word s'
  end.

(** [s] occurs in [t]. *)
Definition occurs (s t : jsstring) : Prop :=
  exists before after, t = before ++ s ++ after.

(** [p] does not occur in [s] at an offset below [n]. *)
Definition absent_before (p s : jsstring) (n : nat) : Prop :=
  forall k, k < n -> starts_with p (skipn k s) = false.


End Str.

(** ** Regular expressions: the fragment used by [getUrl] and [crawlMovie] *)

Module Regex.

Inductive regex : Type :=
| Cls (p : ascii -> bool)      (* one character of a class *)
| Seq (r1 r2 : regex)
| Plus (p : ascii -> bool)     (* [p+], greedy *)
| Eos                          (* [$] *)
| Cap (r : regex).             (* a capture group *)

Definition Chr (c : ascii) : regex := Cls (Ascii.eqb c).
Arguments Chr c%_char.

(** [rs] in sequence, then [last]. *)
Fixpoint seq (rs : list regex) (last : regex) : regex :=
  match rs with
  | [] => last
  | r :: rs' => Seq r (seq rs' last)
  end.

(** [r{n}] followed by [last]. *)
Definition times (n : nat) (r last : regex) : regex :=
  seq (repeat r n) last.

(** Backtracking matcher in continuation-passing style: [run r s caps k]
    matches [r] at the start of [s] and hands the rest of the input and
    the captures to [k]; a failing continuation makes [Plus] give back
    characters. *)
Fixpoint run {X : Type} (r : regex) (s : jsstring) (caps : list jsstring)
  (k : jsstring -> list jsstring -> option X) {struct r} : option X :=
  match r with
  | Cls p =>
      match s with
      | c :: s' => if p c then k s' caps else None
      | [] => None
      end
  | Seq r1 r2 => run r1 s caps (fun s' caps' => run r2 s' caps' k)
  | Plus p =>
      (fix more (s : jsstring) : option X :=
         match s with
         | c :: s' =>
             if p c then
               match more s' with
               | Some x => Some x
               | None => k s' caps
               end
             else None
         | [] => None
         end) s
  | Eos => match s with [] => k [] caps | _ :: _ => None end
  | Cap r' =>
      run r' s caps
        (fun s' caps' => k s' (caps' ++ [firstn (length s - length s') s]))
  end.

(** A match at the start of [s]: the rest of the input and the captures. *)
Definition match_at (r : regex) (s : jsstring)
  : option (jsstring * list jsstring) :=
  run r s [] (fun rest caps => Some (rest, caps)).

Record found : Type := Found {
  before : jsstring;
  matched : jsstring;
  groups : list jsstring;
  after : jsstring
}.

Definition shift (c : ascii) (f : found) : found :=
  Found (c :: before f) (matched f) (groups f) (after f).

(** The leftmost match of [r] in [s]. *)
Fixpoint search (r : regex) (s : jsstring) : option found :=
  match match_at r s with
  | Some (rest, caps) =>
      Some (Found [] (firstn (length s - length rest) s) caps rest)
  | None =>
      match s with
      | [] => None
      | c :: s' => option_map (shift c) (search r s')
      end
  end.


(** [r.test(s)] *)
Definition test (r : regex) (s : jsstring) : bool :=
  match search r s with Some _ => true | None => false end.

(** [s.replace(r, v)] for a regex without the [g] flag. *)
Definition replace (r : regex) (v s : jsstring) : jsstring :=
  match search r s with
  | Some f =>
      before f ++ Str.GetSubstitution (matched f) (before f) (after f) v
        ++ after f
  | None => s
  end.

(** [s.replace(/[...]/g, v)] for a class of single characters and a
    replacement text [v] without [$]. *)
Definition replace_all_class (p : ascii -> bool) (v s : jsstring)
  : jsstring :=
  flat_map (fun c => if p c then v else [c]) s.

(** [s.match(r)?.[1]] *)
Definition match_group1 (r : regex) (s : jsstring) : option jsstring :=
  match search r s with
  | Some f => nth_error (groups f) 0
  | None => None
  end.

End Regex.

(** [String(v)] of a possibly undefined string. *)
Definition js_str (v : option jsstring) : jsstring :=
  match v with Some s => s | None => "undefined" end.

(** ** Numbers *)

Inductive number : Type :=
| NaN
| Num (z : Z).

Module Number.

(** Truthiness: [0] and [NaN] are falsy. *)
Definition truthy (n : number) : bool :=
  match n with
  | NaN => false
  | Num z => negb (Z.eqb z 0)
  end.

(** [Math.floor(n / d)] for a non-zero integer constant [d]. *)
Definition floor_div (n : number) (d : Z) : number :=
  match n with
  | NaN => NaN
  | Num z => Num (Z.div z d)
  end.

(** [n % d]: the remainder has the sign of the dividend. *)
Definition rem (n : number) (d : Z) : number :=
  match n with
  | NaN => NaN
  | Num z => Num (Z.rem z d)
  end.

(** [String(n)] *)
Definition to_string (n : number) : jsstring :=
  match n with
  | NaN => "NaN"
  | Num z => NilZero.string_of_int (Z.to_int z)
  end.

Definition digit_value (c : ascii) : Z := (Z.of_nat (Char.code c) - 48)%Z.

Definition is_hex_digit (c : ascii) : bool :=
  Char.is_digit c
  || ((97 <=? Char.code c) && (Char.code c <=? 102))
  || ((65 <=? Char.code c) && (Char.code c <=? 70)).

Definition hex_value (c : ascii) : Z :=
  if Char.is_digit c then digit_value c
  else if 97 <=? Char.code c then (Z.of_nat (Char.code c) - 87)%Z
  else (Z.of_nat (Char.code c) - 55)%Z.

Fixpoint skip_space (s : jsstring) : jsstring :=
  match s with
  | c :: s' => if Char.is_space c then skip_space s' else s
  | [] => []
  end.

(** The value of the longest prefix of [s] made of digits of the radix,
    [None] when that prefix is empty; [acc] is the value read so far. *)
Fixpoint read_digits (radix : Z) (is_dig : ascii -> bool)
  (value : ascii -> Z) (s : jsstring) (acc : option Z) : option Z :=
  match s with
  | c :: s' =>
      if is_dig c then
        read_digits radix is_dig value s'
          (Some (match acc with
                 | Some a => (a * radix + value c)%Z
                 | None => value c
                 end))
      else acc
  | [] => acc
  end.

(** [parseInt(s)] without a radix argument: leading white space, a sign,
    a [0x] or [0X] prefix selecting radix 16, then digits. *)
Definition parseInt (s : jsstring) : number :=
  let s1 := skip_space s in
  let '(sign, s2) :=
    match s1 with
    | c :: r =>
        if Ascii.eqb c "-" then ((-1)%Z, r)
        else if Ascii.eqb c "+" then (1%Z, r)
        else (1%Z, s1)
    | [] => (1%Z, s1)
    end in
  let digits :=
    match s2 with
    | z :: x :: r =>
        if Ascii.eqb z "0" && (Ascii.eqb x "x" || Ascii.eqb x "X")
        then read_digits 16 is_hex_digit hex_value r None
        else read_digits 10 Char.is_digit digit_value s2 None
    | _ => read_digits 10 Char.is_digit digit_value s2 None
    end in
  match digits with
  | Some v => Num (sign * v)%Z
  | None => NaN
  end.

End Number.

(** ** Records, settings and the plugin object *)

(** The own enumerable properties of a parsed JSON object, in enumeration
    order. *)
Definition record := list (jsstring * jsstring).

Definition field (key value : jsstring) : jsstring * jsstring := (key, value).

Module Record.

Definition keys (data : record) : list jsstring := map fst data.

(** [data[key]] *)
Fixpoint get (data : record) (key : jsstring) : option jsstring :=
  match data with
  | [] => None
  | (k, v) :: rest => if Str.eqb k key then Some v else get rest key
  end.

(** [data[key] = value] for a property that exists: its place in the
    enumeration order is kept. *)
Fixpoint set (data : record) (key value : jsstring) : record :=
  match data with
  | [] => [(key, value)]
  | (k, v) :: rest =>
      if Str.eqb k key then (k, value) :: rest
      else (k, v) :: set rest key value
  end.

End Record.

Record MoviePluginSettings : Type := {
  omdbapikey : jsstring;
  youtubeapikey : jsstring;
  template : jsstring;
  mainPath : jsstring;
  assetPath : jsstring;
  fileName : jsstring;
  imageSize : number
}.

Definition extractMovieUrl : jsstring :=
  "https://www.omdbapi.com/?apikey={key}&".

Definition youtubeApiUrl0 : jsstring :=
  "https://www.googleapis.com/youtube/v3/search?key={key}&type=video&maxResults=1&videoEmbeddable=true&q=".

Definition newline : jsstring := ["010"%char].

Definition DEFAULT_SETTINGS : MoviePluginSettings := {|
  omdbapikey := [];
  youtubeapikey := [];
  template :=
    "{{Poster}}" ++ newline ++ "**Length:** {{Runtime}}" ++ newline
    ++ "**Genre:** {{Genre}}" ++ newline ++ "**Actors:** {{Actors}}"
    ++ newline ++ "**Year:** {{Year}}" ++ newline
    ++ "**IMDB Score:** {{imdbRating}} ({{imdbVotes}})" ++ newline
    ++ newline ++ "{{Plot}}" ++ newline ++ newline ++ "{{Trailer}}";
  mainPath := "movies";
  assetPath := "assets";
  fileName := "{{Title}}";
  imageSize := Num 200
|}.

(** The fields of a [MoviePlugin] instance. *)
Record MoviePlugin : Type := {
  settings : MoviePluginSettings;
  youtubeApiUrl : jsstring;
  omdbApiUrl : jsstring
}.

Definition updateKeys (p : MoviePlugin) : MoviePlugin := {|
  settings := settings p;
  youtubeApiUrl :=
    Str.replace "{key}" (youtubeapikey (settings p)) youtubeApiUrl0;
  omdbApiUrl := Str.replace "{key}" (omdbapikey (settings p)) extractMovieUrl
|}.

(** [onload]: the settings are loaded, then [updateKeys] runs. *)
Definition load (s : MoviePluginSettings) : MoviePlugin :=
  updateKeys {| settings := s; youtubeApiUrl := []; omdbApiUrl := [] |}.

(** The settings [s] with the two API keys set. *)
Definition with_keys (omdb youtube : jsstring) (s : MoviePluginSettings)
  : MoviePluginSettings := {|
  omdbapikey := omdb;
  youtubeapikey := youtube;
  template := template s;
  mainPath := mainPath s;
  assetPath := assetPath s;
  fileName := fileName s;
  imageSize := imageSize s
|}.

(** ** The query builder *)

(** [/tt\d+$/] *)
Definition re_imdb_id : Regex.regex :=
  Regex.seq [Regex.Chr "t"; Regex.Chr "t"; Regex.Plus Char.is_digit] Regex.Eos.

(** [/\s\([\d]{4}\)/] *)
Definition re_year : Regex.regex :=
  Regex.seq [Regex.Cls Char.is_space; Regex.Chr "("]
    (Regex.times 4 (Regex.Cls Char.is_digit) (Regex.Chr ")")).

(** [/\(([\d]{4})\)/] *)
Definition re_year_group : Regex.regex :=
  Regex.seq
    [Regex.Chr "(";
     Regex.Cap
       (Regex.seq (repeat (Regex.Cls Char.is_digit) 3)
          (Regex.Cls Char.is_digit))]
    (Regex.Chr ")").

Definition getUrl (p : MoviePlugin) (text : jsstring) : jsstring :=
  if Regex.test re_imdb_id text then
    omdbApiUrl p ++ "i=" ++ text
  else if Regex.test re_year text then
    omdbApiUrl p ++ "t=" ++ Regex.replace re_year [] text ++ "&y="
      ++ js_str (Regex.match_group1 re_year_group text)
  else
    omdbApiUrl p ++ "t=" ++ text.

(** The title as [crawlMovie] rewrites it. *)
Definition sanitize (title : jsstring) : jsstring :=
  Regex.replace_all_class Char.is_illegal "-" title.

(** ** Host calls and the pipeline monad *)

Record search_item : Type := { videoId : jsstring }.

Inductive json : Type :=
| JRecord (fields : record)              (* an object of string properties *)
| JSearch (items : list search_item).    (* [{ items: [{ id: { videoId } }, ...] }] *)

Inductive body : Type :=
| Malformed (e : jsstring)               (* reading [response.json] throws [e] *)
| Json (j : json).

Inductive response : Type :=
| Rejected (e : jsstring)                (* network error or HTTP error status *)
| Arrived (b : body).

(** The network: the response to the [n]-th request of a run. *)
Definition world := nat -> jsstring -> response.

Inductive event : Type :=
| Notice (msg : jsstring)                (* [new Notice(msg)] *)
| ConsoleLog                             (* [console.log(response)] *)
| Request (url : jsstring)               (* [requestUrl] *)
| CreateBinary (path : jsstring)         (* [vault.createBinary] *)
| Create (path text : jsstring)          (* [vault.create] *)
| OpenLink (path : jsstring).            (* [workspace.openLinkText] *)

(** The host calls made so far: [requests] counts the requests issued,
    [log] lists the calls of the awaited pipeline in order and [background]
    those of calls that were not awaited, which happen on their own. *)
Record state : Type := {
  requests : nat;
  log : list event;
  background : list event
}.

Inductive outcome (A : Type) : Type :=
| Return (a : A)
| Throw (e : jsstring).

Arguments Return {A} a.
Arguments Throw {A} e.

Definition M (A : Type) : Type := state -> outcome A * state.

Definition ret {A} (a : A) : M A := fun st => (Return a, st).

Definition throw {A} (e : jsstring) : M A := fun st => (Throw e, st).

Definition bind {A B} (m : M A) (f : A -> M B) : M B :=
  fun st =>
    match m st with
    | (Return a, st') => f a st'
    | (Throw e, st') => (Throw e, st')
    end.

Declare Scope pipeline_scope.
Delimit Scope pipeline_scope with pipeline.
Notation "x <- m ;; k" := (bind m (fun x => k))
  (at level 61, m at next level, right associativity) : pipeline_scope.
Notation "m ;; k" := (bind m (fun _ => k))
  (at level 61, right associativity) : pipeline_scope.
Open Scope pipeline_scope.

(** [try { m } catch (e) { h e }] *)
Definition try_catch {A} (m : M A) (h : jsstring -> M A) : M A :=
  fun st =>
    match m st with
    | (Return a, st') => (Return a, st')
    | (Throw e, st') => h e st'
    end.

Definition emit (e : event) : M unit :=
  fun st =>
    (Return tt,
     {| requests := requests st;
        log := log st ++ [e];
        background := background st |}).

(** A call that is not awaited: its host calls go to the background and
    its exception, if any, reaches no handler of the caller. *)
Definition detach (m : M unit) : M unit :=
  fun st =>
    let '(_, st') :=
      m {| requests := requests st; log := []; background := [] |} in
    (Return tt,
     {| requests := requests st';
        log := log st;
        background := background st ++ log st' ++ background st' |}).

Definition TypeError (property : jsstring) : jsstring :=
  "TypeError: Cannot read properties of undefined (reading '" ++ property
    ++ "')".

(** [response.json] *)
Definition json_of (b : body) : M json :=
  match b with
  | Malformed e => throw e
  | Json j => ret j
  end.

Definition token (key : jsstring) : jsstring := "{{" ++ key ++ "}}".

Definition quoted (s : jsstring) : jsstring :=
  Char.dquote :: s ++ [Char.dquote].

(** The replacement text of [{{Poster}}]. *)
Definition poster_embed (assets name : jsstring) (size : number) : jsstring :=
  "![[" ++ assets ++ "/" ++ name ++ ".jpg|movie|" ++ Number.to_string size
    ++ "]]".

(** The replacement text of [{{Trailer}}] when a trailer was looked up. *)
Definition trailer_embed (trailer : jsstring) : jsstring :=
  "<iframe class=" ++ quoted "movie" ++ " width=" ++ quoted "560"
    ++ " height=" ++ quoted "315" ++ " src="
    ++ quoted ("https://www.youtube.com/embed/" ++ trailer)
    ++ " title=" ++ quoted "YouTube video player"
    ++ " frameborder=" ++ quoted "0" ++ " allow="
    ++ quoted "accelerometer; autoplay; clipboard-write; encrypted-media; gyroscope; picture-in-picture; web-share"
    ++ " allowfullscreen></iframe>".

(** ** The methods of [MoviePlugin] *)

Section Pipeline.

Variable this : MoviePlugin.
Variable net : world.

Definition requestUrl (url : jsstring) : M body :=
  fun st =>
    let st' := {| requests := S (requests st);
                  log := log st ++ [Request url];
                  background := background st |} in
    match net (requests st) url with
    | Rejected e => (Throw e, st')
    | Arrived b => (Return b, st')
    end.

Definition addImageToAssets (url fileName : jsstring) : M unit :=
  let assetsPath := assetPath (settings this) in
  _ <- requestUrl url ;;
  emit (CreateBinary (assetsPath ++ "/" ++ fileName)).

Definition getTrailerOnYoutube (title : jsstring) : M jsstring :=
  let url := youtubeApiUrl this ++ title ++ " trailer" in
  response <- requestUrl url ;;
  j <- json_of response ;;
  match j with
  | JRecord _ => throw (TypeError "0")          (* [items] is undefined *)
  | JSearch [] => throw (TypeError "id")        (* [items[0]] is undefined *)
  | JSearch (item :: _) => ret (videoId item)
  end.

Definition is_special (key : jsstring) : bool :=
  Str.eqb key "Poster" || Str.eqb key "Trailer" || Str.eqb key "Runtime".

(** The body of the [for (const key in data)] loop. *)
Definition substitute_field (data : record) (template key : jsstring)
  : jsstring :=
  if negb (is_special key) then
    let value := js_str (Record.get data key) in
    Str.replace (token key) value template
  else template.

Definition generic_pass (data : record) (template : jsstring) : jsstring :=
  fold_left (substitute_field data) (Record.keys data) template.

(** The replacement text of [{{Runtime}}]. *)
Definition runtime_text (data : record) : jsstring :=
  match Record.get data "Runtime" with
  | Some runtime =>
      if Str.truthy runtime && negb (Str.eqb runtime "N/A") then
        let minute := Number.parseInt (Str.first_word runtime) in
        let hour := Number.floor_div minute 60 in
        let minuteLeft := Number.rem minute 60 in
        Number.to_string hour ++ "h " ++ Number.to_string minuteLeft ++ "m"
      else "-"
  | None => "-"
  end.

Definition format_runtime (data : record) (template : jsstring) : jsstring :=
  Str.replace "{{Runtime}}" (runtime_text data) template.

(** The replacement text of [{{Poster}}]. *)
Definition poster_text (data : record) : jsstring :=
  match Record.get data "Poster" with
  | Some poster =>
      if Str.truthy poster && negb (Str.eqb poster "N/A") then
        let fileName :=
          Str.replace "{{Title}}" (js_str (Record.get data "Title"))
            (fileName (settings this)) in
        let imageSize :=
          if Number.truthy (imageSize (settings this))
          then imageSize (settings this) else Num 200 in
        poster_embed (assetPath (settings this)) fileName imageSize
      else "-"
  | None => "-"
  end.

Definition format_poster (data : record) (template : jsstring) : jsstring :=
  Str.replace "{{Poster}}" (poster_text data) template.

Definition formatter (data : record) (template : jsstring) : M jsstring :=
  let template := generic_pass data template in
  let template := format_runtime data template in
  let template := format_poster data template in
  if Str.truthy (youtubeapikey (settings this)) then
    trailer <- getTrailerOnYoutube (js_str (Record.get data "Title")) ;;
    ret (Str.replace "{{Trailer}}" (trailer_embed trailer) template)
  else
    ret (Str.replace "{{Trailer}}" [] template).

Definition formatMovie (movie : record) : M jsstring :=
  formatter movie (template (settings this)).

Definition crawlMovie (text : jsstring) : M (option record) :=
  let movieUrl := getUrl this text in
  try_catch
    (response <- requestUrl movieUrl ;;
     emit ConsoleLog ;;
     j <- json_of response ;;
     match j with
     | JRecord movie =>
         match Record.get movie "Title" with
         | Some title =>
             ret (Some (Record.set movie "Title" (sanitize title)))
         | None => throw (TypeError "replace")
         end
     | JSearch _ => throw (TypeError "replace")
     end)
    (fun e =>
       emit (Notice "Movie not found.") ;;
       emit (Notice e) ;;
       emit (Notice movieUrl) ;;
       ret None).

Definition addContentToFile (text : jsstring) (movie : record) : M unit :=
  let mainPath := mainPath (settings this) in
  fileName <- formatter movie (fileName (settings this)) ;;
  emit (Create (mainPath ++ "/" ++ fileName ++ ".md") text) ;;
  emit (OpenLink (mainPath ++ "/" ++ fileName ++ ".md")) ;;
  emit (Notice "Movie added successfully!").

Definition crawlAndAdd (text : jsstring) : M unit :=
  if negb (Str.truthy (omdbapikey (settings this))) then
    emit (Notice "Please enter your OMDB API key in the settings.")
  else
    (if negb (Str.truthy (youtubeapikey (settings this))) then
       emit (Notice "Youtube API key is missing. Trailer will not be added.")
     else ret tt) ;;
    found <- crawlMovie text ;;
    match found with
    | None => ret tt
    | Some movie =>
        let title := js_str (Record.get movie "Title") in
        detach
          (addImageToAssets (js_str (Record.get movie "Poster"))
             (title ++ ".jpg")) ;;
        movieStr <- formatMovie movie ;;
        addContentToFile movieStr movie
    end.

End Pipeline.

Definition start : state := {| requests := 0; log := []; background := [] |}.

(** ** Vocabulary of the statements *)

(** The ways the metadata fetch fails, with the text of the exception that
    [crawlMovie] catches: the request is rejected, the body is not JSON, or
    the API answers with an object that has no [Title] (its not-found
    answer), on which [movie.Title.replace] throws. *)
Inductive fetch_fails : response -> jsstring -> Prop :=
| network_error (e : jsstring) : fetch_fails (Rejected e) e
| malformed_json (e : jsstring) : fetch_fails (Arrived (Malformed e)) e
| not_found (answer : record) :
    Record.get answer "Title" = None ->
    fetch_fails (Arrived (Json (JRecord answer))) (TypeError "replace").

(** What [crawlMovie] logs between the request and the handler. *)
Definition logged (r : response) : list event :=
  match r with
  | Rejected _ => []
  | Arrived _ => [ConsoleLog]
  end.

(** The notice of [crawlAndAdd] about a missing video-search key. *)
Definition warning (this : MoviePlugin) : list event :=
  if Str.truthy (youtubeapikey (settings this)) then []
  else [Notice "Youtube API key is missing. Trailer will not be added."].

(** The text [formatter] returns when [{{Trailer}}] is given the
    replacement text [trailer]. *)
Definition formatted (this : MoviePlugin) (data : record)
  (template trailer : jsstring) : jsstring :=
  Str.replace "{{Trailer}}" trailer
    (format_poster this data (format_runtime data (generic_pass data template))).

(** The state in which [crawlAndAdd] starts formatting: the metadata
    arrived and the poster download was started. *)
Definition fetched (this : MoviePlugin) (net : world) (text : jsstring)
  (movie : record) (st : state) : state :=
  let poster := js_str (Record.get movie "Poster") in
  {| requests := S (S (requests st));
     log := log st ++ warning this ++ [Request (getUrl this text); ConsoleLog];
     background :=
       background st
       ++ Request poster
          :: match net (S (requests st)) poster with
             | Arrived _ =>
                 [CreateBinary
                    (assetPath (settings this) ++ "/"
                     ++ js_str (Record.get movie "Title") ++ ".jpg")]
             | Rejected _ => []
             end |}.

(** The state after one more awaited request. *)
Definition requested (url : jsstring) (st : state) : state :=
  {| requests := S (requests st);
     log := log st ++ [Request url];
     background := background st |}.

(** The state after more logged calls of the awaited pipeline. *)
Definition logging (events : list event) (st : state) : state :=
  {| requests := requests st;
     log := log st ++ events;
     background := background st |}.








(** The value of a string of decimal digits. *)
Definition decimal_value (ds : jsstring) : Z :=
  fold_left (fun a c => (a * 10 + Number.digit_value c)%Z) ds 0%Z.

(** [s] starts with the radix-16 prefix. *)
Definition hex_prefix (s : jsstring) : Prop :=
  exists r, s = "0x" ++ r \/ s = "0X" ++ r.

(** [m] is the decimal integer that [s] starts with, as [parseInt] reads
    it: [ds] is the longest prefix of [s] made of digits, and [s] does not
    start with [0x] or [0X], the prefix after which [parseInt] reads
    hexadecimal digits instead (see [leading_hexadecimal]). *)
Definition leading_integer (s : jsstring) (m : Z) : Prop :=
  exists ds rest,
    s = ds ++ rest
    /\ ds <> [] /\ forallb Char.is_digit ds = true
    /\ match rest with
       | c :: _ => Char.is_digit c = false
       | [] => True
       end
    /\ ~ hex_prefix s
    /\ m = decimal_value ds.

(** The value of a string of hexadecimal digits. *)
Definition hexadecimal_value (hs : jsstring) : Z :=
  fold_left (fun a c => (a * 16 + Number.hex_value c)%Z) hs 0%Z.

(** [m] is the hexadecimal integer that [s] starts with, as [parseInt]
    reads it: after the prefix [0x] or [0X], [hs] is the longest run of
    hexadecimal digits, and it is not empty. *)
Definition leading_hexadecimal (s : jsstring) (m : Z) : Prop :=
  exists x hs rest,
    s = "0"%char :: x :: hs ++ rest
    /\ (x = "x"%char \/ x = "X"%char)
    /\ hs <> [] /\ forallb Number.is_hex_digit hs = true
    /\ match rest with
       | c :: _ => Number.is_hex_digit c = false
       | [] => True
       end
    /\ m = hexadecimal_value hs.

(** The character [d] does not occur in [s]. *)
Definition free_of (d : ascii) (s : jsstring) : bool :=
  forallb (fun c => negb (Ascii.eqb c d)) s.

(** The replacement text [v] has none of the patterns [$$], [$&], [$`],
    [$']: [replace] inserts it as it is. *)
Fixpoint plain (v : jsstring) : bool :=
  match v with
  | [] => true
  | c :: rest =>
      negb (Ascii.eqb c "$"
            && match rest with
               | d :: _ => existsb (Ascii.eqb d) ["$"; "&"; "`"; "'"]%char
               | [] => false
               end)
      && plain rest
  end.

(** *** Templates as segments *)

(** A template cut into plain text and placeholder tokens. *)
Inductive segment : Type :=
| Text (s : jsstring)
| Slot (key : jsstring).          (* the token [{{key}}] *)

Definition segment_text (g : segment) : jsstring :=
  match g with
  | Text s => s
  | Slot key => token key
  end.

(** The template string that the segments spell. *)
Definition template_of (segs : list segment) : jsstring :=
  flat_map segment_text segs.

Definition brace_free (s : jsstring) : bool :=
  forallb (fun c => negb (Char.is_brace c)) s.

(** Braces occur in the template only as the delimiters of its tokens. *)
Definition well_formed (segs : list segment) : bool :=
  forallb
    (fun g => match g with Text s => brace_free s | Slot key => brace_free key end)
    segs.

Definition is_slot (key : jsstring) (g : segment) : bool :=
  match g with
  | Text _ => false
  | Slot k => Str.eqb k key
  end.

(** The segments before and after the first token [{{key}}]. *)
Fixpoint split_slot (key : jsstring) (segs : list segment)
  : option (list segment * list segment) :=
  match segs with
  | [] => None
  | g :: rest =>
      if is_slot key g then Some ([], rest)
      else match split_slot key rest with
           | Some (before, after) => Some (g :: before, after)
           | None => None
           end
  end.

(** The first token [{{key}}] filled with [value]. *)
Definition fill (segs : list segment) (sub : jsstring * jsstring)
  : list segment :=
  match split_slot (fst sub) segs with
  | Some (before, after) => before ++ Text (snd sub) :: after
  | None => segs
  end.

(** Where the tokens [{{key}}] stand among the segments. *)
Definition slots (key : jsstring) (segs : list segment) : list bool :=
  map (is_slot key) segs.

(** The substitutions [formatter] performs, in order: the token key and the
    replacement text of each; [trailer] is the text given to
    [{{Trailer}}]. *)
Definition substitutions (this : MoviePlugin) (data : record)
  (trailer : jsstring) : list (jsstring * jsstring) :=
  map (fun key => (key, js_str (Record.get data key)))
    (filter (fun key => negb (is_special key)) (Record.keys data))
  ++ [field "Runtime" (runtime_text data);
      field "Poster" (poster_text this data);
      field "Trailer" trailer].

(** A token key and a replacement text that leave a template well formed:
    no braces, and no replacement pattern in the text. *)
Definition clean (sub : jsstring * jsstring) : bool :=
  brace_free (fst sub) && brace_free (snd sub) && plain (snd sub).

(** The URL of the trailer lookup for a record. *)
Definition trailer_url (this : MoviePlugin) (data : record) : jsstring :=
  youtubeApiUrl this ++ js_str (Record.get data "Title") ++ " trailer".

(** The text that [formatter] gives to [{{Trailer}}], when the lookup
    returns. *)
Definition trailer_text (this : MoviePlugin) (net : world) (data : record)
  (st : state) : option jsstring :=
  if Str.truthy (youtubeapikey (settings this)) then
    match net (requests st) (trailer_url this data) with
    | Arrived (Json (JSearch (item :: _))) => Some (trailer_embed (videoId item))
    | _ => None
    end
  else Some [].

(** The state after the trailer lookup of one [formatter] call. *)
Definition after_trailer (this : MoviePlugin) (data : record) (st : state)
  : state :=
  if Str.truthy (youtubeapikey (settings this))
  then requested (trailer_url this data) st
  else st.

(** Where [addContentToFile] writes the note. *)
Definition note_path (this : MoviePlugin) (name : jsstring) : jsstring :=
  mainPath (settings this) ++ "/" ++ name ++ ".md".

(** The paths of the files that the logged calls create. *)
Definition written (events : list event) : list jsstring :=
  flat_map
    (fun e => match e with
              | Create path _ => [path]
              | CreateBinary path => [path]
              | _ => []
              end)
    events.

(** The strings of [l] are pairwise different. *)
Fixpoint distinct (l : list jsstring) : bool :=
  match l with
  | [] => true
  | s :: rest => negb (existsb (Str.eqb s) rest) && distinct rest
  end.

(** ** Sample inputs *)

Module Sample.

(** The settings [s] with another file name template. *)
Definition with_file_name (name : jsstring) (s : MoviePluginSettings)
  : MoviePluginSettings := {|
  omdbapikey := omdbapikey s;
  youtubeapikey := youtubeapikey s;
  template := template s;
  mainPath := mainPath s;
  assetPath := assetPath s;
  fileName := name;
  imageSize := imageSize s
|}.

(** A plugin with the default settings: no key is configured. *)
Definition unconfigured : MoviePlugin := load DEFAULT_SETTINGS.

(** A plugin with the movie-database key only. *)
Definition with_omdb_key : MoviePlugin :=
  load (with_keys "k" [] DEFAULT_SETTINGS).

(** A plugin with both keys and a file name template of two tokens. *)
Definition with_both_keys : MoviePlugin :=
  load (with_file_name "{{Title}} ({{Runtime}})"
          (with_keys "k" "y" DEFAULT_SETTINGS)).

Definition dune : record :=
  [field "Title" "Dune: Part Two"; field "Year" "2024";
   field "Runtime" "166 min"; field "Poster" "http://x/p.jpg";
   field "Plot" "Spice."].

Definition dune_1984 : record :=
  [field "Title" "Dune"; field "Year" "1984"].

(** A record whose runtime is the empty string. *)
Definition no_runtime : record :=
  [field "Title" "Dune"; field "Runtime" []].

(** The answer of the API for an unknown title. *)
Definition unknown : record :=
  [field "Response" "False"; field "Error" "Movie not found!"].

(** The movie is found, the poster arrives, every trailer search has one
    result. *)
Definition net_found : world :=
  fun n _ =>
    match n with
    | 0 => Arrived (Json (JRecord dune))
    | 1 => Arrived (Malformed "not JSON")
    | _ => Arrived (Json (JSearch [{| videoId := "abc" |}]))
    end.

(** The movie is found, the trailer search has no result. *)
Definition net_no_trailer : world :=
  fun n _ =>
    match n with
    | 0 => Arrived (Json (JRecord dune))
    | 1 => Arrived (Malformed "not JSON")
    | _ => Arrived (Json (JSearch []))
    end.

(** The API does not know the title. *)
Definition net_unknown : world :=
  fun _ _ => Arrived (Json (JRecord unknown)).

(** A record with a title that holds a replacement pattern. *)
Definition dollars : record :=
  [field "Title" "$$"; field "Poster" "http://x/p.jpg"].

Definition net_dollars : world :=
  fun n _ =>
    match n with
    | 0 => Arrived (Json (JRecord dollars))
    | _ => Arrived (Malformed "not JSON")
    end.

(** A record with a field whose value is the token of another field. *)
Definition nested : record :=
  [field "K" "{{T}}"; field "T" "v"].


(** A template with the title token twice. *)
Definition heading : list segment := [Text "# "].

Definition body_segments : list segment :=
  [Text " ("; Slot "Year"; Text ") "; Slot "Title"].

End Sample.

(** ** The settings tab and the modal *)

Module SampleSettingTab.

(** The text controls that [display] builds.  [FileName] stands for the two
    controls, labelled File name and File Name, whose handlers both write
    [settings.fileName]; [ImagePath] is the control of [settings.assetPath]. *)
Inductive control : Type :=
| OmdbApiKey
| YoutubeApiKey
| Template
| MainPath
| FileName
| ImagePath
| ImageSize.

(** The plugin, and the settings handed to [saveData] so far, latest last. *)
Record host : Type := {
  plugin : MoviePlugin;
  saved : list MoviePluginSettings
}.

(** The assignment that opens every [onChange] handler. *)
Definition assign (c : control) (value : jsstring) (s : MoviePluginSettings)
  : MoviePluginSettings :=
  match c with
  | OmdbApiKey =>
      {| omdbapikey := value; youtubeapikey := youtubeapikey s;
         template := template s; mainPath := mainPath s;
         assetPath := assetPath s; fileName := fileName s;
         imageSize := imageSize s |}
  | YoutubeApiKey =>
      {| omdbapikey := omdbapikey s; youtubeapikey := value;
         template := template s; mainPath := mainPath s;
         assetPath := assetPath s; fileName := fileName s;
         imageSize := imageSize s |}
  | Template =>
      {| omdbapikey := omdbapikey s; youtubeapikey := youtubeapikey s;
         template := value; mainPath := mainPath s;
         assetPath := assetPath s; fileName := fileName s;
         imageSize := imageSize s |}
  | MainPath =>
      {| omdbapikey := omdbapikey s; youtubeapikey := youtubeapikey s;
         template := template s; mainPath := value;
         assetPath := assetPath s; fileName := fileName s;
         imageSize := imageSize s |}
  | FileName =>
      {| omdbapikey := omdbapikey s; youtubeapikey := youtubeapikey s;
         template := template s; mainPath := mainPath s;
         assetPath := assetPath s; fileName := value;
         imageSize := imageSize s |}
  | ImagePath =>
      {| omdbapikey := omdbapikey s; youtubeapikey := youtubeapikey s;
         template := template s; mainPath := mainPath s;
         assetPath := value; fileName := fileName s;
         imageSize := imageSize s |}
  | ImageSize =>
      {| omdbapikey := omdbapikey s; youtubeapikey := youtubeapikey s;
         template := template s; mainPath := mainPath s;
         assetPath := assetPath s; fileName := fileName s;
         imageSize := Number.parseInt value |}
  end.

(** [saveSettings]: [saveData(this.settings)].  As for the vault calls of
    the pipeline, the host call is taken to return. *)
Definition saveSettings (h : host) : host :=
  {| plugin := plugin h; saved := saved h ++ [settings (plugin h)] |}.

(** The [onChange] handler of the control [c], called with the text of the
    control: it assigns the setting and saves; the handlers of the two keys
    then call [updateKeys]. *)
Definition onChange (c : control) (value : jsstring) (h : host) : host :=
  let p := plugin h in
  let h1 :=
    saveSettings
      {| plugin := {| settings := assign c value (settings p);
                      youtubeApiUrl := youtubeApiUrl p;
                      omdbApiUrl := omdbApiUrl p |};
         saved := saved h |} in
  match c with
  | OmdbApiKey | YoutubeApiKey =>
      {| plugin := updateKeys (plugin h1); saved := saved h1 |}
  | _ => h1
  end.

(** The plugin after [onload] with the settings [s]: nothing saved yet. *)
Definition loaded (s : MoviePluginSettings) : host :=
  {| plugin := load s; saved := [] |}.

(** The handlers called one after the other, each with its control and the
    text typed into it. *)
Definition edits (es : list (control * jsstring)) (h : host) : host :=
  fold_left (fun h e => onChange (fst e) (snd e) h) es h.

End SampleSettingTab.

Module MovieModal.

(** The field [result] of the modal: undefined until the user types. *)
Record modal : Type := { result : option jsstring }.

(** The modal as its constructor leaves it. *)
Definition opened : modal := {| result := None |}.

(** The [onChange] handler of the text control. *)
Definition onChange (value : jsstring) (m : modal) : modal :=
  {| result := Some value |}.

(** The user types: the control reports each new text. *)
Definition typing (values : list jsstring) (m : modal) : modal :=
  fold_left (fun m v => onChange v m) values m.

Section Submit.

Variable this : MoviePlugin.
Variable net : world.

(** The click handler of Submit, with the [onSubmit] that [onload] passes:
    [this.crawlAndAdd(this.result)].  [crawlAndAdd] reads its argument only
    in [getUrl], through [RegExp.prototype.test] and [+], which both
    convert an undefined argument to the text [undefined]; that text takes
    the last branch of [getUrl], the one without a method call on it. *)
Definition onClick (m : modal) : M unit :=
  crawlAndAdd this net (js_str (result m)).

End Submit.

End MovieModal.

(** ** More vocabulary *)

(** The exception that [crawlMovie] catches for a response, if any: the
    rejection of the request, the parse error of the body, or the
    [TypeError] of [movie.Title.replace] on an answer without [Title]. *)
Definition lookup_error (r : response) : option jsstring :=
  match r with
  | Rejected e => Some e
  | Arrived (Malformed e) => Some e
  | Arrived (Json (JRecord answer)) =>
      match Record.get answer "Title" with
      | Some _ => None
      | None => Some (TypeError "replace")
      end
  | Arrived (Json (JSearch _)) => Some (TypeError "replace")
  end.

(** The record that [crawlMovie] returns for a response. *)
Definition lookup_result (r : response) : option record :=
  match r with
  | Arrived (Json (JRecord answer)) =>
      match Record.get answer "Title" with
      | Some title => Some (Record.set answer "Title" (sanitize title))
      | None => None
      end
  | _ => None
  end.

(** The outcome of the trailer lookup of one [formatter] call: the
    replacement text of [{{Trailer}}], or the exception of
    [getTrailerOnYoutube]. *)
Definition trailer_outcome (this : MoviePlugin) (net : world) (data : record)
  (st : state) : outcome jsstring :=
  if Str.truthy (youtubeapikey (settings this)) then
    match net (requests st) (trailer_url this data) with
    | Rejected e => Throw e
    | Arrived (Malformed e) => Throw e
    | Arrived (Json (JRecord _)) => Throw (TypeError "0")
    | Arrived (Json (JSearch [])) => Throw (TypeError "id")
    | Arrived (Json (JSearch (item :: _))) =>
        Return (trailer_embed (videoId item))
    end
  else Return [].

(** No character of [Char.illegal] occurs in [s]. *)
Definition safe (s : jsstring) : bool :=
  forallb (fun c => negb (Char.is_illegal c)) s.

(** The text that [formatter] has for the token [{{key}}], if any: the
    derived text of the three special tokens, the field of the record for
    any other key. *)
Definition token_value (this : MoviePlugin) (data : record)
  (trailer key : jsstring) : option jsstring :=
  if Str.eqb key "Runtime" then Some (runtime_text data)
  else if Str.eqb key "Poster" then Some (poster_text this data)
  else if Str.eqb key "Trailer" then Some trailer
  else Record.get data key.

(** A segment with its token, if it is one that has a text, replaced by
    that text. *)
Definition fill_segment (value : jsstring -> option jsstring) (g : segment)
  : segment :=
  match g with
  | Text s => Text s
  | Slot key =>
      match value key with
      | Some v => Text v
      | None => Slot key
      end
  end.

(** Every token of the template replaced at once. *)
Definition fill_all (value : jsstring -> option jsstring)
  (segs : list segment) : list segment :=
  map (fill_segment value) segs.

(** The keys of the tokens of a template, in order. *)
Definition slot_keys (segs : list segment) : list jsstring :=
  flat_map (fun g => match g with Slot key => [key] | Text _ => [] end) segs.

(** The first replacement text that a list of substitutions has for a
    key. *)
Fixpoint first_value (subs : list (jsstring * jsstring)) (key : jsstring)
  : option jsstring :=
  match subs with
  | [] => None
  | (k, v) :: rest => if Str.eqb k key then Some v else first_value rest key
  end.

(** The default template, cut into segments. *)
Definition default_segments : list segment :=
  [Slot "Poster"; Text (newline ++ "**Length:** "); Slot "Runtime";
   Text (newline ++ "**Genre:** "); Slot "Genre";
   Text (newline ++ "**Actors:** "); Slot "Actors";
   Text (newline ++ "**Year:** "); Slot "Year";
   Text (newline ++ "**IMDB Score:** "); Slot "imdbRating"; Text " (";
   Slot "imdbVotes"; Text (")" ++ newline ++ newline); Slot "Plot";
   Text (newline ++ newline); Slot "Trailer"].

(** The text that stands in the note for the token [{{key}}] of a field:
    the field, or the token itself when the record has no such field. *)
Definition shown (data : record) (key : jsstring) : jsstring :=
  match Record.get data key with
  | Some v => v
  | None => token key
  end.

(** The first word of a runtime does not start a number for [parseInt]: it
    is empty, or its first character is no digit, sign or white space. *)
Definition no_number (w : jsstring) : bool :=
  match w with
  | [] => true
  | c :: _ =>
      negb (Char.is_digit c || Char.is_space c
            || Ascii.eqb c "+" || Ascii.eqb c "-")
  end.

(** The two worlds answer alike, except to the request number [n]. *)
Definition agree_except (n : nat) (net net' : world) : Prop :=
  forall k url, k <> n -> net k url = net' k url.

(** The records have the same fields, whatever their order. *)
Definition same_fields (data data' : record) : Prop :=
  forall key, Record.get data key = Record.get data' key.

Module Sample2.

(** The fields of [Sample.dune] in another order. *)
Definition dune_reordered : record :=
  [field "Plot" "Spice."; field "Poster" "http://x/p.jpg";
   field "Runtime" "166 min"; field "Year" "2024";
   field "Title" "Dune: Part Two"].

(** A record whose runtime is no number. *)
Definition unknown_runtime : record :=
  [field "Title" "Dune"; field "Runtime" "unknown"].

(** A record without a poster. *)
Definition no_poster : record :=
  [field "Title" "Dune"; field "Poster" "N/A"].

Definition net_no_poster : world :=
  fun n _ =>
    match n with
    | 0 => Arrived (Json (JRecord no_poster))
    | _ => Rejected "404"
    end.

(** The poster download is rejected. *)
Definition net_poster_fails : world :=
  fun n _ =>
    match n with
    | 0 => Arrived (Json (JRecord Sample.dune))
    | 1 => Rejected "timeout"
    | _ => Arrived (Json (JSearch [{| videoId := "abc" |}]))
    end.

(** A template with each of its tokens once. *)
Definition card : list segment :=
  [Text "# "; Slot "Title"; Text " ("; Slot "Year"; Text "), ";
   Slot "Runtime"; Text ", "; Slot "Director"].

End Sample2.

(** * Properties *)

(** ** Strings *)

Module StrFacts.

Lemma eqb_refl (a : jsstring) : Str.eqb a a = true.
Proof.
  induction a as [|c a IH]; simpl; [reflexivity|].
  now rewrite Ascii.eqb_refl.
Qed.

Lemma eqb_eq (a b : jsstring) : Str.eqb a b = true <-> a = b.
Proof.
  split.
  - revert b; induction a as [|c a IH]; intros [|d b]; simpl;
      try discriminate; [reflexivity|].
    intros H. apply andb_true_iff in H as [Hc Hr].
    apply Ascii.eqb_eq in Hc. apply IH in Hr. now subst.
  - intros ->. apply eqb_refl.
Qed.

Lemma eqb_neq (a b : jsstring) : Str.eqb a b = false <-> a <> b.
Proof.
  rewrite <- eqb_eq. destruct (Str.eqb a b); split; congruence.
Qed.

Lemma starts_with_spec (p s : jsstring) :
  Str.starts_with p s = true <-> exists r, s = p ++ r.
Proof.
  revert s; induction p as [|c p IH]; intros s; simpl.
  - split; [intros _; now exists s | reflexivity].
  - destruct s as [|d s].
    + split; [discriminate | intros [r Hr]; discriminate].
    + rewrite andb_true_iff, Ascii.eqb_eq, IH. split.
      * intros [-> [r ->]]. now exists r.
      * intros [r [= -> ->]]. split; [reflexivity | now exists r].
Qed.

Lemma starts_with_app (p r : jsstring) : Str.starts_with p (p ++ r) = true.
Proof. apply starts_with_spec. now exists r. Qed.

Lemma skipn_length_app (p r : jsstring) : skipn (length p) (p ++ r) = r.
Proof. induction p; simpl; auto. Qed.

Lemma absent_before_cons p c s n :
  Str.starts_with p (c :: s) = false ->
  Str.absent_before p s n -> Str.absent_before p (c :: s) (S n).
Proof.
  intros H0 H [|k] Hk; simpl; [assumption|]. apply H. lia.
Qed.

Lemma absent_before_tail p c s n :
  Str.absent_before p (c :: s) (S n) ->
  Str.starts_with p (c :: s) = false /\ Str.absent_before p s n.
Proof.
  intros H. split.
  - apply (H 0). lia.
  - intros k Hk. apply (H (S k)). lia.
Qed.



Lemma find_first_sound (p s before after : jsstring) :
  Str.find_first p s = Some (before, after) ->
  s = before ++ p ++ after /\ Str.absent_before p s (length before).
Proof.
  revert before; induction s as [|c s IH]; intros before; simpl.
  - destruct (Str.starts_with p []) eqn:E; [|discriminate].
    intros [= <- <-]. apply starts_with_spec in E as [r Hr].
    symmetry in Hr. apply app_eq_nil in Hr as [-> ->].
    split; [reflexivity|]. intros k Hk. simpl in Hk. lia.
  - destruct (Str.starts_with p (c :: s)) eqn:E.
    + intros [= <- <-]. apply starts_with_spec in E as [r Hr].
      rewrite Hr at 1 2. rewrite skipn_length_app. split; [reflexivity|].
      intros k Hk. simpl in Hk. lia.
    + destruct (Str.find_first p s) as [[b a]|] eqn:F; [|discriminate].
      intros [= <- <-]. destruct (IH _ eq_refl) as [Hs Habs].
      split; [now rewrite Hs|]. simpl. now apply absent_before_cons.
Qed.

Lemma find_first_complete (p before after : jsstring) :
  Str.absent_before p (before ++ p ++ after) (length before) ->
  Str.find_first p (before ++ p ++ after) = Some (before, after).
Proof.
  induction before as [|c before IH]; intros Habs.
  - simpl app. destruct (p ++ after) as [|d r] eqn:E.
    + apply app_eq_nil in E as [-> ->]. reflexivity.
    + simpl. rewrite <- E, starts_with_app, skipn_length_app. reflexivity.
  - simpl in Habs. apply absent_before_tail in Habs as [H0 Habs].
    simpl. simpl in H0. rewrite H0. now rewrite IH.
Qed.

Lemma find_first_None (p s : jsstring) :
  Str.find_first p s = None <-> ~ Str.occurs p s.
Proof.
  split.
  - intros H [before [after Hs]]. subst s.
    revert H. induction before as [|c before IH]; simpl.
    + destruct (p ++ after) as [|d r] eqn:E.
      * apply app_eq_nil in E as [-> ->]. discriminate.
      * simpl. now rewrite <- E, starts_with_app.
    + destruct (Str.starts_with p (c :: before ++ p ++ after));
        [discriminate|].
      destruct (Str.find_first p (before ++ p ++ after)) as [[b a]|];
        [discriminate|]. intros _. now apply IH.
  - intros H. destruct (Str.find_first p s) as [[b a]|] eqn:F;
      [|reflexivity].
    apply find_first_sound in F as [Hs _]. exfalso. apply H.
    now exists b, a.
Qed.

Lemma replace_first (p v before after : jsstring) :
  Str.absent_before p (before ++ p ++ after) (length before) ->
  Str.replace p v (before ++ p ++ after)
  = before ++ Str.GetSubstitution p before after v ++ after.
Proof.
  intros H. unfold Str.replace. now rewrite find_first_complete.
Qed.

Lemma replace_absent (p v s : jsstring) :
  ~ Str.occurs p s -> Str.replace p v s = s.
Proof.
  intros H. unfold Str.replace.
  apply find_first_None in H. now rewrite H.
Qed.

Lemma GetSubstitution_plain (m b a v : jsstring) :
  plain v = true -> Str.GetSubstitution m b a v = v.
Proof.
  induction v as [|c v IH]; [reflexivity|].
  simpl. intros H. apply andb_true_iff in H as [Hc Hv].
  specialize (IH Hv).
  destruct (Ascii.eqb c "$") eqn:Ec; [|now rewrite IH].
  destruct v as [|d v]; [reflexivity|].
  simpl in Hc. rewrite IH.
  destruct (Ascii.eqb d "$"); [discriminate|].
  destruct (Ascii.eqb d "&"); [discriminate|].
  destruct (Ascii.eqb d "`"); [discriminate|].
  destruct (Ascii.eqb d "'"); [discriminate|].
  reflexivity.
Qed.

Lemma distinct_NoDup (l : list jsstring) : distinct l = true -> NoDup l.
Proof.
  induction l as [|s l IH]; simpl; intros H; constructor.
  - apply andb_true_iff in H as [H _]. apply negb_true_iff in H.
    intros Hin. assert (E : existsb (Str.eqb s) l = true)
      by (apply existsb_exists; exists s; split; [assumption | apply eqb_refl]).
    congruence.
  - apply andb_true_iff in H as [_ H]. now apply IH.
Qed.

End StrFacts.
(** ** Regular expressions *)

Module RegexFacts.

Import Regex StrFacts.













End RegexFacts.
(** ** The patterns of the query builder *)


Module QueryFacts.

Import StrFacts RegexFacts.

#[local] Arguments Ascii.eqb : simpl never.
#[local] Arguments Char.is_space : simpl never.
#[local] Arguments Char.is_digit : simpl never.
#[local] Arguments firstn : simpl never.
#[local] Arguments Nat.sub : simpl never.
#[local] Arguments length : simpl never.

















End QueryFacts.
(** ** Runs of the pipeline *)

Module PipelineFacts.

Import StrFacts.

#[local] Arguments list_ascii_of_string : simpl never.

Ltac unfold_pipeline :=
  unfold crawlAndAdd, crawlMovie, addContentToFile, formatMovie, formatter,
    getTrailerOnYoutube, addImageToAssets, detach, try_catch, bind,
    requestUrl, emit, json_of, ret, throw, requested, logging.

Lemma state_eq (n : nat) (l l' b b' : list event) :
  l = l' -> b = b' ->
  {| requests := n; log := l; background := b |}
  = {| requests := n; log := l'; background := b' |}.
Proof. now intros -> ->. Qed.

Lemma sanitize_map (title : jsstring) :
  sanitize title
  = map (fun c => if Char.is_illegal c then "-"%char else c) title.
Proof.
  unfold sanitize, Regex.replace_all_class.
  induction title as [|c title IH]; [reflexivity|].
  simpl. destruct (Char.is_illegal c); simpl; f_equal; exact IH.
Qed.

Lemma is_illegal_spec (c : ascii) :
  Char.is_illegal c = true <-> In c Char.illegal.
Proof.
  unfold Char.is_illegal. rewrite existsb_exists. split.
  - intros (d & Hd & E). apply Ascii.eqb_eq in E. now subst.
  - intros H. exists c. split; [assumption | apply Ascii.eqb_refl].
Qed.

Lemma get_set (data : record) (key value : jsstring) :
  Record.get (Record.set data key value) key = Some value.
Proof.
  induction data as [|[k v] data IH]; simpl.
  - now rewrite eqb_refl.
  - destruct (Str.eqb k key) eqn:E; simpl; now rewrite E.
Qed.

Lemma get_set_other (data : record) (key value other : jsstring) :
  other <> key ->
  Record.get (Record.set data key value) other = Record.get data other.
Proof.
  intros Hne. induction data as [|[k v] data IH]; simpl.
  - apply not_eq_sym in Hne. apply eqb_neq in Hne. now rewrite Hne.
  - destruct (Str.eqb k key) eqn:E; simpl.
    + apply eqb_eq in E. subst k.
      apply not_eq_sym in Hne. apply eqb_neq in Hne. now rewrite Hne.
    + now rewrite IH.
Qed.

Lemma keys_set (data : record) (key value old : jsstring) :
  Record.get data key = Some old ->
  Record.keys (Record.set data key value) = Record.keys data.
Proof.
  induction data as [|[k v] data IH]; simpl; [discriminate|].
  destruct (Str.eqb k key) eqn:E; simpl; [reflexivity|].
  intros H. now rewrite IH.
Qed.

(** A successful metadata fetch. *)
Lemma crawlMovie_found this net text st movie title :
  net (requests st) (getUrl this text) = Arrived (Json (JRecord movie)) ->
  Record.get movie "Title" = Some title ->
  crawlMovie this net text st
  = (Return (Some (Record.set movie "Title" (sanitize title))),
     logging [ConsoleLog] (requested (getUrl this text) st)).
Proof.
  intros Hnet Htitle. unfold_pipeline. simpl. rewrite Hnet. simpl.
  rewrite Htitle. reflexivity.
Qed.

(** A failed metadata fetch. *)
Lemma crawlMovie_failed this net text st e :
  fetch_fails (net (requests st) (getUrl this text)) e ->
  crawlMovie this net text st
  = (Return None,
     logging
       (logged (net (requests st) (getUrl this text))
        ++ [Notice "Movie not found."; Notice e;
            Notice (getUrl this text)])
       (requested (getUrl this text) st)).
Proof.
  intros H. unfold_pipeline. simpl.
  destruct H as [e | e | answer Hanswer]; simpl;
    try rewrite Hanswer; simpl;
    (f_equal; apply state_eq; [|reflexivity]);
    repeat rewrite <- app_assoc; reflexivity.
Qed.

(** The poster download that [crawlAndAdd] does not await. *)
Lemma detach_addImageToAssets this net url name st :
  detach (addImageToAssets this net url name) st
  = (Return tt,
     {| requests := S (requests st);
        log := log st;
        background :=
          background st
          ++ Request url
             :: match net (requests st) url with
                | Arrived _ =>
                    [CreateBinary (assetPath (settings this) ++ "/" ++ name)]
                | Rejected _ => []
                end |}).
Proof.
  unfold_pipeline. simpl.
  destruct (net (requests st) url); simpl; now rewrite ?app_nil_r.
Qed.

Lemma getTrailerOnYoutube_first this net title st item others :
  net (requests st) (youtubeApiUrl this ++ title ++ " trailer")
  = Arrived (Json (JSearch (item :: others))) ->
  getTrailerOnYoutube this net title st
  = (Return (videoId item),
     requested (youtubeApiUrl this ++ title ++ " trailer") st).
Proof. intros H. unfold_pipeline. simpl. now rewrite H. Qed.

Lemma getTrailerOnYoutube_empty this net title st :
  net (requests st) (youtubeApiUrl this ++ title ++ " trailer")
  = Arrived (Json (JSearch [])) ->
  getTrailerOnYoutube this net title st
  = (Throw (TypeError "id"),
     requested (youtubeApiUrl this ++ title ++ " trailer") st).
Proof. intros H. unfold_pipeline. simpl. now rewrite H. Qed.

Lemma formatter_without_key this net data tmpl st :
  Str.truthy (youtubeapikey (settings this)) = false ->
  formatter this net data tmpl st
  = (Return (formatted this data tmpl []), st).
Proof. intros H. unfold formatter. now rewrite H. Qed.

Lemma formatter_with_key this net data tmpl st item others :
  Str.truthy (youtubeapikey (settings this)) = true ->
  net (requests st)
    (youtubeApiUrl this ++ js_str (Record.get data "Title") ++ " trailer")
  = Arrived (Json (JSearch (item :: others))) ->
  formatter this net data tmpl st
  = (Return (formatted this data tmpl (trailer_embed (videoId item))),
     requested
       (youtubeApiUrl this ++ js_str (Record.get data "Title") ++ " trailer")
       st).
Proof.
  intros Hkey Hnet. unfold formatter. rewrite Hkey. unfold bind.
  now rewrite (getTrailerOnYoutube_first _ _ _ _ _ _ Hnet).
Qed.

Lemma formatter_fault this net data tmpl st :
  Str.truthy (youtubeapikey (settings this)) = true ->
  net (requests st)
    (youtubeApiUrl this ++ js_str (Record.get data "Title") ++ " trailer")
  = Arrived (Json (JSearch [])) ->
  formatter this net data tmpl st
  = (Throw (TypeError "id"),
     requested
       (youtubeApiUrl this ++ js_str (Record.get data "Title") ++ " trailer")
       st).
Proof.
  intros Hkey Hnet. unfold formatter. rewrite Hkey. unfold bind.
  now rewrite (getTrailerOnYoutube_empty _ _ _ _ Hnet).
Qed.

Lemma crawlAndAdd_fetched this net text st answer title :
  Str.truthy (omdbapikey (settings this)) = true ->
  net (requests st) (getUrl this text) = Arrived (Json (JRecord answer)) ->
  Record.get answer "Title" = Some title ->
  let movie := Record.set answer "Title" (sanitize title) in
  crawlAndAdd this net text st
  = (movieStr <- formatMovie this net movie ;;
     addContentToFile this net movieStr movie)
      (fetched this net text movie st).
Proof.
  intros Hkey Hnet Htitle movie. unfold crawlAndAdd. rewrite Hkey.
  cbn [negb]. unfold bind at 1.
  assert (E : forall st0, requests st0 = requests st ->
            crawlMovie this net text st0
            = (Return (Some movie),
               logging [ConsoleLog] (requested (getUrl this text) st0))).
  { intros st0 H0. apply crawlMovie_found; [now rewrite H0 | assumption]. }
  unfold fetched, warning.
  destruct (Str.truthy (youtubeapikey (settings this))); cbn [negb].
  - unfold ret at 1. unfold bind at 1. rewrite (E st eq_refl).
    unfold bind at 1. rewrite detach_addImageToAssets.
    cbn [requests log background requested logging app].
    f_equal. apply state_eq; [|reflexivity].
    now rewrite <- !app_assoc.
  - unfold emit at 1. unfold bind at 1. rewrite E by reflexivity.
    unfold bind at 1. rewrite detach_addImageToAssets.
    cbn [requests log background requested logging app].
    f_equal. apply state_eq; [|reflexivity].
    now rewrite <- !app_assoc.
Qed.
End PipelineFacts.
(** ** Numbers and the runtime text *)

Module NumberFacts.

Import StrFacts.

#[local] Arguments list_ascii_of_string : simpl never.

Lemma is_digit_code (c : ascii) :
  Char.is_digit c = true <-> 48 <= Char.code c <= 57.
Proof.
  unfold Char.is_digit. rewrite andb_true_iff, !Nat.leb_le. reflexivity.
Qed.

Lemma digit_not_space (c : ascii) :
  Char.is_digit c = true -> Char.is_space c = false.
Proof.
  intros H. apply is_digit_code in H. unfold Char.is_space.
  apply not_true_is_false. intros E. apply existsb_exists in E as (n & Hn & E).
  apply Nat.eqb_eq in E. simpl in Hn. lia.
Qed.

Lemma digit_not_char (c d : ascii) :
  Char.is_digit c = true -> Char.is_digit d = false -> Ascii.eqb c d = false.
Proof.
  intros Hc Hd. destruct (Ascii.eqb c d) eqn:E; [|reflexivity].
  apply Ascii.eqb_eq in E. congruence.
Qed.

Lemma first_word_digits (ds rest : jsstring) :
  forallb Char.is_digit ds = true ->
  Str.first_word (ds ++ rest) = ds ++ Str.first_word rest.
Proof.
  induction ds as [|c ds IH]; [reflexivity|].
  simpl. intros H. apply andb_true_iff in H as [Hc Hds].
  rewrite (digit_not_char c " " Hc eq_refl). now rewrite IH.
Qed.

Lemma first_word_head (rest : jsstring) :
  match rest with
  | c :: _ => Char.is_digit c = false
  | [] => True
  end ->
  match Str.first_word rest with
  | c :: _ => Char.is_digit c = false
  | [] => True
  end.
Proof.
  destruct rest as [|c rest]; [trivial|]. simpl.
  now destruct (Ascii.eqb c " ").
Qed.

(** Reading the digits [ds], which no digit follows. *)
Lemma read_digits_prefix (ds rest : jsstring) (a : Z) :
  forallb Char.is_digit ds = true ->
  match rest with
  | c :: _ => Char.is_digit c = false
  | [] => True
  end ->
  Number.read_digits 10 Char.is_digit Number.digit_value (ds ++ rest) (Some a)
  = Some (fold_left (fun a c => (a * 10 + Number.digit_value c)%Z) ds a).
Proof.
  revert a. induction ds as [|c ds IH]; intros a Hds Hrest.
  - simpl. destruct rest as [|c rest]; [reflexivity|]. simpl. now rewrite Hrest.
  - simpl in Hds. apply andb_true_iff in Hds as [Hc Hds].
    simpl. rewrite Hc. now rewrite IH.
Qed.

Lemma read_digits_decimal (ds rest : jsstring) :
  ds <> [] -> forallb Char.is_digit ds = true ->
  match rest with
  | c :: _ => Char.is_digit c = false
  | [] => True
  end ->
  Number.read_digits 10 Char.is_digit Number.digit_value (ds ++ rest) None
  = Some (decimal_value ds).
Proof.
  intros Hne Hds Hrest. destruct ds as [|c ds]; [contradiction|].
  simpl in Hds. apply andb_true_iff in Hds as [Hc Hds].
  simpl. rewrite Hc. rewrite read_digits_prefix by assumption.
  reflexivity.
Qed.

(** [parseInt] of a text that starts with decimal digits. *)
Lemma parseInt_leading_integer (s : jsstring) (m : Z) :
  leading_integer s m ->
  Number.parseInt (Str.first_word s) = Num m.
Proof.
  intros (ds & rest & -> & Hne & Hds & Hrest & Hhex & ->).
  rewrite first_word_digits by assumption.
  apply first_word_head in Hrest.
  assert (Hhex' : forall x r,
             ds = ["0"%char] -> Str.first_word rest = x :: r ->
             Ascii.eqb x "x" || Ascii.eqb x "X" = false).
  { intros x r -> Hfw. apply not_true_is_false. intros E. apply Hhex.
    destruct rest as [|c rest']; [discriminate|]. simpl in Hfw.
    destruct (Ascii.eqb c " "); [discriminate|]. injection Hfw as -> _.
    apply orb_true_iff in E as [E|E]; apply Ascii.eqb_eq in E; subst x;
      exists rest'; [now left | now right]. }
  destruct ds as [|c ds]; [contradiction|].
  pose proof Hds as Hds'. simpl in Hds'.
  apply andb_true_iff in Hds' as [Hc Hds'].
  unfold Number.parseInt. cbn [app Number.skip_space].
  rewrite (digit_not_space c Hc).
  rewrite (digit_not_char c "-" Hc eq_refl), (digit_not_char c "+" Hc eq_refl).
  assert (Hread :
            Number.read_digits 10 Char.is_digit Number.digit_value
              (c :: ds ++ Str.first_word rest) None
            = Some (decimal_value (c :: ds)))
    by (apply (read_digits_decimal (c :: ds)); assumption).
  destruct ds as [|d ds].
  - cbn [app]. cbn [app] in Hread.
    destruct (Str.first_word rest) as [|x r] eqn:Hfw.
    + rewrite Hread. f_equal; lia.
    + destruct (Ascii.eqb c "0") eqn:E0.
      * apply Ascii.eqb_eq in E0. subst c.
        rewrite (Hhex' x r eq_refl eq_refl). cbn [andb].
        rewrite Hread. f_equal; lia.
      * cbn [andb]. rewrite Hread. f_equal; lia.
  - cbn [app]. cbn [app] in Hread.
    simpl in Hds'. apply andb_true_iff in Hds' as [Hd _].
    rewrite (digit_not_char d "x" Hd eq_refl), (digit_not_char d "X" Hd eq_refl).
    rewrite andb_false_r. rewrite Hread. f_equal; lia.
Qed.

Lemma decimal_value_nonneg_acc (ds : jsstring) (a : Z) :
  forallb Char.is_digit ds = true -> (0 <= a)%Z ->
  (0 <= fold_left (fun a c => (a * 10 + Number.digit_value c)%Z) ds a)%Z.
Proof.
  revert a. induction ds as [|c ds IH]; intros a Hds Ha; [assumption|].
  simpl in Hds. apply andb_true_iff in Hds as [Hc Hds]. simpl.
  apply IH; [assumption|]. apply is_digit_code in Hc.
  unfold Number.digit_value. lia.
Qed.

Lemma leading_integer_nonneg (s : jsstring) (m : Z) :
  leading_integer s m -> (0 <= m)%Z.
Proof.
  intros (ds & rest & _ & _ & Hds & _ & _ & ->).
  now apply decimal_value_nonneg_acc.
Qed.

Lemma leading_integer_not_NA (s : jsstring) (m : Z) :
  leading_integer s m -> Str.truthy s = true /\ Str.eqb s "N/A" = false.
Proof.
  intros (ds & rest & -> & Hne & Hds & _).
  destruct ds as [|c ds]; [contradiction|]. split; [reflexivity|].
  simpl in Hds. apply andb_true_iff in Hds as [Hc _].
  change (list_ascii_of_string "N/A") with ("N"%char :: list_ascii_of_string "/A").
  cbn [app Str.eqb]. now rewrite (digit_not_char c "N" Hc eq_refl).
Qed.

(** The replacement text of [{{Runtime}}] for a runtime that starts with
    the integer [m]. *)
Lemma runtime_text_minutes (data : record) (runtime : jsstring) (m : Z) :
  Record.get data "Runtime" = Some runtime ->
  leading_integer runtime m ->
  runtime_text data
  = Number.to_string (Num (m / 60)) ++ "h "
    ++ Number.to_string (Num (m mod 60)) ++ "m".
Proof.
  intros Hget Hlead. unfold runtime_text. rewrite Hget.
  destruct (leading_integer_not_NA _ _ Hlead) as [-> ->]. cbn [negb andb].
  rewrite (parseInt_leading_integer _ _ Hlead).
  cbn [Number.floor_div Number.rem].
  rewrite Z.rem_mod_nonneg; [reflexivity | | lia].
  now apply leading_integer_nonneg with (s := runtime).
Qed.

Lemma free_of_app (d : ascii) (a b : jsstring) :
  free_of d (a ++ b) = free_of d a && free_of d b.
Proof. apply forallb_app. Qed.

Lemma plain_free_of_dollar (v : jsstring) :
  free_of "$" v = true -> plain v = true.
Proof.
  induction v as [|c v IH]; [reflexivity|].
  unfold free_of. simpl. intros H. apply andb_true_iff in H as [Hc Hv].
  apply negb_true_iff in Hc. rewrite Hc. simpl. now apply IH.
Qed.

Lemma uint_free_of_dollar (u : Decimal.uint) :
  free_of "$" (list_ascii_of_string (NilEmpty.string_of_uint u)) = true.
Proof. induction u; simpl; auto. Qed.

Lemma to_string_free_of_dollar (n : number) :
  free_of "$" (Number.to_string n) = true.
Proof.
  destruct n as [|z]; [reflexivity|]. unfold Number.to_string.
  destruct (Z.to_int z) as [u|u];
    unfold NilZero.string_of_int, NilZero.string_of_uint;
    destruct u; try reflexivity; simpl; apply uint_free_of_dollar.
Qed.

(** The runtime text never contains a replacement pattern. *)
Lemma runtime_text_plain (data : record) : plain (runtime_text data) = true.
Proof.
  apply plain_free_of_dollar. unfold runtime_text.
  destruct (Record.get data "Runtime") as [runtime|]; [|reflexivity].
  destruct (Str.truthy runtime && negb (Str.eqb runtime "N/A"));
    [|reflexivity].
  rewrite !free_of_app, !to_string_free_of_dollar. reflexivity.
Qed.

Lemma format_runtime_first (data : record) (before after : jsstring) :
  Str.absent_before "{{Runtime}}" (before ++ "{{Runtime}}" ++ after)
    (length before) ->
  format_runtime data (before ++ "{{Runtime}}" ++ after)
  = before ++ runtime_text data ++ after.
Proof.
  intros H. unfold format_runtime. rewrite replace_first by assumption.
  now rewrite GetSubstitution_plain by apply runtime_text_plain.
Qed.

End NumberFacts.

Module HexFacts.

Import StrFacts NumberFacts.

#[local] Arguments list_ascii_of_string : simpl never.

Lemma hex_digit_cases (c : ascii) :
  Number.is_hex_digit c = true ->
  48 <= Char.code c <= 57 \/ 97 <= Char.code c <= 102
  \/ 65 <= Char.code c <= 70.
Proof.
  unfold Number.is_hex_digit, Char.is_digit. intros H.
  apply orb_true_iff in H as [H|H]; [apply orb_true_iff in H as [H|H]|];
    apply andb_true_iff in H as [H1 H2];
    apply Nat.leb_le in H1; apply Nat.leb_le in H2; lia.
Qed.

Lemma hex_digit_not_space (c : ascii) :
  Number.is_hex_digit c = true -> Ascii.eqb c " " = false.
Proof.
  intros H. destruct (Ascii.eqb c " ") eqn:E; [|reflexivity].
  apply Ascii.eqb_eq in E. subst c. discriminate.
Qed.

Lemma hex_value_nonneg (c : ascii) :
  Number.is_hex_digit c = true -> (0 <= Number.hex_value c)%Z.
Proof.
  intros H. pose proof (hex_digit_cases c H) as Hc.
  unfold Number.hex_value, Number.digit_value.
  destruct (Char.is_digit c) eqn:D.
  - apply is_digit_code in D. lia.
  - destruct (97 <=? Char.code c) eqn:L.
    + apply Nat.leb_le in L. lia.
    + apply Nat.leb_gt in L.
      assert (~ 48 <= Char.code c <= 57).
      { intros Hd. apply is_digit_code in Hd. congruence. }
      lia.
Qed.

Lemma hexadecimal_value_nonneg_acc (hs : jsstring) (a : Z) :
  forallb Number.is_hex_digit hs = true -> (0 <= a)%Z ->
  (0 <= fold_left (fun a c => (a * 16 + Number.hex_value c)%Z) hs a)%Z.
Proof.
  revert a. induction hs as [|c hs IH]; intros a H Ha; [exact Ha|].
  cbn [forallb] in H. apply andb_true_iff in H as [Hc H].
  cbn [fold_left]. apply IH; [exact H|].
  pose proof (hex_value_nonneg c Hc). lia.
Qed.

Lemma first_word_hex (hs rest : jsstring) :
  forallb Number.is_hex_digit hs = true ->
  Str.first_word (hs ++ rest) = hs ++ Str.first_word rest.
Proof.
  induction hs as [|c hs IH]; [reflexivity|].
  cbn [forallb app Str.first_word]. intros H.
  apply andb_true_iff in H as [Hc H].
  rewrite (hex_digit_not_space c Hc). now rewrite IH.
Qed.

Lemma first_word_hex_head (rest : jsstring) :
  match rest with
  | c :: _ => Number.is_hex_digit c = false
  | [] => True
  end ->
  match Str.first_word rest with
  | c :: _ => Number.is_hex_digit c = false
  | [] => True
  end.
Proof.
  destruct rest as [|c rest]; [trivial|]. cbn [Str.first_word].
  now destruct (Ascii.eqb c " ").
Qed.

(** Reading the hexadecimal digits [hs], which no such digit follows. *)
Lemma read_digits_hex (hs rest : jsstring) (a : Z) :
  forallb Number.is_hex_digit hs = true ->
  match rest with
  | c :: _ => Number.is_hex_digit c = false
  | [] => True
  end ->
  Number.read_digits 16 Number.is_hex_digit Number.hex_value (hs ++ rest)
    (Some a)
  = Some (fold_left (fun a c => (a * 16 + Number.hex_value c)%Z) hs a).
Proof.
  revert a. induction hs as [|c hs IH]; intros a Hhs Hrest.
  - cbn [app fold_left]. destruct rest as [|c rest]; [reflexivity|].
    cbn [Number.read_digits]. now rewrite Hrest.
  - cbn [forallb] in Hhs. apply andb_true_iff in Hhs as [Hc Hhs].
    cbn [app Number.read_digits fold_left]. rewrite Hc. now rewrite IH.
Qed.

(** The first word of a text that starts with a hexadecimal integer starts
    with the same integer. *)
Lemma first_word_leading_hexadecimal (s : jsstring) (m : Z) :
  leading_hexadecimal s m -> leading_hexadecimal (Str.first_word s) m.
Proof.
  intros (x & hs & rest & -> & Hx & Hne & Hhs & Hrest & ->).
  exists x, hs, (Str.first_word rest).
  split; [|now repeat split; try assumption; apply first_word_hex_head].
  cbn [Str.first_word].
  assert (Hsp : Ascii.eqb x " " = false) by (destruct Hx; now subst x).
  change (Ascii.eqb "0" " ") with false. cbv iota. rewrite Hsp.
  now rewrite first_word_hex.
Qed.

(** [parseInt] of a text that starts with a hexadecimal integer. *)
Lemma parseInt_hexadecimal (s : jsstring) (m : Z) :
  leading_hexadecimal s m -> Number.parseInt s = Num m.
Proof.
  intros (x & hs & rest & -> & Hx & Hne & Hhs & Hrest & ->).
  unfold Number.parseInt. cbn [Number.skip_space].
  change (Char.is_space "0") with false. cbv iota.
  change (Ascii.eqb "0" "-") with false.
  change (Ascii.eqb "0" "+") with false. cbv iota.
  change (Ascii.eqb "0" "0") with true.
  assert (Hxx : Ascii.eqb x "x" || Ascii.eqb x "X" = true)
    by (destruct Hx; now subst x).
  rewrite Hxx. cbn [andb].
  destruct hs as [|c hs]; [contradiction|].
  cbn [forallb] in Hhs. apply andb_true_iff in Hhs as [Hc Hhs].
  cbn [app Number.read_digits]. rewrite Hc.
  rewrite read_digits_hex by assumption.
  unfold hexadecimal_value. cbn [fold_left]. f_equal.
  rewrite Z.mul_1_l. reflexivity.
Qed.

Lemma leading_hexadecimal_nonneg (s : jsstring) (m : Z) :
  leading_hexadecimal s m -> (0 <= m)%Z.
Proof.
  intros (x & hs & rest & _ & _ & _ & Hhs & _ & ->).
  now apply hexadecimal_value_nonneg_acc.
Qed.

(** The runtime text for a runtime that starts with a hexadecimal
    integer. *)
Lemma runtime_text_hexadecimal (data : record) (runtime : jsstring) (m : Z) :
  Record.get data "Runtime" = Some runtime ->
  leading_hexadecimal runtime m ->
  runtime_text data
  = Number.to_string (Num (m / 60)) ++ "h "
    ++ Number.to_string (Num (m mod 60)) ++ "m".
Proof.
  intros Hget Hlead. unfold runtime_text. rewrite Hget.
  assert (Hguard : Str.truthy runtime && negb (Str.eqb runtime "N/A") = true).
  { destruct Hlead as (x & hs & rest & -> & _). reflexivity. }
  rewrite Hguard.
  rewrite (parseInt_hexadecimal _ _ (first_word_leading_hexadecimal _ _ Hlead)).
  cbn [Number.floor_div Number.rem].
  rewrite Z.rem_mod_nonneg; [reflexivity | | lia].
  now apply leading_hexadecimal_nonneg with (s := runtime).
Qed.

End HexFacts.
(** ** Templates as segments *)

Module TemplateFacts.

Import StrFacts PipelineFacts.

#[local] Arguments list_ascii_of_string : simpl never.

Lemma template_of_app (a b : list segment) :
  template_of (a ++ b) = template_of a ++ template_of b.
Proof. apply flat_map_app. Qed.

Lemma token_unfold (key : jsstring) :
  token key = "{"%char :: "{"%char :: key ++ "}}".
Proof. reflexivity. Qed.

Lemma not_brace_open (c : ascii) :
  Char.is_brace c = false -> Ascii.eqb "{" c = false.
Proof.
  unfold Char.is_brace. intros H. apply orb_false_iff in H as [H _].
  now rewrite Ascii.eqb_sym.
Qed.

Lemma not_brace_close (c : ascii) :
  Char.is_brace c = false -> Ascii.eqb "}" c = false.
Proof.
  unfold Char.is_brace. intros H. apply orb_false_iff in H as [_ H].
  now rewrite Ascii.eqb_sym.
Qed.

Lemma brace_free_cons (c : ascii) (s : jsstring) :
  brace_free (c :: s) = true <-> Char.is_brace c = false /\ brace_free s = true.
Proof.
  unfold brace_free. simpl. rewrite andb_true_iff, negb_true_iff. reflexivity.
Qed.

Lemma brace_free_app (a b : jsstring) :
  brace_free (a ++ b) = brace_free a && brace_free b.
Proof. apply forallb_app. Qed.

(** No token starts inside a text without braces. *)
Lemma find_first_skip_text (key t s : jsstring) :
  brace_free t = true ->
  Str.find_first (token key) (t ++ s)
  = match Str.find_first (token key) s with
    | Some (before, after) => Some (t ++ before, after)
    | None => None
    end.
Proof.
  induction t as [|c t IH]; intros Ht.
  - simpl. now destruct (Str.find_first (token key) s) as [[b a]|].
  - apply brace_free_cons in Ht as [Hc Ht].
    cbn [app Str.find_first]. rewrite token_unfold at 1.
    cbn [Str.starts_with]. rewrite (not_brace_open c Hc). cbn [andb].
    rewrite (IH Ht).
    now destruct (Str.find_first (token key) s) as [[b a]|].
Qed.

(** Nor at the closing braces of a token. *)
Lemma find_first_skip_close (key s : jsstring) :
  Str.find_first (token key) ("}}" ++ s)
  = match Str.find_first (token key) s with
    | Some (before, after) => Some ("}}" ++ before, after)
    | None => None
    end.
Proof.
  change ("}}" ++ s) with ("}"%char :: "}"%char :: s).
  cbn [Str.find_first]. rewrite token_unfold.
  cbn [Str.starts_with]. cbn [Ascii.eqb Bool.eqb andb].
  rewrite <- token_unfold.
  now destruct (Str.find_first (token key) s) as [[b a]|].
Qed.

(** Two keys without braces whose tokens start at the same place are the
    same key. *)
Lemma key_prefix_eq (k k' s : jsstring) :
  brace_free k = true -> brace_free k' = true ->
  Str.starts_with (k ++ "}}") (k' ++ "}}" ++ s) = true -> k = k'.
Proof.
  revert k'. induction k as [|c k IH]; intros [|d k'] Hk Hk'.
  - reflexivity.
  - apply brace_free_cons in Hk' as [Hd _].
    change ([] ++ "}}") with ("}"%char :: list_ascii_of_string "}").
    cbn [app Str.starts_with]. rewrite (not_brace_close d Hd). discriminate.
  - apply brace_free_cons in Hk as [Hc _].
    change ([] ++ "}}" ++ s) with ("}"%char :: "}"%char :: s).
    cbn [app Str.starts_with].
    assert (E : Ascii.eqb c "}" = false)
      by (rewrite Ascii.eqb_sym; now apply not_brace_close).
    rewrite E. discriminate.
  - apply brace_free_cons in Hk as [_ Hk].
    apply brace_free_cons in Hk' as [_ Hk'].
    cbn [app Str.starts_with]. intros H.
    apply andb_true_iff in H as [Hcd H]. apply Ascii.eqb_eq in Hcd.
    subst d. f_equal. now apply IH.
Qed.

Lemma find_first_at_token (key k s : jsstring) :
  brace_free key = true -> brace_free k = true ->
  Str.find_first (token key) (token k ++ s)
  = if Str.eqb k key then Some ([], s)
    else match Str.find_first (token key) s with
         | Some (before, after) => Some (token k ++ before, after)
         | None => None
         end.
Proof.
  intros Hkey Hk. destruct (Str.eqb k key) eqn:E.
  - apply eqb_eq in E. subst k.
    assert (F : Str.find_first (token key) (token key ++ s) = Some ([], s)).
    { apply (find_first_complete (token key) [] s). intros n Hn. simpl in Hn. lia. }
    exact F.
  - assert (H0 : Str.starts_with (token key) (token k ++ s) = false).
    { apply not_true_is_false. intros H.
      rewrite !token_unfold in H. cbn [app Str.starts_with] in H.
      rewrite !Ascii.eqb_refl in H. cbn [andb] in H.
      rewrite <- app_assoc in H.
      apply key_prefix_eq in H; try assumption.
      subst k. now rewrite eqb_refl in E. }
    assert (H1 : Str.starts_with (token key)
                   ("{"%char :: (k ++ "}}") ++ s) = false).
    { rewrite token_unfold. cbn [Str.starts_with]. rewrite Ascii.eqb_refl.
      cbn [andb]. destruct k as [|c k].
      - reflexivity.
      - apply brace_free_cons in Hk as [Hc _]. cbn [app].
        now rewrite (not_brace_open c Hc). }
    assert (Hskip : Str.find_first (token key) ((k ++ "}}") ++ s)
                    = match Str.find_first (token key) s with
                      | Some (before, after) =>
                          Some ((k ++ "}}") ++ before, after)
                      | None => None
                      end).
    { rewrite <- app_assoc. rewrite find_first_skip_text by assumption.
      rewrite find_first_skip_close.
      destruct (Str.find_first (token key) s) as [[b a]|]; [|reflexivity].
      now rewrite <- app_assoc. }
    rewrite (token_unfold k). cbn [app].
    rewrite (token_unfold k) in H0. cbn [app] in H0.
    unfold Str.find_first at 1. fold Str.find_first. rewrite H0.
    unfold Str.find_first at 1. fold Str.find_first. rewrite H1.
    rewrite Hskip.
    destruct (Str.find_first (token key) s) as [[b a]|]; reflexivity.
Qed.

(** In a well-formed template the first occurrence of a token is its first
    slot. *)
Lemma find_first_template (key : jsstring) (segs : list segment) :
  brace_free key = true -> well_formed segs = true ->
  Str.find_first (token key) (template_of segs)
  = match split_slot key segs with
    | Some (before, after) => Some (template_of before, template_of after)
    | None => None
    end.
Proof.
  intros Hkey. induction segs as [|g segs IH]; intros Hwf.
  - reflexivity.
  - simpl in Hwf. apply andb_true_iff in Hwf as [Hg Hwf].
    specialize (IH Hwf). change (template_of (g :: segs))
      with (segment_text g ++ template_of segs).
    destruct g as [t|k]; cbn [segment_text split_slot is_slot].
    + rewrite find_first_skip_text by assumption. rewrite IH.
      now destruct (split_slot key segs) as [[b a]|].
    + rewrite find_first_at_token by assumption.
      destruct (Str.eqb k key); [reflexivity|]. rewrite IH.
      now destruct (split_slot key segs) as [[b a]|].
Qed.

(** One substitution of [formatter] on a well-formed template. *)
Lemma replace_template (sub : jsstring * jsstring) (segs : list segment) :
  clean sub = true -> well_formed segs = true ->
  Str.replace (token (fst sub)) (snd sub) (template_of segs)
  = template_of (fill segs sub).
Proof.
  intros Hclean Hwf. unfold clean in Hclean.
  apply andb_true_iff in Hclean as [Hclean Hplain].
  apply andb_true_iff in Hclean as [Hkey Hvalue].
  unfold Str.replace, fill. rewrite find_first_template by assumption.
  destruct (split_slot (fst sub) segs) as [[b a]|]; [|reflexivity].
  rewrite GetSubstitution_plain by assumption.
  rewrite template_of_app. reflexivity.
Qed.

Lemma split_slot_spec (key : jsstring) (segs before after : list segment) :
  split_slot key segs = Some (before, after) ->
  exists k, Str.eqb k key = true
            /\ segs = before ++ Slot k :: after
            /\ slots key before = repeat false (length before).
Proof.
  revert before. induction segs as [|g segs IH]; intros before; simpl;
    [discriminate|].
  destruct (is_slot key g) eqn:E.
  - intros [= <- <-]. destruct g as [t|k]; [discriminate|].
    exists k. now repeat split.
  - destruct (split_slot key segs) as [[b a]|]; [|discriminate].
    intros [= <- <-]. destruct (IH _ eq_refl) as (k & Hk & -> & Hb).
    exists k. repeat split; [assumption|]. simpl. now rewrite E, Hb.
Qed.

Lemma well_formed_app (a b : list segment) :
  well_formed (a ++ b) = well_formed a && well_formed b.
Proof. apply forallb_app. Qed.

Lemma fill_well_formed (sub : jsstring * jsstring) (segs : list segment) :
  clean sub = true -> well_formed segs = true ->
  well_formed (fill segs sub) = true.
Proof.
  intros Hclean Hwf. unfold clean in Hclean.
  apply andb_true_iff in Hclean as [Hclean _].
  apply andb_true_iff in Hclean as [_ Hvalue].
  unfold fill. destruct (split_slot (fst sub) segs) as [[b a]|] eqn:E;
    [|assumption].
  apply split_slot_spec in E as (k & _ & -> & _).
  rewrite well_formed_app in Hwf. apply andb_true_iff in Hwf as [Hb Ha].
  simpl in Ha. apply andb_true_iff in Ha as [_ Ha].
  rewrite well_formed_app. simpl. now rewrite Hb, Hvalue, Ha.
Qed.

(** All the substitutions of [formatter] on a well-formed template. *)
Lemma fold_replace_template (subs : list (jsstring * jsstring))
    (segs : list segment) :
  forallb clean subs = true -> well_formed segs = true ->
  fold_left (fun t sub => Str.replace (token (fst sub)) (snd sub) t) subs
    (template_of segs)
  = template_of (fold_left fill subs segs)
  /\ well_formed (fold_left fill subs segs) = true.
Proof.
  revert segs. induction subs as [|sub subs IH]; intros segs Hclean Hwf.
  - now split.
  - simpl in Hclean. apply andb_true_iff in Hclean as [Hsub Hclean].
    simpl. rewrite replace_template by assumption.
    apply IH; [assumption|]. now apply fill_well_formed.
Qed.

Lemma generic_pass_fold (data : record) (keys : list jsstring)
    (tmpl : jsstring) :
  fold_left (substitute_field data) keys tmpl
  = fold_left (fun t sub => Str.replace (token (fst sub)) (snd sub) t)
      (map (fun key => (key, js_str (Record.get data key)))
         (filter (fun key => negb (is_special key)) keys))
      tmpl.
Proof.
  revert tmpl. induction keys as [|key keys IH]; intros tmpl; [reflexivity|].
  simpl. unfold substitute_field at 2.
  destruct (negb (is_special key)); simpl; apply IH.
Qed.

(** [formatter] is the sequence of its substitutions. *)
Lemma formatted_fold (this : MoviePlugin) (data : record)
    (tmpl trailer : jsstring) :
  formatted this data tmpl trailer
  = fold_left (fun t sub => Str.replace (token (fst sub)) (snd sub) t)
      (substitutions this data trailer) tmpl.
Proof.
  unfold formatted, substitutions, format_poster, format_runtime, generic_pass.
  rewrite fold_left_app, <- generic_pass_fold. reflexivity.
Qed.

(** [formatter] on a well-formed template with clean substitutions fills
    slots. *)
Lemma formatted_template (this : MoviePlugin) (data : record)
    (segs : list segment) (trailer : jsstring) :
  forallb clean (substitutions this data trailer) = true ->
  well_formed segs = true ->
  formatted this data (template_of segs) trailer
  = template_of (fold_left fill (substitutions this data trailer) segs).
Proof.
  intros Hclean Hwf. rewrite formatted_fold.
  now apply fold_replace_template.
Qed.

Lemma formatter_runs this net data tmpl st trailer :
  trailer_text this net data st = Some trailer ->
  formatter this net data tmpl st
  = (Return (formatted this data tmpl trailer), after_trailer this data st).
Proof.
  unfold trailer_text, after_trailer, trailer_url. intros H.
  destruct (Str.truthy (youtubeapikey (settings this))) eqn:Hkey.
  - destruct (net (requests st) _) as [e|[e|[answer|[|item others]]]] eqn:Hnet;
      try discriminate.
    injection H as <-.
    now apply formatter_with_key with (others := others).
  - injection H as <-. now apply formatter_without_key.
Qed.

Lemma eqb_sym (a b : jsstring) : Str.eqb a b = Str.eqb b a.
Proof.
  destruct (Str.eqb a b) eqn:E.
  - apply eqb_eq in E. subst. symmetry. apply eqb_refl.
  - symmetry. apply eqb_neq. apply eqb_neq in E. congruence.
Qed.

Lemma slots_app (key : jsstring) (a b : list segment) :
  slots key (a ++ b) = slots key a ++ slots key b.
Proof. apply map_app. Qed.

Lemma split_slot_none (key : jsstring) (segs : list segment) :
  split_slot key segs = None <-> existsb (is_slot key) segs = false.
Proof.
  induction segs as [|g segs IH]; simpl; [tauto|].
  destruct (is_slot key g); simpl.
  - split; discriminate.
  - rewrite <- IH. destruct (split_slot key segs) as [[b a]|];
      split; congruence.
Qed.

Lemma split_slot_first (key : jsstring) (a b : list segment) :
  existsb (is_slot key) a = false ->
  split_slot key (a ++ Slot key :: b) = Some (a, b).
Proof.
  induction a as [|g a IH]; simpl.
  - now rewrite eqb_refl.
  - intros H. apply orb_false_iff in H as [Hg Ha]. rewrite Hg.
    now rewrite IH.
Qed.

Lemma split_slot_app (key : jsstring) (a : list segment) (g : segment)
    (b : list segment) :
  is_slot key g = false ->
  split_slot key (a ++ g :: b)
  = match split_slot key a with
    | Some (x, y) => Some (x, y ++ g :: b)
    | None =>
        match split_slot key b with
        | Some (x, y) => Some (a ++ g :: x, y)
        | None => None
        end
    end.
Proof.
  intros Hg. induction a as [|h a IH]; simpl.
  - rewrite Hg. now destruct (split_slot key b) as [[x y]|].
  - destruct (is_slot key h); [reflexivity|]. rewrite IH.
    destruct (split_slot key a) as [[x y]|]; [reflexivity|].
    now destruct (split_slot key b) as [[x y]|].
Qed.

(** Filling a slot leaves the slots of every other key where they are. *)
Lemma slots_fill_other (key : jsstring) (sub : jsstring * jsstring)
    (segs : list segment) :
  Str.eqb (fst sub) key = false ->
  slots key (fill segs sub) = slots key segs
  /\ length (fill segs sub) = length segs.
Proof.
  intros Hne. unfold fill.
  destruct (split_slot (fst sub) segs) as [[b a]|] eqn:E; [|now split].
  apply split_slot_spec in E as (k & Hk & -> & _).
  apply eqb_eq in Hk. subst k.
  rewrite !slots_app, !length_app. simpl. now rewrite Hne.
Qed.

(** A segment that a substitution does not fill stays in place. *)
Lemma fill_frame (key : jsstring) (sub : jsstring * jsstring)
    (a : list segment) (g : segment) (b : list segment) :
  is_slot (fst sub) g = false -> Str.eqb (fst sub) key = false ->
  exists a' b',
    fill (a ++ g :: b) sub = a' ++ g :: b'
    /\ length a' = length a
    /\ slots key a' = slots key a /\ slots key b' = slots key b.
Proof.
  intros Hg Hne. unfold fill. rewrite split_slot_app by assumption.
  destruct (split_slot (fst sub) a) as [[x y]|] eqn:Ea.
  - exists (fill a sub), b. unfold fill. rewrite Ea.
    split; [now rewrite <- app_assoc|].
    pose proof (slots_fill_other key sub a Hne) as [Hs Hl].
    unfold fill in Hs, Hl. rewrite Ea in Hs, Hl. now repeat split.
  - destruct (split_slot (fst sub) b) as [[x y]|] eqn:Eb.
    + exists a, (fill b sub). unfold fill. rewrite Eb.
      split; [now rewrite <- app_assoc|].
      pose proof (slots_fill_other key sub b Hne) as [Hs Hl].
      unfold fill in Hs. rewrite Eb in Hs. now repeat split.
    + exists a, b. now repeat split.
Qed.

Lemma fold_frame (key : jsstring) (subs : list (jsstring * jsstring))
    (g : segment) :
  forallb (fun sub => negb (is_slot (fst sub) g)
                      && negb (Str.eqb (fst sub) key)) subs = true ->
  forall a b, exists a' b',
    fold_left fill subs (a ++ g :: b) = a' ++ g :: b'
    /\ length a' = length a
    /\ slots key a' = slots key a /\ slots key b' = slots key b.
Proof.
  induction subs as [|sub subs IH]; intros Hsubs a b.
  - exists a, b. now repeat split.
  - simpl in Hsubs. apply andb_true_iff in Hsubs as [Hsub Hsubs].
    apply andb_true_iff in Hsub as [Hg Hne].
    apply negb_true_iff in Hg, Hne.
    destruct (fill_frame key sub a g b Hg Hne)
      as (a1 & b1 & E1 & Hl1 & Ha1 & Hb1).
    destruct (IH Hsubs a1 b1) as (a2 & b2 & E2 & Hl2 & Ha2 & Hb2).
    exists a2, b2. simpl. rewrite E1, E2.
    repeat split; congruence.
Qed.

(** The key that is substituted once fills its first slot, and its other
    slots stay. *)
Lemma first_slot_filled (key value : jsstring)
    (before after : list (jsstring * jsstring)) (s1 s2 : list segment) :
  forallb (fun sub => negb (Str.eqb (fst sub) key)) (before ++ after) = true ->
  existsb (is_slot key) s1 = false ->
  exists o1 o2,
    fold_left fill (before ++ (key, value) :: after) (s1 ++ Slot key :: s2)
    = o1 ++ Text value :: o2
    /\ length o1 = length s1
    /\ slots key o1 = slots key s1 /\ slots key o2 = slots key s2.
Proof.
  intros Hne Hs1. rewrite forallb_app in Hne.
  apply andb_true_iff in Hne as [Hbefore Hafter].
  rewrite fold_left_app.
  destruct (fold_frame key before (Slot key)) with (a := s1) (b := s2)
    as (a1 & b1 & E1 & Hl1 & Ha1 & Hb1).
  { rewrite forallb_forall in Hbefore |- *. intros sub Hin.
    specialize (Hbefore sub Hin). cbn [is_slot].
    rewrite (eqb_sym key (fst sub)). now rewrite Hbefore. }
  rewrite E1. cbn [fold_left]. unfold fill at 2. cbn [fst snd].
  rewrite split_slot_first.
  2:{ rewrite <- Hs1. clear - Ha1. unfold slots in Ha1.
      revert s1 Ha1. induction a1 as [|g a1 IH]; intros [|h s1] H;
        try discriminate; [reflexivity|].
      simpl in H. injection H as Hg H. simpl. rewrite Hg. f_equal.
      now apply IH. }
  destruct (fold_frame key after (Text value)) with (a := a1) (b := b1)
    as (a2 & b2 & E2 & Hl2 & Ha2 & Hb2).
  { rewrite forallb_forall in Hafter |- *. intros sub Hin.
    specialize (Hafter sub Hin). cbn [is_slot negb andb]. exact Hafter. }
  exists a2, b2. rewrite E2. repeat split; congruence.
Qed.

(** The substitution of a field of the record among those of
    [formatter]. *)
Lemma substitutions_split (this : MoviePlugin) (data : record)
    (trailer key : jsstring) :
  NoDup (Record.keys data) -> In key (Record.keys data) ->
  is_special key = false ->
  exists before after,
    substitutions this data trailer
    = before ++ (key, js_str (Record.get data key)) :: after
    /\ forallb (fun sub => negb (Str.eqb (fst sub) key)) (before ++ after)
       = true.
Proof.
  intros Hnd Hin Hspecial.
  apply in_split in Hin as (k1 & k2 & Hkeys).
  rewrite Hkeys in Hnd. apply NoDup_remove_2 in Hnd.
  assert (Hother : forall ks,
             (forall k, In k ks -> In k (k1 ++ k2)) ->
             forallb (fun sub => negb (Str.eqb (fst sub) key))
               (map (fun key => (key, js_str (Record.get data key)))
                  (filter (fun key => negb (is_special key)) ks)) = true).
  { intros ks Hks. apply forallb_forall. intros sub Hsub.
    apply in_map_iff in Hsub as (k & <- & Hk). apply filter_In in Hk as [Hk _].
    cbn [fst]. apply negb_true_iff, eqb_neq. intros ->. apply Hnd.
    now apply Hks. }
  unfold substitutions. rewrite Hkeys, filter_app. cbn [filter].
  rewrite Hspecial. cbn [negb]. rewrite map_app. cbn [map].
  rewrite <- app_assoc. cbn [app].
  eexists _, _. split; [reflexivity|].
  rewrite !forallb_app. rewrite !Hother.
  - cbn [andb forallb fst field]. unfold is_special in Hspecial.
    apply orb_false_iff in Hspecial as [Hspecial Hr].
    apply orb_false_iff in Hspecial as [Hp Ht].
    rewrite (eqb_sym "Runtime"), (eqb_sym "Poster"), (eqb_sym "Trailer").
    now rewrite Hr, Hp, Ht.
  - intros k Hk. apply in_or_app. now right.
  - intros k Hk. apply in_or_app. now left.
Qed.

Lemma get_keys (data : record) (key value : jsstring) :
  Record.get data key = Some value -> In key (Record.keys data).
Proof.
  induction data as [|[k v] data IH]; simpl; [discriminate|].
  destruct (Str.eqb k key) eqn:E.
  - intros _. left. now apply eqb_eq.
  - intros H. right. now apply IH.
Qed.

(** A token occurs in a well-formed template exactly when it has a slot. *)
Lemma occurs_slot (key : jsstring) (segs : list segment) :
  brace_free key = true -> well_formed segs = true ->
  (Str.occurs (token key) (template_of segs)
   <-> existsb (is_slot key) segs = true).
Proof.
  intros Hkey Hwf.
  destruct (existsb (is_slot key) segs) eqn:E.
  - split; [reflexivity|]. intros _.
    destruct (Str.find_first (token key) (template_of segs))
      as [[b a]|] eqn:F.
    + apply find_first_sound in F as [F _]. now exists b, a.
    + rewrite find_first_template in F by assumption.
      destruct (split_slot key segs) as [[b a]|] eqn:S; [discriminate|].
      apply split_slot_none in S. congruence.
  - split; [|discriminate]. intros H. exfalso.
    apply split_slot_none in E.
    assert (F : Str.find_first (token key) (template_of segs) = None)
      by (rewrite find_first_template by assumption; now rewrite E).
    apply find_first_None in F. contradiction.
Qed.

Lemma existsb_slots (key : jsstring) (segs : list segment) :
  existsb (is_slot key) segs = existsb (fun b => b) (slots key segs).
Proof.
  unfold slots. induction segs as [|g segs IH]; simpl; [reflexivity|].
  now rewrite IH.
Qed.

End TemplateFacts.

(** ** The token of a substitution *)

Module TokenFacts.

Import StrFacts TemplateFacts.

#[local] Arguments list_ascii_of_string : simpl never.

Lemma is_special_spec (key : jsstring) :
  is_special key
  = Str.eqb key "Runtime" || Str.eqb key "Poster" || Str.eqb key "Trailer".
Proof.
  unfold is_special.
  destruct (Str.eqb key "Runtime"), (Str.eqb key "Poster"),
    (Str.eqb key "Trailer"); reflexivity.
Qed.

(** The substitution that [formatter] makes for a key that has a text:
    it is the only one for that key. *)
Lemma substitutions_split_value (this : MoviePlugin) (data : record)
    (trailer key value : jsstring) :
  NoDup (Record.keys data) ->
  token_value this data trailer key = Some value ->
  exists before after,
    substitutions this data trailer = before ++ (key, value) :: after
    /\ forallb (fun sub => negb (Str.eqb (fst sub) key)) (before ++ after)
       = true.
Proof.
  intros Hnd Hvalue. unfold token_value in Hvalue.
  set (generic :=
         map (fun k => (k, js_str (Record.get data k)))
           (filter (fun k => negb (is_special k)) (Record.keys data))).
  assert (Hgeneric : forall k,
             is_special k = true ->
             forallb (fun sub => negb (Str.eqb (fst sub) k)) generic = true).
  { intros k Hk. apply forallb_forall. intros [k' v'] Hin.
    apply in_map_iff in Hin as (k0 & E & Hin). injection E as -> _.
    apply filter_In in Hin as [_ Hk']. cbn [fst].
    apply negb_true_iff. apply eqb_neq. intros ->.
    rewrite Hk in Hk'. discriminate. }
  destruct (Str.eqb key "Runtime") eqn:Er.
  { apply eqb_eq in Er. subst key. injection Hvalue as <-.
    exists generic, [field "Poster" (poster_text this data);
                     field "Trailer" trailer].
    split; [reflexivity|]. rewrite forallb_app, Hgeneric by reflexivity.
    reflexivity. }
  destruct (Str.eqb key "Poster") eqn:Ep.
  { apply eqb_eq in Ep. subst key. injection Hvalue as <-.
    exists (generic ++ [field "Runtime" (runtime_text data)]),
      [field "Trailer" trailer].
    split; [unfold substitutions; fold generic; now rewrite <- app_assoc|].
    rewrite !forallb_app, Hgeneric by reflexivity. reflexivity. }
  destruct (Str.eqb key "Trailer") eqn:Et.
  { apply eqb_eq in Et. subst key. injection Hvalue as <-.
    exists (generic ++ [field "Runtime" (runtime_text data);
                        field "Poster" (poster_text this data)]), [].
    split; [unfold substitutions; fold generic; now rewrite <- app_assoc|].
    rewrite !forallb_app, Hgeneric by reflexivity. reflexivity. }
  destruct (substitutions_split this data trailer key Hnd
              (get_keys data key _ Hvalue))
    as (before & after & Hsubs & Hne).
  { rewrite is_special_spec, Er, Ep, Et. reflexivity. }
  exists before, after. rewrite Hsubs, Hvalue. now split.
Qed.

End TokenFacts.
(** ** Complete runs *)

Module Runs.

Import StrFacts PipelineFacts TemplateFacts.

#[local] Arguments list_ascii_of_string : simpl never.

(** [addContentToFile] runs [formatter] on the file name template, whatever
    the record and the state, and writes the note under the name it
    returns; a fault of that call is a fault of [addContentToFile]. *)
Lemma addContentToFile_formatter this net text movie st :
  addContentToFile this net text movie st
  = match formatter this net movie (fileName (settings this)) st with
    | (Return name, st') =>
        (Return tt,
         logging
           [Create (note_path this name) text;
            OpenLink (note_path this name);
            Notice "Movie added successfully!"]
           st')
    | (Throw e, st') => (Throw e, st')
    end.
Proof.
  unfold addContentToFile. unfold bind at 1.
  destruct (formatter this net movie (fileName (settings this)) st)
    as [[name|e] st']; [|reflexivity].
  unfold bind, emit, logging, note_path. cbn [requests log background].
  f_equal. apply state_eq; [|reflexivity]. now rewrite <- !app_assoc.
Qed.

Lemma addContentToFile_runs this net text movie st trailer :
  trailer_text this net movie st = Some trailer ->
  let name := formatted this movie (fileName (settings this)) trailer in
  addContentToFile this net text movie st
  = (Return tt,
     logging
       [Create (note_path this name) text;
        OpenLink (note_path this name);
        Notice "Movie added successfully!"]
       (after_trailer this movie st)).
Proof.
  intros Htrailer name. unfold addContentToFile. unfold bind at 1.
  rewrite (formatter_runs _ _ _ _ _ _ Htrailer). fold name.
  unfold bind, emit, logging, note_path. cbn [requests log background].
  f_equal. apply state_eq; [|reflexivity]. now rewrite <- !app_assoc.
Qed.

(** A run of [crawlAndAdd] in which every lookup returns. *)
Lemma crawlAndAdd_success this net text st answer title t1 t2 :
  Str.truthy (omdbapikey (settings this)) = true ->
  net (requests st) (getUrl this text) = Arrived (Json (JRecord answer)) ->
  Record.get answer "Title" = Some title ->
  let movie := Record.set answer "Title" (sanitize title) in
  let s1 := fetched this net text movie st in
  let s2 := after_trailer this movie s1 in
  trailer_text this net movie s1 = Some t1 ->
  trailer_text this net movie s2 = Some t2 ->
  let note := formatted this movie (template (settings this)) t1 in
  let name := formatted this movie (fileName (settings this)) t2 in
  crawlAndAdd this net text st
  = (Return tt,
     logging
       [Create (note_path this name) note;
        OpenLink (note_path this name);
        Notice "Movie added successfully!"]
       (after_trailer this movie s2)).
Proof.
  intros Hkey Hnet Htitle movie s1 s2 H1 H2 note name.
  rewrite (crawlAndAdd_fetched _ _ _ _ _ _ Hkey Hnet Htitle).
  fold movie. fold s1. unfold bind at 1. unfold formatMovie.
  rewrite (formatter_runs _ _ _ _ _ _ H1). fold s2. fold note.
  now rewrite (addContentToFile_runs _ _ _ _ _ _ H2).
Qed.

Lemma written_app (a b : list event) :
  written (a ++ b) = written a ++ written b.
Proof. apply flat_map_app. Qed.

End Runs.
(** * The claims *)

Import StrFacts RegexFacts QueryFacts PipelineFacts NumberFacts HexFacts
  TemplateFacts TokenFacts Runs.

#[local] Arguments list_ascii_of_string : simpl never.

(** ** C1: title sanitization *)

(** C1, as stated, fails on its example: the colon belongs to the set of
    replaced characters, so the sanitized title of [Ocean's 8: Redux?] is
    not [Ocean's 8: Redux-]. *)
Lemma sanitize_replaces_the_colon :
  sanitize "Ocean's 8: Redux?" <> "Ocean's 8: Redux-".
Proof. vm_compute. discriminate. Qed.

(** C1, amended: when the metadata arrives with a [Title], [crawlMovie]
    returns the record with its [Title] sanitized, that is with every
    occurrence of a character of [Char.illegal] (slash, backslash, question
    mark, percent, star, colon, bar, double quote, angle brackets) replaced
    by [-] and every other character kept; the sanitized title of
    [Ocean's 8: Redux?] is [Ocean's 8- Redux-]. *)
Theorem crawlMovie_sanitizes_title
    (this : MoviePlugin) (net : world) (text : jsstring) (st : state)
    (answer : record) (title : jsstring) :
  net (requests st) (getUrl this text) = Arrived (Json (JRecord answer)) ->
  Record.get answer "Title" = Some title ->
  crawlMovie this net text st
  = (Return (Some (Record.set answer "Title" (sanitize title))),
     logging [ConsoleLog] (requested (getUrl this text) st))
  /\ Record.get (Record.set answer "Title" (sanitize title)) "Title"
     = Some (sanitize title)
  /\ sanitize title
     = map (fun c => if Char.is_illegal c then "-"%char else c) title
  /\ (forall c, Char.is_illegal c = true <-> In c Char.illegal)
  /\ sanitize "Ocean's 8: Redux?" = "Ocean's 8- Redux-".
Proof.
  intros Hnet Htitle. split; [|split; [|split; [|split]]].
  - now apply crawlMovie_found.
  - apply get_set.
  - apply sanitize_map.
  - apply is_illegal_spec.
  - reflexivity.
Qed.

Lemma crawlMovie_sanitizes_title_witness :
  crawlMovie Sample.with_omdb_key Sample.net_found "Dune" start
  = (Return (Some (Record.set Sample.dune "Title" "Dune- Part Two")),
     logging [ConsoleLog]
       (requested (getUrl Sample.with_omdb_key "Dune") start)).
Proof.
  exact (proj1 (crawlMovie_sanitizes_title Sample.with_omdb_key
                  Sample.net_found "Dune" start Sample.dune "Dune: Part Two"
                  eq_refl eq_refl)).
Defined.

(** ** C2: the query builder *)




(** ** C3: the title token *)

(** C3, as stated, fails: the template [{{Title}}{{Title}}] contains the
    token and the record has the Title [Dune], yet the output has a
    residual [{{Title}}]. *)
Lemma second_title_token_stays :
  formatter Sample.unconfigured Sample.net_found Sample.dune_1984
    "{{Title}}{{Title}}" start
  = (Return ("Dune{{Title}}" : jsstring), start)
  /\ Str.occurs "{{Title}}" "Dune{{Title}}".
Proof.
  split; [reflexivity|]. now exists (list_ascii_of_string "Dune"), [].
Qed.

(** C3, amended: take a well-formed template (braces only around token
    names), a record with the Title [Dune], field names and replacement
    texts without braces and replacement patterns, and a trailer lookup
    that returns.  If the template contains [{{Title}}], the output of
    [formatter] contains [Dune], and it contains a residual [{{Title}}]
    exactly when the template has a further [{{Title}}] after the first. *)
Theorem title_token_filled_once
    (this : MoviePlugin) (net : world) (data : record) (st : state)
    (trailer : jsstring) (s1 s2 : list segment) :
  well_formed (s1 ++ Slot "Title" :: s2) = true ->
  existsb (is_slot "Title") s1 = false ->
  Record.get data "Title" = Some ("Dune" : jsstring) ->
  NoDup (Record.keys data) ->
  forallb clean (substitutions this data trailer) = true ->
  trailer_text this net data st = Some trailer ->
  let output :=
    formatted this data (template_of (s1 ++ Slot "Title" :: s2)) trailer in
  formatter this net data (template_of (s1 ++ Slot "Title" :: s2)) st
  = (Return output, after_trailer this data st)
  /\ Str.occurs "Dune" output
  /\ (Str.occurs "{{Title}}" output
      <-> existsb (is_slot "Title") s2 = true).
Proof.
  intros Hwf Hs1 Htitle Hnd Hclean Htrailer output. subst output.
  split; [now apply formatter_runs|].
  rewrite formatted_template by assumption.
  destruct (fold_replace_template (substitutions this data trailer)
              (s1 ++ Slot "Title" :: s2) Hclean Hwf) as [_ Hwf'].
  destruct (substitutions_split this data trailer "Title" Hnd
              (get_keys data "Title" _ Htitle) eq_refl)
    as (before & after & Hsubs & Hne).
  rewrite Htitle in Hsubs. cbn [js_str] in Hsubs.
  rewrite Hsubs in Hwf' |- *.
  destruct (first_slot_filled "Title" "Dune" before after s1 s2 Hne Hs1)
    as (o1 & o2 & Hout & Hl & Ho1 & Ho2).
  rewrite Hout in Hwf' |- *. split.
  - exists (template_of o1), (template_of o2).
    now rewrite template_of_app.
  - change (list_ascii_of_string "{{Title}}") with (token "Title").
    rewrite occurs_slot by (reflexivity || assumption).
    rewrite !existsb_slots, slots_app. cbn [slots map is_slot].
    fold (slots "Title" o2). rewrite Ho1, Ho2.
    rewrite existsb_app. cbn [existsb].
    rewrite <- (existsb_slots "Title" s1), Hs1. reflexivity.
Qed.

Lemma title_token_filled_once_witness :
  let output :=
    formatted Sample.unconfigured Sample.dune_1984
      (template_of (Sample.heading ++ Slot "Title" :: Sample.body_segments))
      [] in
  formatter Sample.unconfigured Sample.net_found Sample.dune_1984
    (template_of (Sample.heading ++ Slot "Title" :: Sample.body_segments))
    start
  = (Return output, after_trailer Sample.unconfigured Sample.dune_1984 start)
  /\ Str.occurs "Dune" output
  /\ (Str.occurs "{{Title}}" output
      <-> existsb (is_slot "Title") Sample.body_segments = true).
Proof.
  apply (title_token_filled_once Sample.unconfigured Sample.net_found
           Sample.dune_1984 start []
           Sample.heading Sample.body_segments).
  - reflexivity.
  - reflexivity.
  - reflexivity.
  - apply distinct_NoDup. reflexivity.
  - reflexivity.
  - reflexivity.
Defined.

(** ** C4: only the first occurrence of a token is replaced *)

(** C4, as stated, fails: a replacement text is itself searched by the
    later [replace] calls.  The record [Sample.nested] supplies the field
    [T], and the template has the token of [T] twice, after the token of
    [K]; the value of [K] is the token of [T], and it is this inserted
    token that the substitution of [T] fills.  Both instances of the token
    in the template stay, where the claim has the first of them filled. *)
Lemma inserted_token_is_filled_first :
  Record.get Sample.nested "T" = Some (list_ascii_of_string "v")
  /\ formatter Sample.unconfigured Sample.net_found Sample.nested
       ("{{K}}" ++ " {{T}} {{T}}") start
     = (Return ("v" ++ " {{T}} {{T}}"), start)
  /\ fst (formatter Sample.unconfigured Sample.net_found Sample.nested
            "{{K}} {{T}} {{T}}" start)
     <> Return (list_ascii_of_string "{{T}} v {{T}}").
Proof.
  split; [reflexivity|]. split; [reflexivity|].
  vm_compute. discriminate.
Qed.

(** C4, amended: [formatter] is a sequence of [replace] calls, one per
    entry of [substitutions]; each call rewrites the first occurrence of
    its token in the text it receives and keeps the text before and after
    it, with every later occurrence.  On a well-formed template, with
    field names and replacement texts without braces and replacement
    patterns, a token that occurs more than once and that has a text, the
    field of the record or the derived text of [{{Runtime}}], [{{Poster}}]
    and [{{Trailer}}], has its first instance filled with that text, and
    the later instances of the token stand in the output where they
    stood. *)
Theorem only_first_token_replaced (this : MoviePlugin) (data : record) :
  (forall tmpl trailer,
      formatted this data tmpl trailer
      = fold_left (fun t sub => Str.replace (token (fst sub)) (snd sub) t)
          (substitutions this data trailer) tmpl)
  /\ (forall tok value before after,
      Str.absent_before tok (before ++ tok ++ after) (length before) ->
      Str.replace tok value (before ++ tok ++ after)
      = before ++ Str.GetSubstitution tok before after value ++ after)
  /\ (forall net st trailer key value s1 s2,
      well_formed (s1 ++ Slot key :: s2) = true ->
      existsb (is_slot key) s1 = false ->
      existsb (is_slot key) s2 = true ->
      token_value this data trailer key = Some value ->
      NoDup (Record.keys data) ->
      forallb clean (substitutions this data trailer) = true ->
      trailer_text this net data st = Some trailer ->
      exists o1 o2,
        formatter this net data (template_of (s1 ++ Slot key :: s2)) st
        = (Return (template_of o1 ++ value ++ template_of o2),
           after_trailer this data st)
        /\ length o1 = length s1
        /\ slots key o1 = slots key s1
        /\ slots key o2 = slots key s2
        /\ well_formed (o1 ++ o2) = true).
Proof.
  split; [|split].
  - intros. apply formatted_fold.
  - intros. now apply replace_first.
  - intros net st trailer key value s1 s2 Hwf Hs1 _ Hvalue Hnd
      Hclean Htrailer.
    pose proof (formatter_runs this net data
                  (template_of (s1 ++ Slot key :: s2)) st trailer Htrailer)
      as Hrun.
    rewrite formatted_template in Hrun by assumption.
    destruct (fold_replace_template (substitutions this data trailer)
                (s1 ++ Slot key :: s2) Hclean Hwf) as [_ Hwf'].
    destruct (substitutions_split_value this data trailer key value Hnd
                Hvalue)
      as (before & after & Hsubs & Hne).
    rewrite Hsubs in Hwf', Hrun.
    destruct (first_slot_filled key value before after s1 s2 Hne Hs1)
      as (o1 & o2 & Hout & Hl & Ho1 & Ho2).
    rewrite Hout in Hwf', Hrun.
    exists o1, o2.
    replace (template_of o1 ++ value ++ template_of o2)
      with (template_of (o1 ++ Text value :: o2))
      by (now rewrite template_of_app).
    split; [exact Hrun|]. do 3 (split; [assumption|]).
    rewrite well_formed_app in Hwf' |- *.
    apply andb_true_iff in Hwf' as [H1 H2]. simpl in H2.
    apply andb_true_iff in H2 as [_ H2]. now rewrite H1, H2.
Qed.

Lemma only_first_token_replaced_witness :
  exists o1 o2,
    formatter Sample.unconfigured Sample.net_found Sample.dune
      (template_of ([Text "Length: "] ++ Slot "Runtime"
                    :: [Text ", that is "; Slot "Runtime"]))
      start
    = (Return (template_of o1 ++ "2h 46m" ++ template_of o2), start)
    /\ length o1 = 1
    /\ slots "Runtime" o1 = [false]
    /\ slots "Runtime" o2 = [false; true]
    /\ well_formed (o1 ++ o2) = true.
Proof.
  destruct (only_first_token_replaced Sample.unconfigured Sample.dune)
    as (_ & _ & H).
  apply (H Sample.net_found start [] (list_ascii_of_string "Runtime")
           (list_ascii_of_string "2h 46m") [Text "Length: "]
           [Text ", that is "; Slot "Runtime"]).
  - reflexivity.
  - reflexivity.
  - reflexivity.
  - reflexivity.
  - apply distinct_NoDup. reflexivity.
  - reflexivity.
  - reflexivity.
Defined.

(** ** C5: the runtime *)

(** C5, as stated, fails: a [Runtime] that is the empty string is present
    and is not [N/A], yet [{{Runtime}}] is replaced with [-], which is not
    of the form hours, [h], space, minutes, [m]: the guard of [formatter]
    tests the truthiness of the field. *)
Lemma empty_runtime_gives_dash :
  Record.get Sample.no_runtime "Runtime" = Some []
  /\ [] <> list_ascii_of_string "N/A"
  /\ format_runtime Sample.no_runtime "{{Runtime}}" = "-"
  /\ forall hours minutes : jsstring,
       format_runtime Sample.no_runtime "{{Runtime}}"
       <> hours ++ "h " ++ minutes ++ "m".
Proof.
  split; [reflexivity|]. split; [discriminate|].
  split; [reflexivity|]. intros hours minutes H.
  apply (f_equal (@length ascii)) in H. rewrite !length_app in H.
  change (length (format_runtime Sample.no_runtime "{{Runtime}}"))
    with 1 in H.
  change (length (list_ascii_of_string "h ")) with 2 in H. lia.
Qed.

(** C5, amended: the first [{{Runtime}}] of the template that reaches the
    runtime step of [formatter] is replaced as follows.  When the record
    has a [Runtime] that is neither empty nor [N/A] and that starts with
    decimal digits and not with [0x] or [0X], or with [0x] or [0X] and at
    least one hexadecimal digit, [parseInt] reads these digits, in base 10
    or 16, as the minutes [m] (below 2^53, where JavaScript numbers are
    exact), and the replacement is [m / 60], [h], a space, [m mod 60] and
    [m], so that [142 min] gives [2h 22m] and [0x1F min] gives [0h 31m];
    when [Runtime] is [N/A], empty or absent, the replacement is [-]. *)
Theorem runtime_formatting (data : record) (before after : jsstring) :
  Str.absent_before "{{Runtime}}" (before ++ "{{Runtime}}" ++ after)
    (length before) ->
  let tmpl := before ++ "{{Runtime}}" ++ after in
  (forall runtime m,
      Record.get data "Runtime" = Some runtime ->
      runtime <> "N/A" ->
      leading_integer runtime m \/ leading_hexadecimal runtime m ->
      (m < 2 ^ 53)%Z ->
      format_runtime data tmpl
      = before
        ++ (Number.to_string (Num (m / 60)) ++ "h "
            ++ Number.to_string (Num (m mod 60)) ++ "m")
        ++ after)
  /\ (Record.get data "Runtime" = Some ("N/A" : jsstring)
      \/ Record.get data "Runtime" = Some []
      \/ Record.get data "Runtime" = None ->
      format_runtime data tmpl = before ++ "-" ++ after)
  /\ runtime_text [field "Runtime" "142 min"] = "2h 22m"
  /\ runtime_text [field "Runtime" "0x1F min"] = "0h 31m"
  /\ (forall this net tmpl' st trailer,
      trailer_text this net data st = Some trailer ->
      formatter this net data tmpl' st
      = (Return
           (Str.replace "{{Trailer}}" trailer
              (format_poster this data
                 (format_runtime data (generic_pass data tmpl')))),
         after_trailer this data st)).
Proof.
  intros Hfirst tmpl. unfold tmpl.
  rewrite (format_runtime_first data before after Hfirst).
  split; [|split; [|split; [|split]]].
  - intros runtime m Hget _ [Hlead|Hlead] _.
    + now rewrite (runtime_text_minutes data runtime m Hget Hlead).
    + now rewrite (runtime_text_hexadecimal data runtime m Hget Hlead).
  - unfold runtime_text. intros [Hget|[Hget|Hget]]; now rewrite Hget.
  - reflexivity.
  - reflexivity.
  - intros this net tmpl' st trailer Htrailer.
    now rewrite (formatter_runs _ _ _ _ _ _ Htrailer).
Qed.

Lemma runtime_formatting_witness :
  format_runtime Sample.dune "Length: {{Runtime}}." = "Length: 2h 46m.".
Proof.
  destruct (runtime_formatting Sample.dune "Length: " "."
              (proj2 (find_first_sound "{{Runtime}}" "Length: {{Runtime}}."
                        "Length: " "." eq_refl)))
    as (H & _).
  apply (H (list_ascii_of_string "166 min") 166%Z).
  - reflexivity.
  - discriminate.
  - left. exists (list_ascii_of_string "166"), (list_ascii_of_string " min").
    split; [reflexivity|]. split; [discriminate|]. split; [reflexivity|].
    split; [reflexivity|]. split; [|reflexivity].
    intros [r [E|E]]; discriminate E.
  - reflexivity.
Defined.

(** ** C6: the missing movie-database key *)

(** C6: with an empty [omdbapikey], [crawlAndAdd] returns after the one
    notice about the key, for every input: no request is issued, nothing is
    written, no download is started. *)
Theorem crawlAndAdd_without_key
    (this : MoviePlugin) (net : world) (text : jsstring) (st : state) :
  omdbapikey (settings this) = [] ->
  crawlAndAdd this net text st
  = (Return tt,
     {| requests := requests st;
        log := log st
               ++ [Notice "Please enter your OMDB API key in the settings."];
        background := background st |}).
Proof.
  intros Hkey. unfold crawlAndAdd. rewrite Hkey. reflexivity.
Qed.

Lemma crawlAndAdd_without_key_witness :
  crawlAndAdd Sample.unconfigured Sample.net_found "Dune" start
  = (Return tt,
     {| requests := 0;
        log := [Notice "Please enter your OMDB API key in the settings."];
        background := [] |}).
Proof.
  exact (crawlAndAdd_without_key Sample.unconfigured Sample.net_found "Dune"
           start eq_refl).
Defined.

(** ** C7: a failed metadata fetch *)

(** C7: when the metadata fetch fails (the request is rejected, the body is
    not JSON, or the answer is the API's object without a [Title]),
    [crawlMovie] returns no record after the notices [Movie not found.],
    the error text and the request URL; [crawlAndAdd] then returns: it has
    issued that one request, written nothing and started no download. *)
Theorem failed_lookup_aborts
    (this : MoviePlugin) (net : world) (text : jsstring) (st : state)
    (e : jsstring) :
  Str.truthy (omdbapikey (settings this)) = true ->
  fetch_fails (net (requests st) (getUrl this text)) e ->
  let url := getUrl this text in
  let notices :=
    logged (net (requests st) url)
    ++ [Notice "Movie not found."; Notice e; Notice url] in
  crawlMovie this net text st
  = (Return None,
     {| requests := S (requests st);
        log := log st ++ Request url :: notices;
        background := background st |})
  /\ crawlAndAdd this net text st
     = (Return tt,
        {| requests := S (requests st);
           log := log st ++ warning this ++ Request url :: notices;
           background := background st |}).
Proof.
  intros Hkey Hfail url notices. split.
  - rewrite (crawlMovie_failed _ _ _ _ _ Hfail). f_equal.
    unfold logging, requested. cbn [requests log background].
    apply state_eq; [|reflexivity]. now rewrite <- app_assoc.
  - unfold crawlAndAdd. rewrite Hkey. cbn [negb]. unfold warning.
    destruct (Str.truthy (youtubeapikey (settings this))); cbn [negb].
    + unfold ret at 1. unfold bind at 1. unfold bind at 1.
      rewrite (crawlMovie_failed _ _ _ _ _ Hfail). unfold ret. f_equal.
      unfold logging, requested. cbn [requests log background].
      apply state_eq; [|reflexivity]. now rewrite <- app_assoc.
    + unfold emit at 1. unfold bind at 1. unfold bind at 1.
      rewrite crawlMovie_failed with (e := e) by exact Hfail.
      unfold ret. f_equal.
      unfold logging, requested. cbn [requests log background].
      apply state_eq; [|reflexivity]. now rewrite <- !app_assoc.
Qed.

Lemma failed_lookup_aborts_witness :
  crawlAndAdd Sample.with_omdb_key Sample.net_unknown "Dnue" start
  = (Return tt,
     {| requests := 1;
        log :=
          [Notice "Youtube API key is missing. Trailer will not be added.";
           Request "https://www.omdbapi.com/?apikey=k&t=Dnue";
           ConsoleLog;
           Notice "Movie not found.";
           Notice (TypeError "replace");
           Notice "https://www.omdbapi.com/?apikey=k&t=Dnue"];
        background := [] |}).
Proof.
  exact (proj2 (failed_lookup_aborts Sample.with_omdb_key Sample.net_unknown
                  "Dnue" start (TypeError "replace") eq_refl
                  (not_found Sample.unknown eq_refl))).
Defined.


(** ** C8: the trailer lookup *)

(** C8: [getTrailerOnYoutube] returns the [videoId] of the first item of
    the search response; on a response without items it throws, and the
    exception leaves [crawlAndAdd] uncaught: the run ends in [Throw] after
    the trailer request, with no note written. *)
Theorem trailer_lookup_first_item_or_fault
    (this : MoviePlugin) (net : world) :
  (forall title st item others,
      net (requests st) (youtubeApiUrl this ++ title ++ " trailer")
      = Arrived (Json (JSearch (item :: others))) ->
      getTrailerOnYoutube this net title st
      = (Return (videoId item),
         requested (youtubeApiUrl this ++ title ++ " trailer") st))
  /\ (forall title st,
      net (requests st) (youtubeApiUrl this ++ title ++ " trailer")
      = Arrived (Json (JSearch [])) ->
      getTrailerOnYoutube this net title st
      = (Throw (TypeError "id"),
         requested (youtubeApiUrl this ++ title ++ " trailer") st))
  /\ (forall text st answer title,
      Str.truthy (omdbapikey (settings this)) = true ->
      Str.truthy (youtubeapikey (settings this)) = true ->
      net (requests st) (getUrl this text) = Arrived (Json (JRecord answer)) ->
      Record.get answer "Title" = Some title ->
      net (S (S (requests st)))
        (youtubeApiUrl this ++ sanitize title ++ " trailer")
      = Arrived (Json (JSearch [])) ->
      let movie := Record.set answer "Title" (sanitize title) in
      crawlAndAdd this net text st
      = (Throw (TypeError "id"),
         {| requests := S (S (S (requests st)));
            log := log st
                   ++ [Request (getUrl this text); ConsoleLog;
                       Request (youtubeApiUrl this ++ sanitize title
                                ++ " trailer")];
            background := background (fetched this net text movie st) |})).
Proof.
  split; [|split].
  - intros. now apply getTrailerOnYoutube_first with (others := others).
  - intros. now apply getTrailerOnYoutube_empty.
  - intros text st answer title Homdb Hyt Hnet Htitle Hnone movie.
    rewrite (crawlAndAdd_fetched _ _ _ _ _ _ Homdb Hnet Htitle).
    fold movie. unfold bind at 1. unfold formatMovie.
    assert (Hget : Record.get movie "Title" = Some (sanitize title))
      by apply get_set.
    rewrite formatter_fault;
      [| assumption
       | cbn [requests fetched]; rewrite Hget; exact Hnone].
    rewrite Hget. cbn [js_str]. f_equal.
    unfold requested, fetched, warning. rewrite Hyt.
    cbn [requests log background app]. apply state_eq; [|reflexivity].
    now rewrite <- app_assoc.
Qed.

Lemma trailer_lookup_first_item_or_fault_witness :
  crawlAndAdd Sample.with_both_keys Sample.net_no_trailer "Dune" start
  = (Throw (TypeError "id"),
     {| requests := 3;
        log :=
          [Request "https://www.omdbapi.com/?apikey=k&t=Dune";
           ConsoleLog;
           Request
             (youtubeApiUrl Sample.with_both_keys ++ "Dune- Part Two trailer")];
        background :=
          [Request "http://x/p.jpg";
           CreateBinary "assets/Dune- Part Two.jpg"] |}).
Proof.
  destruct (trailer_lookup_first_item_or_fault Sample.with_both_keys
              Sample.net_no_trailer) as (_ & _ & H).
  exact (H (list_ascii_of_string "Dune") start Sample.dune
           (list_ascii_of_string "Dune: Part Two")
           eq_refl eq_refl eq_refl eq_refl eq_refl).
Defined.

(** ** C9: the file name of the note *)



(** ** C10: where the poster is saved and where the note looks for it *)

(** C10: the code breaks the claim by a slip, at a title that holds a
    replacement pattern.  [crawlAndAdd] stores the poster under the title
    as it is, while [formatter] builds the file name of the embed with
    [replace], which expands the patterns of its second argument: with the
    default file name template [{{Title}}] and the title [$$], the file
    name of the embed is [$].  The run stores the image at [assets/$$.jpg]
    and writes a note that refers to [assets/$.jpg], a path at which it
    has stored nothing, where the claim has the two paths coincide. *)
Lemma default_file_name_with_dollar_title :
  fileName (settings Sample.with_omdb_key) = "{{Title}}"
  /\ sanitize "$$" = "$$"
  /\ Str.replace "{{Title}}" (sanitize "$$")
       (fileName (settings Sample.with_omdb_key))
     = "$"
  /\ exists st' note,
      crawlAndAdd Sample.with_omdb_key Sample.net_dollars "x" start
      = (Return tt, st')
      /\ background st'
         = [Request "http://x/p.jpg"; CreateBinary "assets/$$.jpg"]
      /\ In (Create "movies/$.md" note) (log st')
      /\ Str.starts_with "![[assets/$.jpg|movie|200]]" note = true
      /\ written (background st' ++ log st')
         = [list_ascii_of_string "assets/$$.jpg";
            list_ascii_of_string "movies/$.md"].
Proof.
  split; [reflexivity|]. split; [reflexivity|]. split; [reflexivity|].
  eexists. eexists. split; [vm_compute; reflexivity|].
  split; [reflexivity|]. split; [|split].
  - right. right. right. left. reflexivity.
  - reflexivity.
  - reflexivity.
Qed.

(** ** The runs in normal form, and templates without repeated tokens *)

Module CoverageFacts.

Import StrFacts PipelineFacts NumberFacts HexFacts TemplateFacts TokenFacts
  Runs.

#[local] Arguments list_ascii_of_string : simpl never.

Ltac same_state :=
  f_equal; try (apply state_eq; try reflexivity);
  rewrite <- ?app_assoc; cbn [app]; rewrite ?app_nil_r; reflexivity.

(** The run of [crawlMovie], whatever the response. *)
Lemma crawlMovie_normal this net text st :
  let url := getUrl this text in
  let r := net (requests st) url in
  crawlMovie this net text st
  = (Return (lookup_result r),
     logging
       (logged r
        ++ match lookup_error r with
           | Some e => [Notice "Movie not found."; Notice e; Notice url]
           | None => []
           end)
       (requested url st)).
Proof.
  intros url r. unfold_pipeline. fold url. fold r.
  destruct r as [e|[e|[answer|items]]]; cbn [lookup_result lookup_error logged];
    cbn [requests log background app].
  - same_state.
  - same_state.
  - destruct (Record.get answer "Title") as [title|];
      cbn [requests log background app].
    + same_state.
    + same_state.
  - same_state.
Qed.

(** The run of [formatter], whatever the response to the trailer lookup. *)
Lemma formatter_normal this net data tmpl st :
  formatter this net data tmpl st
  = (match trailer_outcome this net data st with
     | Return t => Return (formatted this data tmpl t)
     | Throw e => Throw e
     end,
     after_trailer this data st).
Proof.
  unfold formatter, trailer_outcome, after_trailer, trailer_url, formatted.
  destruct (Str.truthy (youtubeapikey (settings this))); [|reflexivity].
  unfold getTrailerOnYoutube, bind, requestUrl, json_of, ret, throw, requested.
  destruct (net (requests st) _) as [e|[e|[answer|[|item others]]]];
    reflexivity.
Qed.

(** The run of [addContentToFile], whatever the response. *)
Lemma addContentToFile_normal this net text movie st :
  addContentToFile this net text movie st
  = match trailer_outcome this net movie st with
    | Return t =>
        let name := formatted this movie (fileName (settings this)) t in
        (Return tt,
         logging
           [Create (note_path this name) text;
            OpenLink (note_path this name);
            Notice "Movie added successfully!"]
           (after_trailer this movie st))
    | Throw e => (Throw e, after_trailer this movie st)
    end.
Proof.
  rewrite addContentToFile_formatter, formatter_normal.
  now destruct (trailer_outcome this net movie st).
Qed.

(** The run of [crawlAndAdd], whatever the network answers. *)
Lemma crawlAndAdd_normal this net text st :
  let url := getUrl this text in
  let r := net (requests st) url in
  crawlAndAdd this net text st
  = if Str.truthy (omdbapikey (settings this)) then
      match lookup_result r with
      | None =>
          (Return tt,
           {| requests := S (requests st);
              log :=
                log st ++ warning this ++ Request url :: logged r
                ++ match lookup_error r with
                   | Some e =>
                       [Notice "Movie not found."; Notice e; Notice url]
                   | None => []
                   end;
              background := background st |})
      | Some movie =>
          let s1 := fetched this net text movie st in
          let s2 := after_trailer this movie s1 in
          match trailer_outcome this net movie s1 with
          | Throw e => (Throw e, s2)
          | Return t1 =>
              match trailer_outcome this net movie s2 with
              | Throw e => (Throw e, after_trailer this movie s2)
              | Return t2 =>
                  let note :=
                    formatted this movie (template (settings this)) t1 in
                  let name :=
                    formatted this movie (fileName (settings this)) t2 in
                  (Return tt,
                   logging
                     [Create (note_path this name) note;
                      OpenLink (note_path this name);
                      Notice "Movie added successfully!"]
                     (after_trailer this movie s2))
              end
          end
      end
    else
      (Return tt,
       logging [Notice "Please enter your OMDB API key in the settings."] st).
Proof.
  intros url r. unfold crawlAndAdd.
  destruct (Str.truthy (omdbapikey (settings this))); cbn [negb];
    [|reflexivity].
  set (st0 := {| requests := requests st; log := log st ++ warning this;
                 background := background st |}).
  assert (Hwarn :
            (if negb (Str.truthy (youtubeapikey (settings this)))
             then emit (Notice "Youtube API key is missing. Trailer will not be added.")
             else ret tt) st
            = (Return tt, st0)).
  { unfold st0, warning.
    destruct (Str.truthy (youtubeapikey (settings this))); cbn [negb].
    - unfold ret. f_equal. destruct st as [n l b]. cbn [requests log background].
      now rewrite app_nil_r.
    - reflexivity. }
  unfold bind at 1. rewrite Hwarn. unfold bind at 1.
  rewrite crawlMovie_normal. change (requests st0) with (requests st).
  fold url. fold r.
  destruct (lookup_result r) as [movie|] eqn:Hres.
  - unfold bind at 1. rewrite detach_addImageToAssets.
    unfold bind at 1. unfold formatMovie. rewrite formatter_normal.
    assert (Herr : lookup_error r = None).
    { destruct r as [e|[e|[answer|items]]]; try discriminate.
      cbn [lookup_result lookup_error] in *.
      now destruct (Record.get answer "Title"). }
    assert (Hlog : logged r = [ConsoleLog]).
    { destruct r as [e|[e|[answer|items]]]; try discriminate; reflexivity. }
    rewrite Herr, Hlog.
    match goal with
    | |- context [trailer_outcome this net movie ?s] =>
        assert (Hs : s = fetched this net text movie st)
    end.
    { unfold fetched, logging, requested, st0.
      cbn [requests log background]. fold url. same_state. }
    rewrite Hs. clear Hs. cbn zeta.
    destruct (trailer_outcome this net movie (fetched this net text movie st));
      [|reflexivity].
    rewrite addContentToFile_normal.
    now destruct (trailer_outcome this net movie
                    (after_trailer this movie (fetched this net text movie st))).
  - unfold ret. f_equal. unfold logging, requested, st0.
    cbn [requests log background]. same_state.
Qed.

(** *** Templates without repeated tokens *)

Lemma slot_keys_app (a b : list segment) :
  slot_keys (a ++ b) = slot_keys a ++ slot_keys b.
Proof. apply flat_map_app. Qed.

Lemma is_slot_keys (key : jsstring) (segs : list segment) :
  existsb (is_slot key) segs = existsb (Str.eqb key) (slot_keys segs).
Proof.
  induction segs as [|[s|k] segs IH]; simpl; [reflexivity|assumption|].
  now rewrite IH, (eqb_sym k key).
Qed.

(** Filling the tokens of a key that the template does not have. *)
Lemma fill_all_absent (k v : jsstring) (segs : list segment) :
  existsb (is_slot k) segs = false ->
  fill_all (first_value [(k, v)]) segs = segs.
Proof.
  unfold fill_all.
  induction segs as [|[s|k'] segs IH]; intros H; cbn [map existsb] in *;
    [reflexivity| |]; apply orb_false_iff in H as [Hk H].
  - cbn [fill_segment]. f_equal. now apply IH.
  - cbn [is_slot] in Hk. cbn [fill_segment first_value].
    rewrite (eqb_sym k k'), Hk. f_equal. now apply IH.
Qed.

(** On a template without repeated tokens, [replace] fills every token
    of its key. *)
Lemma fill_once (k v : jsstring) (segs : list segment) :
  distinct (slot_keys segs) = true ->
  fill segs (k, v) = fill_all (first_value [(k, v)]) segs.
Proof.
  unfold fill, fill_all. cbn [fst snd].
  pose proof (fill_all_absent k v) as Habsent. unfold fill_all in Habsent.
  set (f := first_value [(k, v)]) in *.
  induction segs as [|[s|k'] segs IH]; intros H; [reflexivity| |].
  - cbn [split_slot is_slot map fill_segment].
    rewrite <- (IH H). now destruct (split_slot k segs) as [[b a]|].
  - cbn [slot_keys flat_map app distinct] in H.
    apply andb_true_iff in H as [Hfirst H].
    cbn [split_slot is_slot map fill_segment].
    assert (Hf : f k' = if Str.eqb k' k then Some v else None).
    { unfold f. cbn [first_value]. now rewrite (eqb_sym k k'). }
    rewrite Hf. destruct (Str.eqb k' k) eqn:E.
    + apply eqb_eq in E. subst k'. cbn [app]. f_equal.
      symmetry. apply Habsent. rewrite is_slot_keys.
      now apply negb_true_iff.
    + rewrite <- (IH H). now destruct (split_slot k segs) as [[b a]|].
Qed.

Lemma existsb_filter (p q : jsstring -> bool) (l : list jsstring) :
  existsb p l = false -> existsb p (filter q l) = false.
Proof.
  induction l as [|x l IH]; simpl; [trivial|]. intros H.
  apply orb_false_iff in H as [Hx H]. destruct (q x); simpl.
  - now rewrite Hx, IH.
  - now apply IH.
Qed.

Lemma distinct_filter (q : jsstring -> bool) (l : list jsstring) :
  distinct l = true -> distinct (filter q l) = true.
Proof.
  induction l as [|x l IH]; simpl; [trivial|]. intros H.
  apply andb_true_iff in H as [Hx H]. destruct (q x); simpl.
  - rewrite (IH H), andb_true_r. apply negb_true_iff.
    apply existsb_filter. now apply negb_true_iff.
  - now apply IH.
Qed.

Lemma slot_keys_fill_all (f : jsstring -> option jsstring)
    (segs : list segment) :
  slot_keys (fill_all f segs)
  = filter (fun k => match f k with Some _ => false | None => true end)
      (slot_keys segs).
Proof.
  unfold fill_all.
  induction segs as [|[s|k] segs IH]; simpl; [reflexivity|assumption|].
  destruct (f k); simpl; now rewrite IH.
Qed.

Lemma fill_all_none (segs : list segment) :
  fill_all (first_value []) segs = segs.
Proof.
  unfold fill_all.
  induction segs as [|[s|k] segs IH]; cbn [map fill_segment first_value];
    [reflexivity| |]; f_equal; exact IH.
Qed.

(** On a template without repeated tokens, the replacements of
    [formatter], one after the other, fill every token at once. *)
Lemma fold_fill_all (subs : list (jsstring * jsstring))
    (segs : list segment) :
  distinct (slot_keys segs) = true ->
  fold_left fill subs segs = fill_all (first_value subs) segs.
Proof.
  revert segs. induction subs as [|[k v] subs IH]; intros segs H.
  - symmetry. apply fill_all_none.
  - cbn [fold_left]. rewrite fill_once by assumption.
    rewrite IH by (rewrite slot_keys_fill_all; now apply distinct_filter).
    unfold fill_all. rewrite map_map. apply map_ext. intros [s|k'].
    + reflexivity.
    + cbn [fill_segment first_value].
      destruct (Str.eqb k k'); [reflexivity|].
      cbn [fill_segment]. reflexivity.
Qed.

Lemma first_value_app (a b : list (jsstring * jsstring)) (key : jsstring) :
  first_value (a ++ b) key
  = match first_value a key with
    | Some v => Some v
    | None => first_value b key
    end.
Proof.
  induction a as [|[k v] a IH]; simpl; [reflexivity|].
  now destruct (Str.eqb k key).
Qed.

Lemma get_existsb (data : record) (key : jsstring) :
  existsb (fun k => Str.eqb k key) (Record.keys data)
  = match Record.get data key with Some _ => true | None => false end.
Proof.
  induction data as [|[k v] data IH]; simpl; [reflexivity|].
  now destruct (Str.eqb k key).
Qed.

(** The replacement text that the generic pass has for a key. *)
Lemma first_value_generic (data : record) (keys : list jsstring)
    (key : jsstring) :
  first_value
    (map (fun k => (k, js_str (Record.get data k)))
       (filter (fun k => negb (is_special k)) keys))
    key
  = if negb (is_special key) && existsb (fun k => Str.eqb k key) keys
    then Some (js_str (Record.get data key))
    else None.
Proof.
  induction keys as [|k keys IH]; cbn [filter map first_value existsb].
  - now rewrite andb_false_r.
  - destruct (is_special k) eqn:Sk; cbn [negb map first_value].
    + rewrite IH. destruct (Str.eqb k key) eqn:E; [|reflexivity].
      apply eqb_eq in E. subst k. now rewrite Sk.
    + destruct (Str.eqb k key) eqn:E.
      * apply eqb_eq in E. subst k. now rewrite Sk.
      * rewrite IH. reflexivity.
Qed.

(** The replacement text that [formatter] has for a key. *)
Lemma first_value_substitutions (this : MoviePlugin) (data : record)
    (trailer key : jsstring) :
  first_value (substitutions this data trailer) key
  = token_value this data trailer key.
Proof.
  unfold substitutions, token_value, field.
  rewrite first_value_app, first_value_generic, get_existsb.
  rewrite is_special_spec. cbn [first_value].
  rewrite (eqb_sym "Runtime" key), (eqb_sym "Poster" key),
    (eqb_sym "Trailer" key).
  destruct (Str.eqb key "Runtime"); [reflexivity|].
  destruct (Str.eqb key "Poster"); [reflexivity|].
  destruct (Str.eqb key "Trailer"); [reflexivity|].
  cbn [orb negb andb]. now destruct (Record.get data key).
Qed.

(** The output of [formatter] on a well-formed template without repeated
    tokens. *)
Lemma formatted_fill_all (this : MoviePlugin) (data : record)
    (segs : list segment) (trailer : jsstring) :
  well_formed segs = true ->
  distinct (slot_keys segs) = true ->
  forallb clean (substitutions this data trailer) = true ->
  formatted this data (template_of segs) trailer
  = template_of (fill_all (token_value this data trailer) segs).
Proof.
  intros Hwf Hd Hclean. rewrite formatted_template by assumption.
  rewrite fold_fill_all by assumption. unfold fill_all. f_equal.
  apply map_ext. intros [s|k]; [reflexivity|].
  cbn [fill_segment]. now rewrite first_value_substitutions.
Qed.

(** Records with the same fields have the same derived texts. *)
Lemma runtime_text_same (data data' : record) :
  same_fields data data' -> runtime_text data = runtime_text data'.
Proof. intros H. unfold runtime_text. now rewrite (H "Runtime"). Qed.

Lemma poster_text_same (this : MoviePlugin) (data data' : record) :
  same_fields data data' -> poster_text this data = poster_text this data'.
Proof.
  intros H. unfold poster_text. now rewrite (H "Poster"), (H "Title").
Qed.

Lemma token_value_same (this : MoviePlugin) (data data' : record)
    (trailer key : jsstring) :
  same_fields data data' ->
  token_value this data trailer key = token_value this data' trailer key.
Proof.
  intros H. unfold token_value.
  now rewrite (runtime_text_same _ _ H), (poster_text_same this _ _ H), (H key).
Qed.

Lemma clean_same (this : MoviePlugin) (data data' : record)
    (trailer : jsstring) :
  same_fields data data' ->
  forallb clean (substitutions this data trailer) = true ->
  forallb clean (substitutions this data' trailer) = true.
Proof.
  intros H Hclean. rewrite forallb_forall in Hclean |- *.
  intros [k v] Hin. unfold substitutions in Hin.
  apply in_app_or in Hin as [Hin|Hin].
  - apply in_map_iff in Hin as (k' & E & Hin). injection E as -> <-.
    apply filter_In in Hin as [Hin Hspecial].
    apply Hclean. unfold substitutions. apply in_or_app. left.
    apply in_map_iff. exists k. rewrite (H k). split; [reflexivity|].
    apply filter_In. split; [|assumption].
    assert (Hex : existsb (fun x => Str.eqb x k) (Record.keys data') = true).
    { apply existsb_exists. exists k. split; [assumption|apply eqb_refl]. }
    rewrite get_existsb, <- (H k) in Hex.
    destruct (Record.get data k) as [w|] eqn:G; [|discriminate].
    now apply get_keys with (value := w).
  - apply Hclean. unfold substitutions. apply in_or_app. right.
    now rewrite (runtime_text_same _ _ H), (poster_text_same this _ _ H).
Qed.

(** *** Templates without tokens *)

Lemma token_occurs (key t : jsstring) :
  Str.occurs (token key) t -> Str.occurs "{{" t.
Proof.
  intros (b & a & ->). exists b, (key ++ "}}" ++ a).
  unfold token. now rewrite <- !app_assoc.
Qed.

Lemma formatted_plain (this : MoviePlugin) (data : record)
    (tmpl trailer : jsstring) :
  ~ Str.occurs "{{" tmpl -> formatted this data tmpl trailer = tmpl.
Proof.
  intros H. rewrite formatted_fold.
  induction (substitutions this data trailer) as [|sub subs IH];
    [reflexivity|].
  cbn [fold_left]. rewrite replace_absent; [exact IH|].
  intros Hocc. apply H. now apply token_occurs with (key := fst sub).
Qed.

(** *** Numbers *)


Lemma parseInt_no_number (w : jsstring) :
  no_number w = true -> Number.parseInt w = NaN.
Proof.
  destruct w as [|c w]; [reflexivity|]. unfold no_number. intros H.
  apply negb_true_iff in H.
  apply orb_false_iff in H as [H Hminus].
  apply orb_false_iff in H as [H Hplus].
  apply orb_false_iff in H as [Hdigit Hspace].
  unfold Number.parseInt. cbn [Number.skip_space]. rewrite Hspace.
  rewrite Hminus, Hplus.
  assert (Hzero : Ascii.eqb c "0" = false).
  { destruct (Ascii.eqb c "0") eqn:E; [|reflexivity].
    apply Ascii.eqb_eq in E. subst c. discriminate. }
  destruct w as [|x w]; cbn [Number.read_digits]; rewrite ?Hzero, ?Hdigit;
    cbn [andb Number.read_digits]; rewrite ?Hdigit; reflexivity.
Qed.

(** *** The sanitized title *)

Lemma sanitize_safe (title : jsstring) : safe (sanitize title) = true.
Proof.
  rewrite sanitize_map. unfold safe.
  induction title as [|c title IH]; [reflexivity|].
  cbn [map forallb]. rewrite IH, andb_true_r.
  destruct (Char.is_illegal c) eqn:E; [reflexivity|]. now rewrite E.
Qed.

Lemma sanitize_length (title : jsstring) :
  length (sanitize title) = length title.
Proof. rewrite sanitize_map. apply length_map. Qed.

Lemma sanitize_of_safe (title : jsstring) :
  safe title = true -> sanitize title = title.
Proof.
  rewrite sanitize_map. unfold safe.
  induction title as [|c title IH]; [reflexivity|].
  cbn [map forallb]. intros H. apply andb_true_iff in H as [Hc H].
  apply negb_true_iff in Hc. rewrite Hc. f_equal. now apply IH.
Qed.

Lemma lookup_result_some (r : response) (movie : record) :
  lookup_result r = Some movie ->
  exists answer title,
    r = Arrived (Json (JRecord answer))
    /\ Record.get answer "Title" = Some title
    /\ movie = Record.set answer "Title" (sanitize title).
Proof.
  destruct r as [e|[e|[answer|items]]]; try discriminate.
  cbn [lookup_result]. destruct (Record.get answer "Title") as [title|] eqn:G;
    [|discriminate].
  intros E. injection E as <-. now exists answer, title.
Qed.

Lemma lookup_result_error (r : response) :
  lookup_result r = None <-> lookup_error r <> None.
Proof.
  destruct r as [e|[e|[answer|items]]]; cbn [lookup_result lookup_error];
    try (split; [discriminate|reflexivity]).
  destruct (Record.get answer "Title"); split; try discriminate;
    try reflexivity; intros H; now contradiction H.
Qed.

(** *** The keys and the request URLs *)

Lemma updateKeys_omdb (p : MoviePlugin) :
  plain (omdbapikey (settings p)) = true ->
  omdbApiUrl (updateKeys p)
  = "https://www.omdbapi.com/?apikey=" ++ omdbapikey (settings p) ++ "&".
Proof.
  intros H. cbn [updateKeys omdbApiUrl]. unfold Str.replace.
  change (Str.find_first "{key}" extractMovieUrl)
    with (Some (list_ascii_of_string "https://www.omdbapi.com/?apikey=",
                list_ascii_of_string "&")).
  cbv beta iota. now rewrite GetSubstitution_plain.
Qed.

Lemma updateKeys_youtube (p : MoviePlugin) :
  plain (youtubeapikey (settings p)) = true ->
  youtubeApiUrl (updateKeys p)
  = "https://www.googleapis.com/youtube/v3/search?key="
    ++ youtubeapikey (settings p)
    ++ "&type=video&maxResults=1&videoEmbeddable=true&q=".
Proof.
  intros H. cbn [updateKeys youtubeApiUrl]. unfold Str.replace.
  change (Str.find_first "{key}" youtubeApiUrl0)
    with (Some (list_ascii_of_string
                  "https://www.googleapis.com/youtube/v3/search?key=",
                list_ascii_of_string
                  "&type=video&maxResults=1&videoEmbeddable=true&q=")).
  cbv beta iota. now rewrite GetSubstitution_plain.
Qed.

(** *** Runs in two worlds *)

Lemma trailer_outcome_agree this net net' data st st' :
  requests st = requests st' ->
  (forall url, net (requests st) url = net' (requests st) url) ->
  trailer_outcome this net data st = trailer_outcome this net' data st'.
Proof.
  intros Hr H. unfold trailer_outcome. now rewrite <- Hr, H.
Qed.

Lemma after_trailer_requests this data st :
  requests (after_trailer this data st)
  = if Str.truthy (youtubeapikey (settings this))
    then S (requests st) else requests st.
Proof.
  unfold after_trailer. now destruct (Str.truthy _).
Qed.

Lemma after_trailer_log this data st :
  log (after_trailer this data st)
  = log st
    ++ if Str.truthy (youtubeapikey (settings this))
       then [Request (trailer_url this data)] else [].
Proof.
  unfold after_trailer. destruct (Str.truthy _); [reflexivity|].
  now rewrite app_nil_r.
Qed.

Lemma after_trailer_background this data st :
  background (after_trailer this data st) = background st.
Proof.
  unfold after_trailer. now destruct (Str.truthy _).
Qed.

(** *** The settings tab *)

Lemma onChange_settings (c : SampleSettingTab.control) (value : jsstring)
    (h : SampleSettingTab.host) :
  settings (SampleSettingTab.plugin (SampleSettingTab.onChange c value h))
  = SampleSettingTab.assign c value (settings (SampleSettingTab.plugin h)).
Proof. now destruct c. Qed.

Lemma onChange_saved (c : SampleSettingTab.control) (value : jsstring)
    (h : SampleSettingTab.host) :
  SampleSettingTab.saved (SampleSettingTab.onChange c value h)
  = SampleSettingTab.saved h
    ++ [settings (SampleSettingTab.plugin (SampleSettingTab.onChange c value h))].
Proof. now destruct c. Qed.

Lemma edits_snoc (es : list (SampleSettingTab.control * jsstring))
    (e : SampleSettingTab.control * jsstring) (h : SampleSettingTab.host) :
  SampleSettingTab.edits (es ++ [e]) h
  = SampleSettingTab.onChange (fst e) (snd e) (SampleSettingTab.edits es h).
Proof. unfold SampleSettingTab.edits. now rewrite fold_left_app. Qed.

Lemma written_notices (events : list event) :
  forallb (fun e => match e with
                    | Create _ _ | CreateBinary _ => false
                    | _ => true
                    end) events = true ->
  written events = [].
Proof.
  induction events as [|e events IH]; [reflexivity|].
  cbn [forallb]. intros H. apply andb_true_iff in H as [He H].
  unfold written in *. cbn [flat_map]. rewrite (IH H).
  now destruct e.
Qed.

(** *** Deciding the vocabulary on samples, and the default template *)

Lemma same_fields_decide (data data' : record) :
  forallb (fun key => match Record.get data key, Record.get data' key with
                      | Some v, Some v' => Str.eqb v v'
                      | None, None => true
                      | _, _ => false
                      end)
    (Record.keys data ++ Record.keys data') = true ->
  same_fields data data'.
Proof.
  intros H key. rewrite forallb_forall in H.
  destruct (Record.get data key) as [v|] eqn:G.
  - specialize (H key (in_or_app _ _ _ (or_introl (get_keys _ _ _ G)))).
    rewrite G in H. destruct (Record.get data' key); [|discriminate].
    apply eqb_eq in H. now subst.
  - destruct (Record.get data' key) as [v'|] eqn:G'; [|reflexivity].
    specialize (H key (in_or_app _ _ _ (or_intror (get_keys _ _ _ G')))).
    rewrite G, G' in H. discriminate.
Qed.

Lemma agree_except_decide (net net' : world) :
  (forall k url, net (S (S k)) url = net' (S (S k)) url) ->
  (forall url, net 0 url = net' 0 url) ->
  agree_except 1 net net'.
Proof.
  intros Hlater Hfirst [|[|k]] url Hk.
  - apply Hfirst.
  - now contradiction Hk.
  - apply Hlater.
Qed.

Lemma token_value_field (this : MoviePlugin) (data : record)
    (trailer key : jsstring) :
  is_special key = false ->
  token_value this data trailer key = Record.get data key.
Proof.
  rewrite is_special_spec. intros H.
  apply orb_false_iff in H as [H Ht]. apply orb_false_iff in H as [Hr Hp].
  unfold token_value. now rewrite Hr, Hp, Ht.
Qed.

Lemma segment_text_field (this : MoviePlugin) (data : record)
    (trailer key : jsstring) :
  is_special key = false ->
  segment_text (fill_segment (token_value this data trailer) (Slot key))
  = shown data key.
Proof.
  intros H. cbn [fill_segment]. rewrite token_value_field by exact H.
  unfold shown. now destruct (Record.get data key).
Qed.

Lemma typing_last (values : list jsstring) (m : MovieModal.modal) :
  js_str (MovieModal.result (MovieModal.typing values m))
  = last values (js_str (MovieModal.result m)).
Proof.
  induction values as [|v values _] using rev_ind; [reflexivity|].
  unfold MovieModal.typing. rewrite fold_left_app, last_last. reflexivity.
Qed.

End CoverageFacts.

(** * Further properties of the code *)

Import CoverageFacts.

#[local] Arguments list_ascii_of_string : simpl never.

(** ** The metadata fetcher *)

(** X1: [crawlMovie] never throws: whatever the network answers, it
    returns, after exactly one request, without a vault write and without
    touching the background.  It returns no record exactly when the request
    is rejected, the body is not JSON or the answer has no [Title]; the
    three notices, the last of them the request URL, then end the log. *)
Theorem crawlMovie_always_returns
    (this : MoviePlugin) (net : world) (text : jsstring) (st : state) :
  let url := getUrl this text in
  let r := net (requests st) url in
  let run := crawlMovie this net text st in
  exists found,
    fst run = Return found
    /\ (found = None <-> lookup_error r <> None)
    /\ requests (snd run) = S (requests st)
    /\ background (snd run) = background st
    /\ written (log (snd run)) = written (log st)
    /\ (forall e,
         lookup_error r = Some e ->
         log (snd run)
         = log st ++ Request url :: logged r
           ++ [Notice "Movie not found."; Notice e; Notice url]).
Proof.
  intros url r run. unfold run. rewrite crawlMovie_normal.
  fold url. fold r. exists (lookup_result r). cbn [fst snd].
  split; [reflexivity|]. split; [apply lookup_result_error|].
  split; [reflexivity|]. split; [reflexivity|]. split.
  - unfold logging, requested. cbn [log]. rewrite !written_app.
    rewrite (written_notices (logged r)) by now destruct r.
    assert (H : written
                  match lookup_error r with
                  | Some e =>
                      [Notice "Movie not found."; Notice e; Notice url]
                  | None => []
                  end = [])
      by now destruct (lookup_error r).
    rewrite H. cbn [written flat_map app]. now rewrite !app_nil_r.
  - intros e He. rewrite He. unfold logging, requested. cbn [log].
    now rewrite <- !app_assoc.
Qed.

Lemma crawlMovie_always_returns_witness :
  exists found,
    fst (crawlMovie Sample.with_omdb_key Sample.net_unknown "Dnue" start)
    = Return found
    /\ (found = None
        <-> lookup_error (Arrived (Json (JRecord Sample.unknown))) <> None)
    /\ requests
         (snd (crawlMovie Sample.with_omdb_key Sample.net_unknown "Dnue" start))
       = 1
    /\ background
         (snd (crawlMovie Sample.with_omdb_key Sample.net_unknown "Dnue" start))
       = []
    /\ written
         (log (snd (crawlMovie Sample.with_omdb_key Sample.net_unknown "Dnue"
                      start)))
       = []
    /\ (forall e,
         lookup_error (Arrived (Json (JRecord Sample.unknown))) = Some e ->
         log (snd (crawlMovie Sample.with_omdb_key Sample.net_unknown "Dnue"
                     start))
         = [Request (getUrl Sample.with_omdb_key "Dnue"); ConsoleLog;
            Notice "Movie not found."; Notice e;
            Notice (getUrl Sample.with_omdb_key "Dnue")]).
Proof.
  exact (crawlMovie_always_returns Sample.with_omdb_key Sample.net_unknown
           "Dnue" start).
Defined.

(** X2: the record that [crawlMovie] returns has a title without any of
    the characters slash, backslash, question mark, percent, star, colon,
    bar, double quote and angle brackets; the title has the length of the
    fetched one, is the fetched one when that had none of these characters,
    and sanitizing it again changes nothing. *)
Theorem returned_title_is_safe
    (this : MoviePlugin) (net : world) (text : jsstring) (st st' : state)
    (movie : record) :
  crawlMovie this net text st = (Return (Some movie), st') ->
  exists answer fetched title,
    net (requests st) (getUrl this text) = Arrived (Json (JRecord answer))
    /\ Record.get answer "Title" = Some fetched
    /\ Record.get movie "Title" = Some title
    /\ safe title = true
    /\ length title = length fetched
    /\ (safe fetched = true -> title = fetched)
    /\ sanitize title = title.
Proof.
  rewrite crawlMovie_normal. intros H. injection H as Hres _.
  apply lookup_result_some in Hres as (answer & fetched & Hnet & Hget & ->).
  exists answer, fetched, (sanitize fetched).
  split; [exact Hnet|]. split; [exact Hget|]. split; [apply get_set|].
  split; [apply sanitize_safe|]. split; [apply sanitize_length|].
  split; [apply sanitize_of_safe|].
  apply sanitize_of_safe, sanitize_safe.
Qed.

Lemma returned_title_is_safe_witness :
  exists answer fetched title,
    Sample.net_found 0 (getUrl Sample.with_omdb_key "Dune")
    = Arrived (Json (JRecord answer))
    /\ Record.get answer "Title" = Some fetched
    /\ Record.get (Record.set Sample.dune "Title" "Dune- Part Two") "Title"
       = Some title
    /\ safe title = true
    /\ length title = length fetched
    /\ (safe fetched = true -> title = fetched)
    /\ sanitize title = title.
Proof.
  exact (returned_title_is_safe Sample.with_omdb_key Sample.net_found "Dune"
           start _ (Record.set Sample.dune "Title" "Dune- Part Two")
           eq_refl).
Defined.

(** X3: [crawlMovie] rewrites the title and nothing else: the record it
    returns has the fields of the answer, in the same order, and every
    field but [Title] has the value of the answer. *)
Theorem crawlMovie_keeps_other_fields
    (this : MoviePlugin) (net : world) (text : jsstring) (st st' : state)
    (movie : record) :
  crawlMovie this net text st = (Return (Some movie), st') ->
  exists answer,
    net (requests st) (getUrl this text) = Arrived (Json (JRecord answer))
    /\ Record.keys movie = Record.keys answer
    /\ forall key : jsstring,
         key <> "Title" -> Record.get movie key = Record.get answer key.
Proof.
  rewrite crawlMovie_normal. intros H. injection H as Hres _.
  apply lookup_result_some in Hres as (answer & fetched & Hnet & Hget & ->).
  exists answer. split; [exact Hnet|]. split.
  - now apply keys_set with (old := fetched).
  - intros key Hkey. now apply get_set_other.
Qed.

Lemma crawlMovie_keeps_other_fields_witness :
  exists answer,
    Sample.net_found 0 (getUrl Sample.with_omdb_key "Dune")
    = Arrived (Json (JRecord answer))
    /\ Record.keys (Record.set Sample.dune "Title" "Dune- Part Two")
       = Record.keys answer
    /\ forall key : jsstring,
         key <> "Title" ->
         Record.get (Record.set Sample.dune "Title" "Dune- Part Two") key
         = Record.get answer key.
Proof.
  exact (crawlMovie_keeps_other_fields Sample.with_omdb_key Sample.net_found
           "Dune" start _ (Record.set Sample.dune "Title" "Dune- Part Two")
           eq_refl).
Defined.

(** ** The template formatter *)

(** X4: on a well-formed template in which no token occurs twice, and for
    field names and replacement texts without braces and replacement
    patterns, the replacements of [formatter] amount to filling every token
    at once: a token of a field of the record stands for the value of the
    field, the three special tokens for their derived texts, and a token
    without a field stays in the output as it is. *)
Theorem formatter_fills_every_token
    (this : MoviePlugin) (net : world) (data : record) (st : state)
    (segs : list segment) (trailer : jsstring) :
  well_formed segs = true ->
  distinct (slot_keys segs) = true ->
  forallb clean (substitutions this data trailer) = true ->
  trailer_text this net data st = Some trailer ->
  formatter this net data (template_of segs) st
  = (Return (template_of (fill_all (token_value this data trailer) segs)),
     after_trailer this data st).
Proof.
  intros Hwf Hd Hclean Htrailer.
  rewrite (formatter_runs _ _ _ _ _ _ Htrailer).
  now rewrite formatted_fill_all.
Qed.

Lemma formatter_fills_every_token_witness :
  formatter Sample.unconfigured Sample.net_found Sample.dune
    "# {{Title}} ({{Year}}), {{Runtime}}, {{Director}}" start
  = (Return (list_ascii_of_string
               "# Dune: Part Two (2024), 2h 46m, {{Director}}"),
     start).
Proof.
  exact (formatter_fills_every_token Sample.unconfigured Sample.net_found
           Sample.dune start Sample2.card [] eq_refl eq_refl eq_refl eq_refl).
Defined.

(** X5: on a well-formed template in which no token occurs twice, and for
    field names and replacement texts without braces and replacement
    patterns, the run of [formatter] does not depend on the order in which
    the record enumerates its fields: two records with the same fields give
    the same result and the same host calls. *)
Theorem formatter_order_independent
    (this : MoviePlugin) (net : world) (data data' : record) (st : state)
    (segs : list segment) (trailer : jsstring) :
  well_formed segs = true ->
  distinct (slot_keys segs) = true ->
  forallb clean (substitutions this data trailer) = true ->
  trailer_text this net data st = Some trailer ->
  same_fields data data' ->
  formatter this net data' (template_of segs) st
  = formatter this net data (template_of segs) st.
Proof.
  intros Hwf Hd Hclean Htrailer Hsame.
  assert (Htrailer' : trailer_text this net data' st = Some trailer).
  { unfold trailer_text, trailer_url in *. now rewrite <- (Hsame "Title"). }
  rewrite (formatter_runs _ _ _ _ _ _ Htrailer).
  rewrite (formatter_runs _ _ _ _ _ _ Htrailer').
  rewrite !formatted_fill_all;
    try assumption; [|now apply clean_same with (data := data)].
  f_equal.
  - f_equal. f_equal. unfold fill_all. apply map_ext. intros [s|k];
      [reflexivity|]. cbn [fill_segment].
    now rewrite (token_value_same this data data' trailer k Hsame).
  - unfold after_trailer, trailer_url. now rewrite (Hsame "Title").
Qed.

Lemma formatter_order_independent_witness :
  formatter Sample.unconfigured Sample.net_found Sample2.dune_reordered
    (template_of Sample2.card) start
  = formatter Sample.unconfigured Sample.net_found Sample.dune
      (template_of Sample2.card) start.
Proof.
  apply (formatter_order_independent Sample.unconfigured Sample.net_found
           Sample.dune Sample2.dune_reordered start Sample2.card []).
  - reflexivity.
  - reflexivity.
  - reflexivity.
  - reflexivity.
  - apply same_fields_decide. reflexivity.
Defined.

(** X6: a template without [{{] is returned as it is, whatever the
    record.  The trailer lookup of [formatter] is made all the same when a
    video-search key is configured, and its exception, if any, is the
    outcome of the call. *)
Theorem formatter_keeps_plain_template
    (this : MoviePlugin) (net : world) (data : record) (tmpl : jsstring)
    (st : state) :
  ~ Str.occurs "{{" tmpl ->
  formatter this net data tmpl st
  = (match trailer_outcome this net data st with
     | Return _ => Return tmpl
     | Throw e => Throw e
     end,
     after_trailer this data st).
Proof.
  intros H. rewrite formatter_normal.
  destruct (trailer_outcome this net data st); [|reflexivity].
  now rewrite formatted_plain.
Qed.

Lemma formatter_keeps_plain_template_witness :
  formatter Sample.with_both_keys Sample.net_no_trailer Sample.dune
    "No token here: {Title}."
    {| requests := 2; log := []; background := [] |}
  = (Throw (TypeError "id"),
     {| requests := 3;
        log := [Request (trailer_url Sample.with_both_keys Sample.dune)];
        background := [] |}).
Proof.
  exact (formatter_keeps_plain_template Sample.with_both_keys
           Sample.net_no_trailer Sample.dune "No token here: {Title}."
           {| requests := 2; log := []; background := [] |}
           (proj1 (find_first_None "{{" "No token here: {Title}.") eq_refl)).
Defined.

(** X7: the only host call of [formatter] is the request of the trailer
    lookup: in every run, returning or not, and whatever the template, the
    state afterwards is the state before with that one request added when a
    video-search key is configured, and the state before otherwise; without
    the key the result does not depend on the network. *)
Theorem formatter_host_calls
    (this : MoviePlugin) (net : world) (data : record) (tmpl : jsstring)
    (st : state) :
  snd (formatter this net data tmpl st)
  = (if Str.truthy (youtubeapikey (settings this))
     then {| requests := S (requests st);
             log := log st
                    ++ [Request (youtubeApiUrl this
                                 ++ js_str (Record.get data "Title")
                                 ++ " trailer")];
             background := background st |}
     else st)
  /\ (Str.truthy (youtubeapikey (settings this)) = false ->
      forall net',
        formatter this net' data tmpl st = formatter this net data tmpl st).
Proof.
  split.
  - rewrite formatter_normal. reflexivity.
  - intros H net'. rewrite !formatter_normal. unfold trailer_outcome.
    now rewrite H.
Qed.

Lemma formatter_host_calls_witness :
  formatter Sample.with_omdb_key Sample.net_no_trailer Sample.dune
    "{{Trailer}}" start
  = formatter Sample.with_omdb_key Sample.net_found Sample.dune
      "{{Trailer}}" start.
Proof.
  exact (proj2 (formatter_host_calls Sample.with_omdb_key Sample.net_found
                  Sample.dune "{{Trailer}}" start)
           eq_refl Sample.net_no_trailer).
Defined.

(** X8: a runtime that is neither empty nor [N/A] and whose first word
    starts no number for [parseInt] (it is empty, or begins with a
    character that is no digit, sign or white space) puts [NaNh NaNm] in
    place of the first [{{Runtime}}]. *)
Theorem runtime_without_number
    (data : record) (runtime before after : jsstring) :
  Str.absent_before "{{Runtime}}" (before ++ "{{Runtime}}" ++ after)
    (length before) ->
  Record.get data "Runtime" = Some runtime ->
  Str.truthy runtime = true ->
  runtime <> "N/A" ->
  no_number (Str.first_word runtime) = true ->
  format_runtime data (before ++ "{{Runtime}}" ++ after)
  = before ++ "NaNh NaNm" ++ after.
Proof.
  intros Hfirst Hget Htruthy Hna Hno.
  rewrite (format_runtime_first data before after Hfirst). f_equal. f_equal.
  unfold runtime_text. rewrite Hget, Htruthy.
  apply eqb_neq in Hna. rewrite Hna. cbn [negb andb].
  now rewrite (parseInt_no_number _ Hno).
Qed.

Lemma runtime_without_number_witness :
  format_runtime Sample2.unknown_runtime "Length: {{Runtime}}."
  = "Length: NaNh NaNm.".
Proof.
  apply (runtime_without_number Sample2.unknown_runtime "unknown"
           "Length: " ".").
  - exact (proj2 (find_first_sound "{{Runtime}}" "Length: {{Runtime}}."
                    "Length: " "." eq_refl)).
  - reflexivity.
  - reflexivity.
  - discriminate.
  - reflexivity.
Defined.

(** ** The settings tab *)



(** X10: whatever the user types into the controls of the settings tab,
    and in whatever order, the two request URL prefixes of the plugin are
    those that [updateKeys] derives from the current keys, and every
    handler has saved the settings: the settings saved last are the current
    ones. *)
Theorem settings_tab_keeps_urls_in_sync
    (s : MoviePluginSettings)
    (es : list (SampleSettingTab.control * jsstring)) :
  let h := SampleSettingTab.edits es (SampleSettingTab.loaded s) in
  let this := SampleSettingTab.plugin h in
  omdbApiUrl this
  = Str.replace "{key}" (omdbapikey (settings this)) extractMovieUrl
  /\ youtubeApiUrl this
     = Str.replace "{key}" (youtubeapikey (settings this)) youtubeApiUrl0
  /\ length (SampleSettingTab.saved h) = length es
  /\ (es <> [] -> last (SampleSettingTab.saved h) s = settings this).
Proof.
  induction es as [|e es IH] using rev_ind.
  - cbn. split; [reflexivity|]. split; [reflexivity|].
    split; [reflexivity|]. intros H. now contradiction H.
  - rewrite edits_snoc. cbv zeta in IH |- *.
    set (h := SampleSettingTab.edits es (SampleSettingTab.loaded s)) in *.
    destruct IH as (Homdb & Hyt & Hlen & _).
    split; [|split; [|split]].
    + destruct e as [[] v]; cbn; try exact Homdb; reflexivity.
    + destruct e as [[] v]; cbn; try exact Hyt; reflexivity.
    + rewrite onChange_saved, !length_app, Hlen. reflexivity.
    + intros _. rewrite onChange_saved. apply last_last.
Qed.

Lemma settings_tab_keeps_urls_in_sync_witness :
  omdbApiUrl
    (SampleSettingTab.plugin
       (SampleSettingTab.edits
          [(SampleSettingTab.OmdbApiKey, list_ascii_of_string "k");
           (SampleSettingTab.MainPath, list_ascii_of_string "films");
           (SampleSettingTab.OmdbApiKey, list_ascii_of_string "k2")]
          (SampleSettingTab.loaded DEFAULT_SETTINGS)))
  = "https://www.omdbapi.com/?apikey=k2&".
Proof.
  exact (proj1 (settings_tab_keeps_urls_in_sync DEFAULT_SETTINGS
                  [(SampleSettingTab.OmdbApiKey, list_ascii_of_string "k");
                   (SampleSettingTab.MainPath, list_ascii_of_string "films");
                   (SampleSettingTab.OmdbApiKey, list_ascii_of_string "k2")])).
Defined.

(** X11: a key without replacement patterns stands in the request URL
    prefix as it is, after [onload] as after a change of the key in the
    settings tab; a title-only query of [getUrl] is then the address of the
    movie database with the key and the title. *)
Theorem plain_key_in_request_url :
  (forall s,
      plain (omdbapikey s) = true ->
      omdbApiUrl (load s)
      = "https://www.omdbapi.com/?apikey=" ++ omdbapikey s ++ "&")
  /\ (forall s,
      plain (youtubeapikey s) = true ->
      youtubeApiUrl (load s)
      = "https://www.googleapis.com/youtube/v3/search?key="
        ++ youtubeapikey s
        ++ "&type=video&maxResults=1&videoEmbeddable=true&q=")
  /\ (forall h key,
      plain key = true ->
      omdbApiUrl
        (SampleSettingTab.plugin
           (SampleSettingTab.onChange SampleSettingTab.OmdbApiKey key h))
      = "https://www.omdbapi.com/?apikey=" ++ key ++ "&")
  /\ (forall h key,
      plain key = true ->
      youtubeApiUrl
        (SampleSettingTab.plugin
           (SampleSettingTab.onChange SampleSettingTab.YoutubeApiKey key h))
      = "https://www.googleapis.com/youtube/v3/search?key=" ++ key
        ++ "&type=video&maxResults=1&videoEmbeddable=true&q=")
  /\ (forall s text,
      plain (omdbapikey s) = true ->
      Regex.test re_imdb_id text = false ->
      Regex.test re_year text = false ->
      getUrl (load s) text
      = "https://www.omdbapi.com/?apikey=" ++ omdbapikey s ++ "&t=" ++ text).
Proof.
  split; [|split; [|split; [|split]]].
  - intros s H. unfold load. now rewrite updateKeys_omdb.
  - intros s H. unfold load. now rewrite updateKeys_youtube.
  - intros h key H. cbn [SampleSettingTab.onChange SampleSettingTab.plugin
                           SampleSettingTab.saveSettings].
    now rewrite updateKeys_omdb.
  - intros h key H. cbn [SampleSettingTab.onChange SampleSettingTab.plugin
                           SampleSettingTab.saveSettings].
    now rewrite updateKeys_youtube.
  - intros s text H Hid Hyear. unfold getUrl. rewrite Hid, Hyear.
    unfold load. rewrite updateKeys_omdb by exact H.
    cbn [settings]. now rewrite <- !app_assoc.
Qed.

Lemma plain_key_in_request_url_witness :
  getUrl (load (with_keys "k" [] DEFAULT_SETTINGS)) "Inception"
  = "https://www.omdbapi.com/?apikey=k&t=Inception".
Proof.
  destruct plain_key_in_request_url as (_ & _ & _ & _ & H).
  exact (H (with_keys "k" [] DEFAULT_SETTINGS)
           (list_ascii_of_string "Inception") eq_refl eq_refl eq_refl).
Defined.

(** ** The orchestrator *)

(** X12: a missing video-search key does not stop [crawlAndAdd]: when the
    metadata arrives with a title, the run warns, writes the note with
    [{{Trailer}}] replaced by the empty text, and returns.  It issues the
    metadata request and the poster request and no other, whatever the
    network would answer to a trailer lookup. *)
Theorem crawlAndAdd_without_trailer_key
    (this : MoviePlugin) (net : world) (text : jsstring) (st : state)
    (answer : record) (title : jsstring) :
  Str.truthy (omdbapikey (settings this)) = true ->
  Str.truthy (youtubeapikey (settings this)) = false ->
  net (requests st) (getUrl this text) = Arrived (Json (JRecord answer)) ->
  Record.get answer "Title" = Some title ->
  let movie := Record.set answer "Title" (sanitize title) in
  let note := formatted this movie (template (settings this)) [] in
  let name := formatted this movie (fileName (settings this)) [] in
  crawlAndAdd this net text st
  = (Return tt,
     {| requests := S (S (requests st));
        log :=
          log st
          ++ [Notice "Youtube API key is missing. Trailer will not be added.";
              Request (getUrl this text);
              ConsoleLog;
              Create (note_path this name) note;
              OpenLink (note_path this name);
              Notice "Movie added successfully!"];
        background := background (fetched this net text movie st) |}).
Proof.
  intros Homdb Hyt Hnet Htitle movie note name.
  rewrite crawlAndAdd_normal, Homdb, Hnet. cbn [lookup_result].
  rewrite Htitle. fold movie. cbv zeta.
  unfold trailer_outcome, after_trailer. rewrite Hyt. fold note. fold name.
  f_equal. unfold logging, fetched, warning. rewrite Hyt.
  cbn [requests log background]. apply state_eq; [|reflexivity].
  now rewrite <- !app_assoc.
Qed.

Lemma crawlAndAdd_without_trailer_key_witness :
  crawlAndAdd Sample.with_omdb_key Sample.net_found "Dune" start
  = (Return tt,
     {| requests := 2;
        log :=
          [Notice "Youtube API key is missing. Trailer will not be added.";
           Request "https://www.omdbapi.com/?apikey=k&t=Dune";
           ConsoleLog;
           Create "movies/Dune- Part Two.md"
             (formatted Sample.with_omdb_key
                (Record.set Sample.dune "Title" "Dune- Part Two")
                (template DEFAULT_SETTINGS) []);
           OpenLink "movies/Dune- Part Two.md";
           Notice "Movie added successfully!"];
        background :=
          [Request "http://x/p.jpg";
           CreateBinary "assets/Dune- Part Two.jpg"] |}).
Proof.
  exact (crawlAndAdd_without_trailer_key Sample.with_omdb_key Sample.net_found
           "Dune" start Sample.dune "Dune: Part Two"
           eq_refl eq_refl eq_refl eq_refl).
Defined.

(** X13: the poster download is not awaited and its outcome is not
    observed: two networks that differ only in the answer to the poster
    request, the second request of the run, give runs of [crawlAndAdd] with
    the same outcome, the same awaited host calls in the same order, and
    the same number of requests.  A rejected download is reported by no
    notice and stops no note. *)
Theorem poster_download_is_not_observed
    (this : MoviePlugin) (net net' : world) (text : jsstring) (st : state) :
  agree_except (S (requests st)) net net' ->
  let run := crawlAndAdd this net text st in
  let run' := crawlAndAdd this net' text st in
  fst run = fst run'
  /\ log (snd run) = log (snd run')
  /\ requests (snd run) = requests (snd run').
Proof.
  intros Hagree run run'. unfold run, run'. rewrite !crawlAndAdd_normal.
  destruct (Str.truthy (omdbapikey (settings this))); [|now repeat split].
  rewrite <- (Hagree (requests st) (getUrl this text)) by lia.
  destruct (lookup_result (net (requests st) (getUrl this text)))
    as [movie|]; [|now repeat split].
  cbv zeta.
  set (s1 := fetched this net text movie st).
  set (s1' := fetched this net' text movie st).
  assert (Hr1 : requests s1 = requests s1') by reflexivity.
  assert (Hl1 : log s1 = log s1') by reflexivity.
  assert (Hn1 : requests s1 = S (S (requests st))) by reflexivity.
  assert (Hout1 : trailer_outcome this net' movie s1'
                  = trailer_outcome this net movie s1).
  { symmetry. apply trailer_outcome_agree; [exact Hr1|].
    intros url. apply Hagree. lia. }
  rewrite Hout1.
  set (s2 := after_trailer this movie s1).
  set (s2' := after_trailer this movie s1').
  assert (Hr2 : requests s2 = requests s2')
    by (unfold s2, s2'; now rewrite !after_trailer_requests, Hr1).
  assert (Hl2 : log s2 = log s2')
    by (unfold s2, s2'; now rewrite !after_trailer_log, Hl1).
  assert (Hn2 : requests s2 <> S (requests st)).
  { unfold s2. rewrite after_trailer_requests, Hn1.
    destruct (Str.truthy _); lia. }
  destruct (trailer_outcome this net movie s1) as [t1|e1];
    [|now repeat split].
  assert (Hout2 : trailer_outcome this net' movie s2'
                  = trailer_outcome this net movie s2).
  { symmetry. apply trailer_outcome_agree; [exact Hr2|].
    intros url. now apply Hagree. }
  rewrite Hout2.
  destruct (trailer_outcome this net movie s2) as [t2|e2]; cbn [fst snd].
  - unfold logging. cbn [log requests].
    rewrite !after_trailer_log, !after_trailer_requests, Hl2, Hr2.
    now repeat split.
  - rewrite !after_trailer_log, !after_trailer_requests, Hl2, Hr2.
    now repeat split.
Qed.

Lemma poster_download_is_not_observed_witness :
  fst (crawlAndAdd Sample.with_both_keys Sample.net_found "Dune" start)
  = fst (crawlAndAdd Sample.with_both_keys Sample2.net_poster_fails "Dune"
           start)
  /\ log (snd (crawlAndAdd Sample.with_both_keys Sample.net_found "Dune"
                 start))
     = log (snd (crawlAndAdd Sample.with_both_keys Sample2.net_poster_fails
                   "Dune" start))
  /\ requests (snd (crawlAndAdd Sample.with_both_keys Sample.net_found "Dune"
                      start))
     = requests (snd (crawlAndAdd Sample.with_both_keys
                        Sample2.net_poster_fails "Dune" start)).
Proof.
  apply (poster_download_is_not_observed Sample.with_both_keys
           Sample.net_found Sample2.net_poster_fails "Dune" start).
  apply agree_except_decide; reflexivity.
Defined.

(** X14: once the metadata has arrived with a title, [crawlAndAdd] requests
    the poster from whatever text the [Poster] field holds, the sentinel
    [N/A] included, before any trailer lookup, and stores the answer, if
    one arrives, at [assetPath/Title.jpg]; this is all that the run does in
    the background, however it ends. *)
Theorem poster_requested_for_any_field
    (this : MoviePlugin) (net : world) (text : jsstring) (st : state)
    (answer : record) (title poster : jsstring) :
  Str.truthy (omdbapikey (settings this)) = true ->
  net (requests st) (getUrl this text) = Arrived (Json (JRecord answer)) ->
  Record.get answer "Title" = Some title ->
  Record.get answer "Poster" = Some poster ->
  background (snd (crawlAndAdd this net text st))
  = background st
    ++ Request poster
       :: match net (S (requests st)) poster with
          | Arrived _ =>
              [CreateBinary
                 (assetPath (settings this) ++ "/" ++ sanitize title
                  ++ ".jpg")]
          | Rejected _ => []
          end.
Proof.
  intros Homdb Hnet Htitle Hposter.
  rewrite crawlAndAdd_normal, Homdb, Hnet. cbn [lookup_result].
  rewrite Htitle. cbv zeta.
  set (movie := Record.set answer "Title" (sanitize title)).
  assert (Hback : background (fetched this net text movie st)
                  = background st
                    ++ Request poster
                       :: match net (S (requests st)) poster with
                          | Arrived _ =>
                              [CreateBinary
                                 (assetPath (settings this) ++ "/"
                                  ++ sanitize title ++ ".jpg")]
                          | Rejected _ => []
                          end).
  { unfold fetched, movie. cbn [background].
    rewrite get_set, get_set_other by discriminate.
    rewrite Hposter. reflexivity. }
  destruct (trailer_outcome this net movie (fetched this net text movie st));
    [|cbn [snd]; now rewrite after_trailer_background].
  destruct (trailer_outcome this net movie
              (after_trailer this movie (fetched this net text movie st)));
    cbn [snd]; unfold logging; cbn [background];
    now rewrite !after_trailer_background.
Qed.

Lemma poster_requested_for_any_field_witness :
  background
    (snd (crawlAndAdd Sample.with_omdb_key Sample2.net_no_poster "Dune" start))
  = [Request "N/A"].
Proof.
  exact (poster_requested_for_any_field Sample.with_omdb_key
           Sample2.net_no_poster "Dune" start Sample2.no_poster "Dune" "N/A"
           eq_refl eq_refl eq_refl eq_refl).
Defined.

(** X15: [crawlAndAdd] writes the note last.  A run that ends in an
    exception has created no file in its awaited calls; a run that returns
    has either created none, or has created the note alone, as the first
    of its last three calls, the other two opening the note and showing
    the success notice.  The calls of the vault and of the workspace are
    taken to return. *)
Theorem note_is_written_last
    (this : MoviePlugin) (net : world) (text : jsstring) (st : state) :
  let run := crawlAndAdd this net text st in
  match fst run with
  | Throw _ => written (log (snd run)) = written (log st)
  | Return _ =>
      written (log (snd run)) = written (log st)
      \/ exists front name note,
           log (snd run)
           = log st ++ front
             ++ [Create (note_path this name) note;
                 OpenLink (note_path this name);
                 Notice "Movie added successfully!"]
           /\ written front = []
  end.
Proof.
  intros run. unfold run. rewrite crawlAndAdd_normal.
  destruct (Str.truthy (omdbapikey (settings this)));
    [|cbn [fst snd]; left; unfold logging; cbn [log];
      now rewrite written_app, app_nil_r].
  set (url := getUrl this text). set (r := net (requests st) url).
  assert (Hwarn : written (warning this) = [])
    by (unfold warning; now destruct (Str.truthy _)).
  destruct (lookup_result r) as [movie|].
  - cbv zeta. set (s1 := fetched this net text movie st).
    assert (Hs1 : log s1 = log st ++ warning this ++ [Request url; ConsoleLog])
      by reflexivity.
    assert (Htrailer :
              written (if Str.truthy (youtubeapikey (settings this))
                       then [Request (trailer_url this movie)] else [])
              = []) by now destruct (Str.truthy _).
    destruct (trailer_outcome this net movie s1) as [t1|e1]; cbn [fst snd].
    + destruct (trailer_outcome this net movie (after_trailer this movie s1))
        as [t2|e2]; cbn [fst snd].
      * right.
        exists (warning this ++ [Request url; ConsoleLog]
                ++ (if Str.truthy (youtubeapikey (settings this))
                    then [Request (trailer_url this movie)] else [])
                ++ (if Str.truthy (youtubeapikey (settings this))
                    then [Request (trailer_url this movie)] else [])),
          (formatted this movie (fileName (settings this)) t2),
          (formatted this movie (template (settings this)) t1).
        split.
        -- unfold logging. cbn [log]. rewrite !after_trailer_log, Hs1.
           now rewrite <- !app_assoc.
        -- rewrite !written_app, Hwarn, Htrailer. reflexivity.
      * rewrite !after_trailer_log, Hs1, !written_app, Hwarn, Htrailer.
        cbn [written flat_map app]. now rewrite !app_nil_r.
    + rewrite after_trailer_log, Hs1, !written_app, Hwarn, Htrailer.
      cbn [written flat_map app]. now rewrite !app_nil_r.
  - cbn [fst snd log]. left.
    change (Request url :: logged r
            ++ match lookup_error r with
               | Some e => [Notice "Movie not found."; Notice e; Notice url]
               | None => []
               end)
      with ([Request url] ++ logged r
            ++ match lookup_error r with
               | Some e => [Notice "Movie not found."; Notice e; Notice url]
               | None => []
               end).
    rewrite !written_app, Hwarn.
    rewrite (written_notices (logged r)) by now destruct r.
    assert (H : written
                  match lookup_error r with
                  | Some e =>
                      [Notice "Movie not found."; Notice e; Notice url]
                  | None => []
                  end = [])
      by now destruct (lookup_error r).
    rewrite H. cbn [written flat_map app]. now rewrite !app_nil_r.
Qed.

Lemma note_is_written_last_witness :
  written
    (log (snd (crawlAndAdd Sample.with_both_keys Sample.net_no_trailer "Dune"
                 start)))
  = [].
Proof.
  exact (note_is_written_last Sample.with_both_keys Sample.net_no_trailer
           "Dune" start).
Defined.

(** X16: the calls of the vault and of the workspace taken to return, the
    only exceptions that leave [crawlAndAdd] are those of the trailer
    lookup.  Without a video-search key the run returns, whatever the
    network answers; with one, a run that ends in an exception ends in the
    exception of a trailer lookup for the fetched record. *)
Theorem crawlAndAdd_throws_only_in_trailer_lookup
    (this : MoviePlugin) (net : world) (text : jsstring) (st : state) :
  let run := crawlAndAdd this net text st in
  (Str.truthy (youtubeapikey (settings this)) = false -> fst run = Return tt)
  /\ (forall e,
       fst run = Throw e ->
       Str.truthy (youtubeapikey (settings this)) = true
       /\ exists movie s,
            lookup_result (net (requests st) (getUrl this text)) = Some movie
            /\ trailer_outcome this net movie s = Throw e).
Proof.
  intros run. unfold run. rewrite crawlAndAdd_normal.
  destruct (Str.truthy (omdbapikey (settings this)));
    [|split; [reflexivity | discriminate]].
  destruct (lookup_result (net (requests st) (getUrl this text)))
    as [movie|]; [|split; [reflexivity | discriminate]].
  cbv zeta. set (s1 := fetched this net text movie st).
  set (s2 := after_trailer this movie s1). split.
  - intros Hyt. unfold trailer_outcome. now rewrite Hyt.
  - intros e.
    destruct (trailer_outcome this net movie s1) as [t1|e1] eqn:H1.
    + destruct (trailer_outcome this net movie s2) as [t2|e2] eqn:H2;
        cbn [fst]; [discriminate|].
      intros E. injection E as ->. split.
      * unfold trailer_outcome in H2.
        destruct (Str.truthy (youtubeapikey (settings this)));
          [reflexivity | discriminate].
      * exists movie, s2. now split.
    + cbn [fst]. intros E. injection E as ->. split.
      * unfold trailer_outcome in H1.
        destruct (Str.truthy (youtubeapikey (settings this)));
          [reflexivity | discriminate].
      * exists movie, s1. now split.
Qed.

Lemma crawlAndAdd_throws_only_in_trailer_lookup_witness :
  fst (crawlAndAdd Sample.with_omdb_key Sample.net_no_trailer "Dune" start)
  = Return tt.
Proof.
  exact (proj1 (crawlAndAdd_throws_only_in_trailer_lookup Sample.with_omdb_key
                  Sample.net_no_trailer "Dune" start)
           eq_refl).
Defined.

(** X17: with the default file name template [{{Title}}], a run whose
    lookups return creates the note at [mainPath/Title.md] for the
    sanitized title, when the field names and replacement texts of the
    record have no braces and no replacement patterns; the file name has
    then none of the characters that [crawlMovie] replaces. *)
Theorem default_note_path
    (this : MoviePlugin) (net : world) (text : jsstring) (st : state)
    (answer : record) (title t1 t2 : jsstring) :
  Str.truthy (omdbapikey (settings this)) = true ->
  fileName (settings this) = "{{Title}}" ->
  net (requests st) (getUrl this text) = Arrived (Json (JRecord answer)) ->
  Record.get answer "Title" = Some title ->
  let movie := Record.set answer "Title" (sanitize title) in
  let s1 := fetched this net text movie st in
  let s2 := after_trailer this movie s1 in
  trailer_text this net movie s1 = Some t1 ->
  trailer_text this net movie s2 = Some t2 ->
  forallb clean (substitutions this movie t2) = true ->
  let note := formatted this movie (template (settings this)) t1 in
  let path := mainPath (settings this) ++ "/" ++ sanitize title ++ ".md" in
  crawlAndAdd this net text st
  = (Return tt,
     logging
       [Create path note; OpenLink path; Notice "Movie added successfully!"]
       (after_trailer this movie s2))
  /\ safe (sanitize title) = true.
Proof.
  intros Homdb Hname Hnet Htitle movie s1 s2 H1 H2 Hclean note path.
  split; [|apply sanitize_safe].
  rewrite (crawlAndAdd_success this net text st answer title t1 t2
             Homdb Hnet Htitle H1 H2).
  fold movie. fold s1. fold s2. fold note.
  assert (Hfile : formatted this movie (fileName (settings this)) t2
                  = sanitize title).
  { rewrite Hname.
    change (list_ascii_of_string "{{Title}}")
      with (template_of [Slot "Title"]).
    rewrite formatted_fill_all by (reflexivity || assumption).
    unfold fill_all. cbn [map fill_segment].
    rewrite (token_value_field this movie t2 "Title" eq_refl).
    unfold movie. rewrite get_set. cbn [template_of flat_map segment_text].
    apply app_nil_r. }
  rewrite Hfile. reflexivity.
Qed.

Lemma default_note_path_witness :
  crawlAndAdd Sample.with_omdb_key Sample.net_found "Dune (2024)" start
  = (Return tt,
     {| requests := 2;
        log :=
          [Notice "Youtube API key is missing. Trailer will not be added.";
           Request "https://www.omdbapi.com/?apikey=k&t=Dune&y=2024";
           ConsoleLog;
           Create "movies/Dune- Part Two.md"
             (formatted Sample.with_omdb_key
                (Record.set Sample.dune "Title" "Dune- Part Two")
                (template DEFAULT_SETTINGS) []);
           OpenLink "movies/Dune- Part Two.md";
           Notice "Movie added successfully!"];
        background :=
          [Request "http://x/p.jpg";
           CreateBinary "assets/Dune- Part Two.jpg"] |}).
Proof.
  exact (proj1 (default_note_path Sample.with_omdb_key Sample.net_found
                  "Dune (2024)" start Sample.dune "Dune: Part Two" [] []
                  eq_refl eq_refl eq_refl eq_refl eq_refl eq_refl eq_refl)).
Defined.

(** X18: the number of requests of a run of [crawlAndAdd] is fixed by the
    configuration and by the point where the run ends: none without the
    movie-database key, one when the metadata fetch fails, two (metadata
    and poster) when no video-search key is configured, three when the
    trailer lookup for the note throws, and four otherwise; no request is
    repeated on failure. *)
Theorem crawlAndAdd_request_count
    (this : MoviePlugin) (net : world) (text : jsstring) (st : state) :
  let run := crawlAndAdd this net text st in
  requests (snd run)
  = requests st
    + (if Str.truthy (omdbapikey (settings this)) then
         match lookup_result (net (requests st) (getUrl this text)) with
         | None => 1
         | Some movie =>
             if Str.truthy (youtubeapikey (settings this)) then
               match trailer_outcome this net movie
                       (fetched this net text movie st) with
               | Throw _ => 3
               | Return _ => 4
               end
             else 2
         end
       else 0)
  /\ requests (snd run) <= requests st + 4.
Proof.
  intros run.
  assert (H : requests (snd run)
              = requests st
                + (if Str.truthy (omdbapikey (settings this)) then
                     match lookup_result
                             (net (requests st) (getUrl this text)) with
                     | None => 1
                     | Some movie =>
                         if Str.truthy (youtubeapikey (settings this)) then
                           match trailer_outcome this net movie
                                   (fetched this net text movie st) with
                           | Throw _ => 3
                           | Return _ => 4
                           end
                         else 2
                     end
                   else 0)).
  { unfold run. rewrite crawlAndAdd_normal.
    destruct (Str.truthy (omdbapikey (settings this)));
      [|cbn [snd logging requests]; lia].
    destruct (lookup_result (net (requests st) (getUrl this text)))
      as [movie|]; [|cbn [snd requests]; lia].
    cbv zeta. set (s1 := fetched this net text movie st).
    assert (Hn1 : requests s1 = S (S (requests st))) by reflexivity.
    destruct (trailer_outcome this net movie s1) as [t1|e1] eqn:H1.
    - destruct (trailer_outcome this net movie (after_trailer this movie s1));
        cbn [snd logging requests]; rewrite !after_trailer_requests, Hn1;
        destruct (Str.truthy (youtubeapikey (settings this))); lia.
    - cbn [snd]. rewrite after_trailer_requests, Hn1.
      unfold trailer_outcome in H1.
      destruct (Str.truthy (youtubeapikey (settings this)));
        [lia | discriminate]. }
  split; [exact H|]. rewrite H.
  destruct (Str.truthy (omdbapikey (settings this))); [|lia].
  destruct (lookup_result _) as [movie|]; [|lia].
  destruct (Str.truthy (youtubeapikey (settings this))); [|lia].
  destruct (trailer_outcome _ _ _ _); lia.
Qed.

(** ** The default template and the modal *)

(** X19: no token occurs twice in the default template, so that
    [formatMovie] fills all of it: the note is the poster text, the
    runtime text, the fields [Genre], [Actors], [Year], [imdbRating],
    [imdbVotes] and [Plot] and the trailer text between the fixed words of
    the template, with the token of a field that the record lacks left in
    its place.  The title is no part of it. *)
Theorem default_template_note
    (this : MoviePlugin) (net : world) (data : record) (st : state)
    (trailer : jsstring) :
  template (settings this) = template DEFAULT_SETTINGS ->
  forallb clean (substitutions this data trailer) = true ->
  trailer_text this net data st = Some trailer ->
  formatMovie this net data st
  = (Return
       (poster_text this data ++ newline
        ++ "**Length:** " ++ runtime_text data ++ newline
        ++ "**Genre:** " ++ shown data "Genre" ++ newline
        ++ "**Actors:** " ++ shown data "Actors" ++ newline
        ++ "**Year:** " ++ shown data "Year" ++ newline
        ++ "**IMDB Score:** " ++ shown data "imdbRating"
        ++ " (" ++ shown data "imdbVotes" ++ ")" ++ newline ++ newline
        ++ shown data "Plot" ++ newline ++ newline ++ trailer),
     after_trailer this data st).
Proof.
  intros Htmpl Hclean Htrailer. unfold formatMovie.
  rewrite (formatter_runs _ _ _ _ _ _ Htrailer). f_equal. f_equal.
  rewrite Htmpl.
  change (template DEFAULT_SETTINGS) with (template_of default_segments).
  rewrite formatted_fill_all by (reflexivity || assumption).
  unfold fill_all, default_segments, template_of.
  cbn [map flat_map].
  rewrite (segment_text_field this data trailer "Genre" eq_refl),
    (segment_text_field this data trailer "Actors" eq_refl),
    (segment_text_field this data trailer "Year" eq_refl),
    (segment_text_field this data trailer "imdbRating" eq_refl),
    (segment_text_field this data trailer "imdbVotes" eq_refl),
    (segment_text_field this data trailer "Plot" eq_refl).
  cbn [fill_segment segment_text].
  change (token_value this data trailer "Poster")
    with (Some (poster_text this data)).
  change (token_value this data trailer "Runtime")
    with (Some (runtime_text data)).
  change (token_value this data trailer "Trailer") with (Some trailer).
  cbn [segment_text]. rewrite app_nil_r. now rewrite <- !app_assoc.
Qed.

Lemma default_template_note_witness :
  formatMovie Sample.with_omdb_key Sample.net_found Sample.dune start
  = (Return
       ("![[assets/Dune: Part Two.jpg|movie|200]]" ++ newline
        ++ "**Length:** 2h 46m" ++ newline
        ++ "**Genre:** {{Genre}}" ++ newline
        ++ "**Actors:** {{Actors}}" ++ newline
        ++ "**Year:** 2024" ++ newline
        ++ "**IMDB Score:** {{imdbRating}} ({{imdbVotes}})" ++ newline
        ++ newline ++ "Spice." ++ newline ++ newline),
     start).
Proof.
  exact (default_template_note Sample.with_omdb_key Sample.net_found
           Sample.dune start [] eq_refl eq_refl eq_refl).
Defined.

(** X20: the Submit button of the modal starts [crawlAndAdd] on the text
    that the control reported last, without a test for an empty text.
    Submitted untouched, the modal makes the plugin look up the title
    [undefined]; after the text was typed and erased, the plugin looks up
    the empty title. *)
Theorem modal_submits_last_text
    (this : MoviePlugin) (net : world) (values : list jsstring) (st : state) :
  MovieModal.onClick this net (MovieModal.typing values MovieModal.opened) st
  = crawlAndAdd this net (last values "undefined") st
  /\ getUrl this (js_str (MovieModal.result MovieModal.opened))
     = omdbApiUrl this ++ "t=undefined"
  /\ getUrl this
       (js_str (MovieModal.result
                  (MovieModal.typing (values ++ [[]]) MovieModal.opened)))
     = omdbApiUrl this ++ "t=".
Proof.
  split; [|split].
  - unfold MovieModal.onClick. now rewrite typing_last.
  - reflexivity.
  - rewrite typing_last, last_last. reflexivity.
Qed.
